(** * Yield-Curve-vs-Market: the acquisition, caching and merge pipeline

    A shallow embedding of [helpers.py]: the pickle cache
    ([load_or_download]), the source loaders, the month-end resampling and
    6-period percent change, the World Bank / Yahoo Finance splice for gold
    and silver, the merge into the combined table, and the extraction of
    recession and inversion periods.

    Conventions.
    - A timestamp is a whole number of days since 1970-01-01 ([Z]); every
      index in this program is daily or month-end, dated at midnight.
    - A float is a binary64 number ([fval], the primitive floats of the
      kernel, which round as numpy does); pandas' missing value is NaN.
    - A [Series] is its list of (label, value) rows in positional order.
    - The file system, standard output and the network are explicit in a
      [World]; a Python exception is the [Raise] result of the monad [M]. *)

From Stdlib Require Import Floats.
From Stdlib Require Import ZArith List Ascii String Bool Lia DecimalString
  Sorted.
From stdpp Require Import gmap strings.
Import ListNotations.

Open Scope Z_scope.

(** ** Values *)

Notation fval := float (only parsing).

Notation NaN := nan.

Definition isna (v : fval) : bool := PrimFloat.is_nan v.

Definition notna (v : fval) : bool := negb (isna v).

Definition fzero : fval := 0%float.
Definition fone : fval := 1%float.
Definition fhundred : fval := 100%float.

(** [x / y], [x - y] and [x * y] on floats, rounded to nearest. *)
Definition fdiv (x y : fval) : fval := (x / y)%float.

Definition fsub (x y : fval) : fval := (x - y)%float.

Definition fmul (x y : fval) : fval := (x * y)%float.

(** [v == 1] and [v < 0] as pandas evaluates them: false on NaN. *)
Definition feq_one (v : fval) : bool := (v =? fone)%float.

Definition flt_zero (v : fval) : bool := (v <? fzero)%float.

(** ** Series and frames *)

Notation Timestamp := Z (only parsing).

Notation Series := (list (Timestamp * fval)) (only parsing).

(** A DataFrame: one index shared by the named columns. *)
Record Frame : Type := mkFrame {
  index : list Timestamp;
  columns : list (string * list fval)
}.

Fixpoint assoc {A : Type} (name : string) (l : list (string * A)) : option A :=
  match l with
  | [] => None
  | (k, v) :: t => if String.eqb k name then Some v else assoc name t
  end.

(** ** Results, exceptions and the world *)

Definition exn : Type := string.

Inductive result (A : Type) : Type :=
| Ok (a : A)
| Raise (e : exn).

Arguments Ok {A} a.
Arguments Raise {A} e.

Inductive File : Type :=
| PickleFile (payload : Frame)
| ExcelFile (sheet : option Frame).

Record World : Type := mkWorld {
  files : gmap string File;
  dirs : gset string;
  stdout : list string;
  fetches : nat;
  clock : Timestamp;
  pct_pads : bool
}.

Definition M (A : Type) : Type := World -> result A * World.

Definition ret {A : Type} (a : A) : M A := fun w => (Ok a, w).

Definition raise {A : Type} (e : exn) : M A := fun w => (Raise e, w).

Definition bind {A B : Type} (m : M A) (k : A -> M B) : M B :=
  fun w =>
    match m w with
    | (Ok a, w') => k a w'
    | (Raise e, w') => (Raise e, w')
    end.

(** [try: m except Exception as e: h e] *)
Definition try_except {A : Type} (m : M A) (h : exn -> M A) : M A :=
  fun w =>
    match m w with
    | (Ok a, w') => (Ok a, w')
    | (Raise e, w') => h e w'
    end.

Declare Scope monad_scope.
Delimit Scope monad_scope with monad.
Notation "'do' x <- m ; k" := (bind m (fun x => k))
  (at level 10, x name, m at level 100, k at level 200) : monad_scope.
Notation "'do' ' p <- m ; k" := (bind m (fun x => match x with p => k end))
  (at level 10, p pattern, m at level 100, k at level 200) : monad_scope.
Notation "'run' m ; k" := (bind m (fun _ => k))
  (at level 10, m at level 100, k at level 200) : monad_scope.
Open Scope monad_scope.

Definition lift_result {A : Type} (r : result A) : M A := fun w => (r, w).

Definition print (line : string) : M unit :=
  fun w => (Ok tt, mkWorld (files w) (dirs w) (stdout w ++ [line])
                           (fetches w) (clock w) (pct_pads w)).

(** The world once [line] has been printed. *)
Definition with_line (line : string) (w : World) : World :=
  mkWorld (files w) (dirs w) (stdout w ++ [line]) (fetches w) (clock w)
          (pct_pads w).

Definition now : M Timestamp := fun w => (Ok (clock w), w).

(** *** The file system *)

Definition starts_with_slash (s : string) : bool :=
  match s with String c _ => Ascii.eqb c "/"%char | EmptyString => false end.

Fixpoint ends_with_slash (s : string) : bool :=
  match s with
  | EmptyString => false
  | String c EmptyString => Ascii.eqb c "/"%char
  | String _ t => ends_with_slash t
  end.

(** [os.path.join] of two components. *)
Definition path_join (d f : string) : string :=
  if starts_with_slash f then f
  else if String.eqb d "" then f
  else if ends_with_slash d then d +:+ f
  else d +:+ "/" +:+ f.

(** The string holds a slash or a null character. *)
Fixpoint has_separator (s : string) : bool :=
  match s with
  | EmptyString => false
  | String c t =>
      Ascii.eqb c "/"%char || Ascii.eqb c Ascii.zero || has_separator t
  end.

(** A plain name: not empty, not [.] or [..], and with no slash and no
    null character.  Joined to a directory, a plain name is the path of an
    entry of that directory; the file system is modelled for such paths,
    each spelled in one way. *)
Definition plain_name (f : string) : bool :=
  negb (String.eqb f "") && negb (String.eqb f ".") &&
  negb (String.eqb f "..") && negb (has_separator f).

Definition path_exists (p : string) (w : World) : bool :=
  bool_decide (is_Some (files w !! p)) || bool_decide (p ∈ dirs w).

Definition os_path_exists (p : string) : M bool :=
  fun w => (Ok (path_exists p w), w).

(** [os.makedirs(d, exist_ok=True)] *)
Definition os_makedirs (d : string) : M unit :=
  fun w =>
    if String.eqb d "" then (Raise "FileNotFoundError", w)
    else match files w !! d with
         | Some _ => (Raise "FileExistsError", w)
         | None => (Ok tt, mkWorld (files w) ({[d]} ∪ dirs w) (stdout w)
                                  (fetches w) (clock w) (pct_pads w))
         end.

(** [with open(p, 'rb') as f: pickle.load(f)] *)
Definition pickle_load (p : string) : M Frame :=
  fun w =>
    match files w !! p with
    | Some (PickleFile payload) => (Ok payload, w)
    | Some (ExcelFile _) => (Raise "UnpicklingError", w)
    | None =>
        if bool_decide (p ∈ dirs w) then (Raise "IsADirectoryError", w)
        else (Raise "FileNotFoundError", w)
    end.

(** [with open(p, 'wb') as f: pickle.dump(data, f)] *)
Definition pickle_dump (p : string) (data : Frame) : M unit :=
  fun w =>
    if bool_decide (p ∈ dirs w) then (Raise "IsADirectoryError", w)
    else (Ok tt, mkWorld (<[p := PickleFile data]> (files w)) (dirs w)
                         (stdout w) (fetches w) (clock w) (pct_pads w)).

(** *** Download functions

    A download function performs network I/O and may print: it gives the
    lines it prints and its result, and its answer may depend on when it is
    asked, here the number of downloads made before it.  Every invocation
    is counted in [fetches]. *)

Definition Downloader : Type := nat -> list string * result Frame.

Definition call_download (download_func : Downloader) : M Frame :=
  fun w =>
    let '(out, r) := download_func (fetches w) in
    (r, mkWorld (files w) (dirs w) (stdout w ++ out) (S (fetches w))
                (clock w) (pct_pads w)).

(** ** [load_or_download] *)

Definition DEFAULT_START_DATE : Timestamp := -3653.
Definition DEFAULT_CACHE_DIR : string := "data_cache".

Definition load_or_download (cache_file : string) (download_func : Downloader)
    (description : string) (cache_dir : string) : M Frame :=
  run os_makedirs cache_dir ;
  let cache_path := path_join cache_dir cache_file in
  do cached <- os_path_exists cache_path ;
  if cached then
    run print ("  Loading " +:+ description +:+ " from cache...") ;
    pickle_load cache_path
  else
    run print ("  Downloading " +:+ description +:+ "...") ;
    do data <- call_download download_func ;
    run pickle_dump cache_path data ;
    ret data.

(** ** The calendar

    Days since 1970-01-01 to and from (year, month, day) in the proleptic
    Gregorian calendar, as pandas' [Timestamp] does it. *)

Definition days_from_civil (y m d : Z) : Timestamp :=
  let y' := if m <=? 2 then y - 1 else y in
  let era := y' / 400 in
  let yoe := y' - era * 400 in
  let doy := (153 * (if m >? 2 then m - 3 else m + 9) + 2) / 5 + d - 1 in
  let doe := yoe * 365 + yoe / 4 - yoe / 100 + doy in
  era * 146097 + doe - 719468.

Definition civil_from_days (t : Timestamp) : Z * Z * Z :=
  let z := t + 719468 in
  let era := z / 146097 in
  let doe := z - era * 146097 in
  let yoe := (doe - doe / 1460 + doe / 36524 - doe / 146096) / 365 in
  let doy := doe - (365 * yoe + yoe / 4 - yoe / 100) in
  let mp := (5 * doy + 2) / 153 in
  let d := doy - (153 * mp + 2) / 5 + 1 in
  let m := if mp <? 10 then mp + 3 else mp - 9 in
  let y := yoe + era * 400 in
  (if m <=? 2 then y + 1 else y, m, d).

(** The calendar month of a timestamp, counted from year 0: [12*y + (m-1)]. *)
Definition month_index (t : Timestamp) : Z :=
  let '(y, m, _) := civil_from_days t in 12 * y + (m - 1).

(** The last day of month [k]: the label of its ['ME'] bin. *)
Definition month_end (k : Z) : Timestamp :=
  days_from_civil ((k + 1) / 12) ((k + 1) mod 12 + 1) 1 - 1.

(** ** Series operations *)

(** [s[label]]: the value of the first row labelled [d], if there is one. *)
Fixpoint get (s : Series) (d : Timestamp) : option fval :=
  match s with
  | [] => None
  | (k, v) :: t => if k =? d then Some v else get t d
  end.

Definition has_label (s : Series) (d : Timestamp) : bool :=
  existsb (fun r => fst r =? d) s.

(** [s[label] = v]: overwrite the rows so labelled, or append a new row. *)
Definition setitem (s : Series) (d : Timestamp) (v : fval) : Series :=
  if has_label s d
  then map (fun r => if fst r =? d then (d, v) else r) s
  else s ++ [(d, v)].

Fixpoint insert_row (r : Timestamp * fval) (s : Series) : Series :=
  match s with
  | [] => [r]
  | r' :: t => if fst r <=? fst r' then r :: r' :: t else r' :: insert_row r t
  end.

(** [s.sort_index()]: a stable sort on the labels. *)
Definition sort_index (s : Series) : Series :=
  fold_right insert_row [] s.

Definition dropna (s : Series) : Series :=
  List.filter (fun r => notna (snd r)) s.

(** [s.index[0]] and [s.index[-1]]: [IndexError] on an empty index. *)
Definition index_first (idx : list Timestamp) : result Timestamp :=
  match idx with
  | [] => Raise "IndexError"
  | d :: _ => Ok d
  end.

Definition index_last (idx : list Timestamp) : result Timestamp :=
  match idx with
  | [] => Raise "IndexError"
  | d :: t => Ok (List.last t d)
  end.

(** *** Month-end resampling *)

(** The integers from [lo] to [hi], both included. *)
Definition zrange (lo hi : Z) : list Z := seqZ lo (hi - lo + 1).

(** The bins of [resample('ME')]: every calendar month from the month of the
    earliest label to the month of the latest one, whether or not a label
    falls in it. *)
Definition month_bins (idx : list Timestamp) : list Z :=
  match map month_index idx with
  | [] => []
  | m :: ms => zrange (fold_right Z.min m ms) (fold_right Z.max m ms)
  end.

(** [.last()] of a bin: its last value that is not NaN; NaN for a bin with
    none. *)
Definition agg_last (vs : list fval) : fval :=
  fold_left (fun acc v => if isna v then acc else v) vs NaN.

Definition fmax (x y : fval) : fval :=
  if isna x then y
  else if isna y then x
  else if (x <? y)%float then y else x.

(** [.max()] of a bin: the largest value that is not NaN; NaN for a bin with
    none. *)
Definition agg_max (vs : list fval) : fval :=
  fold_left fmax vs NaN.

(** The values of the rows whose label falls in month [k], in the order of
    their dates: [resample] sorts the rows by label first (a stable sort, so
    rows of one date keep their order). *)
Definition bin_values (k : Z) (idx : list Timestamp) (vs : list fval)
  : list fval :=
  map snd (List.filter (fun r => month_index (fst r) =? k)
                       (sort_index (zip idx vs))).

(** The rows of [s] whose label falls in month [k], in the order of their
    dates. *)
Definition month_rows (k : Z) (s : Series) : Series :=
  List.filter (fun r => month_index (fst r) =? k) (sort_index s).

(** [s.resample('ME').agg()] *)
Definition resample_ME (agg : list fval -> fval) (s : Series) : Series :=
  map (fun k => (month_end k, agg (bin_values k (map fst s) (map snd s))))
      (month_bins (map fst s)).

(** [df.resample('ME').agg()], column by column. *)
Definition frame_resample_ME (agg : list fval -> fval) (f : Frame) : Frame :=
  let bins := month_bins (index f) in
  mkFrame (map month_end bins)
          (map (fun c => (fst c,
                          map (fun k => agg (bin_values k (index f) (snd c)))
                              bins))
               (columns f)).

(** *** Percent change *)

(** [vs.shift(n)]: every value moves down [n] rows; the first [n] are NaN. *)
Definition shift (n : nat) (vs : list fval) : list fval :=
  take (length vs) (replicate n NaN ++ vs).

(** One entry of [s.pct_change(...) * 100]: the value [v] against the value
    [p] it is compared with. *)
Definition pct_of (v p : fval) : fval :=
  fmul (fsub (fdiv v p) fone) fhundred.

(** [s.pct_change(periods=n, fill_method=None)], computed as
    [s / s.shift(n) - 1] on the values as they are (no filling of missing
    values beforehand). *)
Definition pct_change (n : nat) (s : Series) : Series :=
  zip (map fst s)
      (zip_with (fun v p => fsub (fdiv v p) fone)
                (map snd s) (shift n (map snd s))).

(** [pct_change] as pandas before 3.0 computes it when [fill_method] is left
    to its default ['pad']: the missing values are first replaced by the
    last value before them. *)
Fixpoint ffill_from (last : fval) (vs : list fval) : list fval :=
  match vs with
  | [] => []
  | v :: t =>
      let v' := if isna v then last else v in
      v' :: ffill_from v' t
  end.

Definition ffill (vs : list fval) : list fval := ffill_from NaN vs.

Definition pct_change_pad (n : nat) (s : Series) : Series :=
  pct_change n (zip (map fst s) (ffill (map snd s))).

(** [s.pct_change(periods=n)] as the program calls it, [fill_method] left to
    its default: pandas 2.2 and 2.3 pad first, pandas 3 does not.  Which one
    runs is a fact of the installation ([pct_pads] of the world). *)
Definition pct_change_default (pads : bool) (n : nat) (s : Series) : Series :=
  if pads then pct_change_pad n s else pct_change n s.

Definition pct_change_call (n : nat) (s : Series) : M Series :=
  fun w => (Ok (pct_change_default (pct_pads w) n s), w).

(** [s * 100] *)
Definition times_100 (s : Series) : Series :=
  map (fun r => (fst r, fmul (snd r) fhundred)) s.

(** *** Frames *)

(** [df[name]]: [KeyError] when there is no such column. *)
Definition get_col (f : Frame) (name : string) : result Series :=
  match assoc name (columns f) with
  | Some vs => Ok (zip (index f) vs)
  | None => Raise "KeyError"
  end.

(** [df[name] = vs]: replace the column, or add it as the last one. *)
Fixpoint set_assoc {A : Type} (name : string) (v : A) (l : list (string * A))
  : list (string * A) :=
  match l with
  | [] => [(name, v)]
  | (k, x) :: t =>
      if String.eqb k name then (k, v) :: t else (k, x) :: set_assoc name v t
  end.

Definition set_col (f : Frame) (name : string) (vs : list fval) : Frame :=
  mkFrame (index f) (set_assoc name vs (columns f)).

(** [s.reindex(idx)]: the value at each label of [idx], NaN where [s] has no
    such label. *)
Definition reindex (s : Series) (idx : list Timestamp) : list fval :=
  map (fun d => match get s d with Some v => v | None => NaN end) idx.

(** *** The frame of several series

    [pd.DataFrame({name: series, ...})] takes the union of the indexes, one
    after the other, and aligns every series on it.  What is proved of such
    a frame is about its dates and the values at them, not about the order
    of its rows. *)

Fixpoint insert_label (d : Timestamp) (l : list Timestamp) : list Timestamp :=
  match l with
  | [] => [d]
  | x :: t => if d <=? x then d :: x :: t else x :: insert_label d t
  end.

Definition sort_labels (l : list Timestamp) : list Timestamp :=
  fold_right insert_label [] l.

(** [l] without the first occurrence of [d]. *)
Fixpoint remove_first (d : Timestamp) (l : list Timestamp) : list Timestamp :=
  match l with
  | [] => []
  | x :: t => if x =? d then t else x :: remove_first d t
  end.

(** [a.union(b)]: [a] itself when [b] is empty or equal to [a], [b] when
    [a] is empty; otherwise the labels of both, sorted, a label repeated in
    one of them being repeated as often in the union. *)
Definition union_labels (a b : list Timestamp) : list Timestamp :=
  match a, b with
  | _, [] => a
  | [], _ => b
  | _, _ =>
      if bool_decide (a = b) then a
      else sort_labels (a ++ fold_left (fun l d => remove_first d l) a b)
  end.

Definition union_index (idxs : list (list Timestamp)) : list Timestamp :=
  match idxs with
  | [] => []
  | idx :: rest => fold_left union_labels rest idx
  end.

(** A series aligned on [idx]: itself when [idx] is its own index, its
    [reindex] otherwise, which pandas refuses ([ValueError]) when the series
    repeats a label. *)
Definition align (idx : list Timestamp) (s : Series) : result (list fval) :=
  if bool_decide (map fst s = idx) then Ok (map snd s)
  else if bool_decide (NoDup (map fst s)) then Ok (reindex s idx)
  else Raise "ValueError".

Fixpoint align_all (idx : list Timestamp) (cols : list (string * Series))
  : result (list (string * list fval)) :=
  match cols with
  | [] => Ok []
  | (name, s) :: rest =>
      match align idx s, align_all idx rest with
      | Ok vs, Ok aligned => Ok ((name, vs) :: aligned)
      | Raise e, _ | _, Raise e => Raise e
      end
  end.

(** [pd.DataFrame({name: series, ...})], the names being different. *)
Definition frame_of_series (cols : list (string * Series)) : result Frame :=
  let idx := union_index (map (fun c => map fst (snd c)) cols) in
  match align_all idx cols with
  | Ok aligned => Ok (mkFrame idx aligned)
  | Raise e => Raise e
  end.

(** The rows of [l] at which [mask] is true. *)
Fixpoint filter_by {A : Type} (mask : list bool) (l : list A) : list A :=
  match mask, l with
  | b :: mt, x :: t => if b then x :: filter_by mt t else filter_by mt t
  | _, _ => []
  end.

(** [df[mask]] *)
Definition select_rows (mask : list bool) (f : Frame) : Frame :=
  mkFrame (filter_by mask (index f))
          (map (fun c => (fst c, filter_by mask (snd c))) (columns f)).

(** The mask of [df.dropna(subset=names)]: a row is kept when none of the
    named columns is NaN there. *)
Fixpoint notna_mask (f : Frame) (names : list string) : result (list bool) :=
  match names with
  | [] => Ok (map (fun _ => true) (index f))
  | name :: rest =>
      match assoc name (columns f), notna_mask f rest with
      | None, _ => Raise "KeyError"
      | _, Raise e => Raise e
      | Some vs, Ok mask => Ok (zip_with andb (map notna vs) mask)
      end
  end.

Definition dropna_subset (names : list string) (f : Frame) : result Frame :=
  match notna_mask f names with
  | Ok mask => Ok (select_rows mask f)
  | Raise e => Raise e
  end.

(** ** Contiguous periods *)

Notation Period := (Timestamp * Timestamp)%type (only parsing).

(** [pd.Timedelta(days=45)] *)
Definition GAP_TOLERANCE : Z := 45.

(** [dates.diff()]: the distance to the previous row; NaT on the first. *)
Definition index_diff (dates : list Timestamp) : list (option Z) :=
  match dates with
  | [] => []
  | _ :: t => None :: zip_with (fun cur prev => Some (cur - prev)) t dates
  end.

(** [diff > tolerance]: a comparison with NaT is false. *)
Definition gap_exceeds (g : option Z) : bool :=
  match g with
  | Some days => days >? GAP_TOLERANCE
  | None => false
  end.

Fixpoint cumsum_from (acc : nat) (bs : list bool) : list nat :=
  match bs with
  | [] => []
  | b :: t =>
      let acc' := if b then S acc else acc in
      acc' :: cumsum_from acc' t
  end.

(** [gaps.cumsum()]: True counts as one. *)
Definition cumsum (bs : list bool) : list nat := cumsum_from 0 bs.

(** [groups.unique()]: the distinct values in order of first appearance. *)
Fixpoint unique (l : list nat) : list nat :=
  match l with
  | [] => []
  | x :: t => x :: List.filter (fun y => negb (Nat.eqb y x)) (unique t)
  end.

(** The loop over the group ids: each group gives the pair of its first and
    last date ([iloc[0]], [iloc[-1]]). *)
Fixpoint collect_periods (dates : list Timestamp) (groups : list nat)
    (ids : list nat) : result (list Period) :=
  match ids with
  | [] => Ok []
  | group_id :: rest =>
      match filter_by (map (Nat.eqb group_id) groups) dates with
      | [] => Raise "IndexError"
      | d :: t =>
          match collect_periods dates groups rest with
          | Ok periods => Ok ((d, List.last t d) :: periods)
          | Raise e => Raise e
          end
      end
  end.

(** The body shared by [get_recession_periods] and [get_inversion_periods],
    from the dates of the selected rows on. *)
Definition periods_of_dates (dates : list Timestamp) : result (list Period) :=
  if Nat.eqb (length dates) 0 then Ok []
  else
    let gaps := map gap_exceeds (index_diff dates) in
    let groups := cumsum gaps in
    collect_periods dates groups (unique groups).

Definition get_recession_periods (df : Frame) : result (list Period) :=
  match assoc "Recession" (columns df) with
  | None => Ok []
  | Some recession =>
      let rec := select_rows (map feq_one recession) df in
      periods_of_dates (index rec)
  end.

Definition get_inversion_periods (df : Frame) (spread_col : string)
  : result (list Period) :=
  match assoc spread_col (columns df) with
  | None => Raise "KeyError"
  | Some spread =>
      let inverted := select_rows (map flt_zero spread) df in
      periods_of_dates (index inverted)
  end.

(** The interval extractor as the specification words it: scan the selected
    dates, keeping the start of the current interval and the last date of
    the run, and close the run when the gap to the next date exceeds the
    tolerance. *)
Fixpoint scan_intervals (tolerance : Z) (start last : Timestamp)
    (dates : list Timestamp) : list Period :=
  match dates with
  | [] => [(start, last)]
  | d :: t =>
      if d - last >? tolerance
      then (start, last) :: scan_intervals tolerance d d t
      else scan_intervals tolerance start d t
  end.

Definition find_intervals (tolerance : Z) (dates : list Timestamp)
  : list Period :=
  match dates with
  | [] => []
  | d :: t => scan_intervals tolerance d d t
  end.

(** ** The splice of a primary and a secondary series *)

(** The loop [for date in secondary.index: if date > wb_end_date and
    pd.notna(secondary[date]): spliced[date] = secondary[date]], started from
    a copy of the primary series, and the [sort_index()] that follows. *)
Definition splice_step (secondary : Series) (wb_end_date : Timestamp)
    (acc : Series) (date : Timestamp) : Series :=
  match get secondary date with
  | Some v =>
      if (date >? wb_end_date) && notna v then setitem acc date v else acc
  | None => acc
  end.

Definition splice (primary secondary : Series) (wb_end_date : Timestamp)
  : Series :=
  sort_index
    (fold_left (splice_step secondary wb_end_date) (map fst secondary)
               primary).

(** ** Formatting *)

Definition nl : string := String (ascii_of_nat 10) "".

Definition str_of_Z (z : Z) : string :=
  DecimalString.NilZero.string_of_int (Z.to_int z).

Definition str_of_nat (n : nat) : string := str_of_Z (Z.of_nat n).

Definition two_digits (z : Z) : string :=
  if z <? 10 then "0" +:+ str_of_Z z else str_of_Z z.

(** [t.strftime('%Y-%m')] and [t.strftime('%Y-%m-%d')] *)
Definition strftime_ym (t : Timestamp) : string :=
  let '(y, m, _) := civil_from_days t in str_of_Z y +:+ "-" +:+ two_digits m.

Definition strftime_ymd (t : Timestamp) : string :=
  let '(y, m, d) := civil_from_days t in
  str_of_Z y +:+ "-" +:+ two_digits m +:+ "-" +:+ two_digits d.

(** ** The source loaders

    The remote providers are the environment of the pipeline: Yahoo
    Finance ([yf.download], whose frame is taken with its columns already
    named by their first level), FRED ([web.DataReader]) and the World Bank
    workbook ([urllib.request.urlretrieve]).  Each may fail, and may answer
    differently from one request to the next (the [nat] is the number of
    downloads made before). *)

Section Loaders.

Variable yf_download : string -> Timestamp -> Timestamp -> nat -> result Frame.
Variable fred_reader : string -> Timestamp -> Timestamp -> nat -> result Frame.
Variable urlretrieve : string -> nat -> result File.

(** [start_date or DEFAULT_START_DATE] and [end_date or datetime.now()] *)
Definition start_or_default (start_date : option Timestamp) : Timestamp :=
  match start_date with
  | Some d => d
  | None => DEFAULT_START_DATE
  end.

Definition end_or_now (end_date : option Timestamp) : M Timestamp :=
  match end_date with
  | Some d => ret d
  | None => now
  end.

(** A download closure that prints nothing of its own. *)
Definition quiet (f : nat -> result Frame) : Downloader :=
  fun n => ([], f n).

Definition load_nasdaq_data (start_date end_date : option Timestamp)
    (cache_dir : string) : M (Frame * Series * Series) :=
  let start_date := start_or_default start_date in
  do end_date <- end_or_now end_date ;
  run print "Loading NASDAQ data..." ;
  let download := quiet (yf_download "^IXIC" start_date end_date) in
  do nasdaq <- load_or_download "nasdaq.pkl" download "NASDAQ" cache_dir ;
  do nasdaq_price <- lift_result (get_col nasdaq "Close") ;
  let nasdaq_monthly := resample_ME agg_last nasdaq_price in
  do nasdaq_change <- pct_change_call 6 nasdaq_monthly ;
  let nasdaq_pct := times_100 nasdaq_change in
  ret (nasdaq, nasdaq_monthly, nasdaq_pct).

Definition load_sp500_data (start_date end_date : option Timestamp)
    (cache_dir : string) : M (Frame * Series * Series) :=
  let start_date := start_or_default start_date in
  do end_date <- end_or_now end_date ;
  run print "Loading S&P 500 data..." ;
  let download := quiet (yf_download "^GSPC" start_date end_date) in
  do sp500 <- load_or_download "sp500.pkl" download "S&P 500" cache_dir ;
  do sp500_price <- lift_result (get_col sp500 "Close") ;
  let sp500_monthly := resample_ME agg_last sp500_price in
  do sp500_change <- pct_change_call 6 sp500_monthly ;
  let sp500_pct := times_100 sp500_change in
  ret (sp500, sp500_monthly, sp500_pct).

(** *** Gold and silver *)

Definition wb_name : string := "CMO-Historical-Data-Monthly.xlsx".

Definition wb_url : string :=
  "https://thedocs.worldbank.org/en/doc/5d903e848db1d1b83e0ec8f744e55570-0350012021/related/CMO-Historical-Data-Monthly.xlsx".

(** [os.rename(src, dst)] *)
Definition os_rename (src dst : string) : M unit :=
  fun w =>
    match files w !! src with
    | Some f =>
        (Ok tt, mkWorld (<[dst := f]> (delete src (files w))) (dirs w)
                        (stdout w) (fetches w) (clock w) (pct_pads w))
    | None =>
        if bool_decide (src ∈ dirs w)
        then (Ok tt, mkWorld (files w) ({[dst]} ∪ (dirs w ∖ {[src]}))
                             (stdout w) (fetches w) (clock w) (pct_pads w))
        else (Raise "FileNotFoundError", w)
    end.

(** [urllib.request.urlretrieve(url, path)] *)
Definition urlretrieve_to (url path : string) : M unit :=
  fun w =>
    let w' := mkWorld (files w) (dirs w) (stdout w) (S (fetches w)) (clock w)
                      (pct_pads w) in
    match urlretrieve url (fetches w) with
    | Ok f =>
        (Ok tt, mkWorld (<[path := f]> (files w)) (dirs w) (stdout w)
                        (S (fetches w)) (clock w) (pct_pads w))
    | Raise e => (Raise e, w')
    end.

(** Reading the workbook: [pd.read_excel] of the sheet 'Monthly Prices',
    the units row skipped, the first column parsed into month-end dates and
    set as the index, the price columns coerced to numbers.  The sheet of an
    [ExcelFile] is the frame these steps give; [None] stands for a workbook
    on which one of them raises. *)
Definition read_wb_data (path : string) : M Frame :=
  fun w =>
    match files w !! path with
    | Some (ExcelFile (Some sheet)) => (Ok sheet, w)
    | Some (ExcelFile None) => (Raise "ValueError", w)
    | Some (PickleFile _) => (Raise "ValueError", w)
    | None => (Raise "FileNotFoundError", w)
    end.

Definition when (b : bool) (m : M unit) : M unit :=
  if b then m else ret tt.

(** The line printed for a spliced metal; [IndexError] when the series has
    no value at all. *)
Definition print_metal_range (label : string) (monthly : Series) : M unit :=
  let valid := map fst (dropna monthly) in
  do first <- lift_result (index_first valid) ;
  do last <- lift_result (index_last valid) ;
  print ("  " +:+ label +:+ ": " +:+ strftime_ym first +:+ " to " +:+
         strftime_ym last +:+ " (" +:+ str_of_nat (length valid) +:+
         " points)").

Definition empty_series : Series := [].

Definition load_gold_silver_data (start_date end_date : option Timestamp)
    (cache_dir : string) : M (Series * Series * Series * Series) :=
  let start_date := start_or_default start_date in
  do end_date <- end_or_now end_date ;
  run print "Loading Gold and Silver data..." ;
  let wb_file := path_join cache_dir wb_name in
  do old_there <- os_path_exists wb_name ;
  do new_there <- os_path_exists wb_file ;
  run when (old_there && negb new_there)
        (run os_makedirs cache_dir ; os_rename wb_name wb_file) ;
  try_except
    (do cached <- os_path_exists wb_file ;
     run (if negb cached then
            run print "  Downloading World Bank data..." ;
            run os_makedirs cache_dir ;
            urlretrieve_to wb_url wb_file
          else print "  Loading World Bank data from cache...") ;
     do wb_data <- read_wb_data wb_file ;
     do wb_gold <- lift_result (get_col wb_data "Gold") ;
     do wb_silver <- lift_result (get_col wb_data "Silver") ;
     do wb_end_date <- lift_result (index_last (map fst (dropna wb_gold))) ;
     run print ("  World Bank data: 1960-01 to " +:+ strftime_ym wb_end_date) ;
     run print "  Fetching recent Gold/Silver from Yahoo Finance..." ;
     let download_yf_gold := quiet (yf_download "GC=F" wb_end_date end_date) in
     let download_yf_silver := quiet (yf_download "SI=F" wb_end_date end_date) in
     do yf_gold <- load_or_download "yf_gold.pkl" download_yf_gold
                     "Yahoo Finance Gold" cache_dir ;
     do yf_silver <- load_or_download "yf_silver.pkl" download_yf_silver
                       "Yahoo Finance Silver" cache_dir ;
     do yf_gold_close <- lift_result (get_col yf_gold "Close") ;
     let yf_gold_monthly := resample_ME agg_last yf_gold_close in
     do yf_silver_close <- lift_result (get_col yf_silver "Close") ;
     let yf_silver_monthly := resample_ME agg_last yf_silver_close in
     let gold_monthly := splice wb_gold yf_gold_monthly wb_end_date in
     let silver_monthly := splice wb_silver yf_silver_monthly wb_end_date in
     do gold_change <- pct_change_call 6 gold_monthly ;
     let gold_pct := times_100 gold_change in
     do silver_change <- pct_change_call 6 silver_monthly ;
     let silver_pct := times_100 silver_change in
     run print_metal_range "Gold" gold_monthly ;
     run print_metal_range "Silver" silver_monthly ;
     ret (gold_monthly, gold_pct, silver_monthly, silver_pct))
    (fun e =>
       run print ("Warning: Could not load Gold/Silver data: " +:+ e) ;
       ret (empty_series, empty_series, empty_series, empty_series)).

(** The steps of [load_gold_silver_data] on their own: the move of a
    workbook found at the old place (lines 122 to 125); the reading of the
    World Bank workbook, downloaded first when the cache has none (lines 129
    to 144); and the Yahoo Finance downloads with all that follows them
    (lines 146 to 189).  The loader is their sequence
    ([load_gold_silver_data_steps]). *)
Definition move_old_workbook (cache_dir : string) : M unit :=
  let wb_file := path_join cache_dir wb_name in
  do old_there <- os_path_exists wb_name ;
  do new_there <- os_path_exists wb_file ;
  when (old_there && negb new_there)
    (run os_makedirs cache_dir ; os_rename wb_name wb_file).

Definition read_world_bank (cache_dir : string)
  : M (Series * Series * Timestamp) :=
  let wb_file := path_join cache_dir wb_name in
  do cached <- os_path_exists wb_file ;
  run (if negb cached then
         run print "  Downloading World Bank data..." ;
         run os_makedirs cache_dir ;
         urlretrieve_to wb_url wb_file
       else print "  Loading World Bank data from cache...") ;
  do wb_data <- read_wb_data wb_file ;
  do wb_gold <- lift_result (get_col wb_data "Gold") ;
  do wb_silver <- lift_result (get_col wb_data "Silver") ;
  do wb_end_date <- lift_result (index_last (map fst (dropna wb_gold))) ;
  run print ("  World Bank data: 1960-01 to " +:+ strftime_ym wb_end_date) ;
  ret (wb_gold, wb_silver, wb_end_date).

Definition splice_with_yahoo (wb_gold wb_silver : Series)
    (wb_end_date end_date : Timestamp) (cache_dir : string)
  : M (Series * Series * Series * Series) :=
  run print "  Fetching recent Gold/Silver from Yahoo Finance..." ;
  let download_yf_gold := quiet (yf_download "GC=F" wb_end_date end_date) in
  let download_yf_silver := quiet (yf_download "SI=F" wb_end_date end_date) in
  do yf_gold <- load_or_download "yf_gold.pkl" download_yf_gold
                  "Yahoo Finance Gold" cache_dir ;
  do yf_silver <- load_or_download "yf_silver.pkl" download_yf_silver
                    "Yahoo Finance Silver" cache_dir ;
  do yf_gold_close <- lift_result (get_col yf_gold "Close") ;
  let yf_gold_monthly := resample_ME agg_last yf_gold_close in
  do yf_silver_close <- lift_result (get_col yf_silver "Close") ;
  let yf_silver_monthly := resample_ME agg_last yf_silver_close in
  let gold_monthly := splice wb_gold yf_gold_monthly wb_end_date in
  let silver_monthly := splice wb_silver yf_silver_monthly wb_end_date in
  do gold_change <- pct_change_call 6 gold_monthly ;
  let gold_pct := times_100 gold_change in
  do silver_change <- pct_change_call 6 silver_monthly ;
  let silver_pct := times_100 silver_change in
  run print_metal_range "Gold" gold_monthly ;
  run print_metal_range "Silver" silver_monthly ;
  ret (gold_monthly, gold_pct, silver_monthly, silver_pct).

(** *** Treasury yields *)

Definition yield_series : list (string * string) :=
  [("DGS2", "2Y Treasury"); ("DGS10", "10Y Treasury");
   ("DGS3MO", "3M Treasury"); ("DGS30", "30Y Treasury")].

(** One turn of the loop of the yields download: the series is recorded
    before its range is printed, so an empty answer is kept although it is
    reported as a failure. *)
Definition download_yield (start_date end_date : Timestamp) (n : nat)
    (acc : list string * list (string * Series)) (entry : string * string)
  : list string * list (string * Series) :=
  let '(out, data) := acc in
  let '(series_id, name) := entry in
  let warning e := "    Warning: Could not download " +:+ name +:+ ": " +:+ e in
  match fred_reader series_id start_date end_date n with
  | Raise e => (out ++ [warning e], data)
  | Ok df =>
      match get_col df series_id with
      | Raise e => (out ++ [warning e], data)
      | Ok s =>
          let data' := set_assoc name s data in
          match index_first (index df), index_last (index df) with
          | Ok first, Ok last =>
              (out ++ ["    " +:+ name +:+ ": " +:+ strftime_ymd first +:+
                       " to " +:+ strftime_ymd last], data')
          | Raise e, _ | _, Raise e => (out ++ [warning e], data')
          end
      end
  end.

Definition download_yields (start_date end_date : Timestamp) : Downloader :=
  fun n =>
    let '(out, data) :=
      fold_left (download_yield start_date end_date n) yield_series ([], []) in
    (out, frame_of_series data).

(** [df[name] = df[a] - df[b]] *)
Definition add_spread (f : Frame) (name a b : string) : result Frame :=
  match assoc a (columns f), assoc b (columns f) with
  | Some va, Some vb => Ok (set_col f name (zip_with fsub va vb))
  | _, _ => Raise "KeyError"
  end.

Definition load_yield_data (start_date end_date : option Timestamp)
    (cache_dir : string) : M (Frame * Frame) :=
  let start_date := start_or_default start_date in
  do end_date <- end_or_now end_date ;
  run print "Loading yield curve data from FRED..." ;
  let download := download_yields start_date end_date in
  do yields_df <- load_or_download "yields.pkl" download "Treasury yields"
                    cache_dir ;
  do yields_df <- lift_result
                    (add_spread yields_df "10Y-2Y Spread" "10Y Treasury"
                                "2Y Treasury") ;
  do yields_df <- lift_result
                    (add_spread yields_df "10Y-3M Spread" "10Y Treasury"
                                "3M Treasury") ;
  let yields_monthly := frame_resample_ME agg_last yields_df in
  ret (yields_df, yields_monthly).

(** *** Recession indicator *)

Definition load_recession_data (start_date end_date : option Timestamp)
    (cache_dir : string) : M (option Frame * option Frame) :=
  let start_date := start_or_default start_date in
  do end_date <- end_or_now end_date ;
  run print "Loading recession data from FRED..." ;
  let download := quiet (fred_reader "USREC" start_date end_date) in
  try_except
    (do recessions <- load_or_download "recessions.pkl" download
                        "recession indicators" cache_dir ;
     let recessions_monthly := frame_resample_ME agg_max recessions in
     ret (Some recessions, Some recessions_monthly))
    (fun e =>
       run print ("Warning: Could not load recession data: " +:+ e) ;
       ret (None, None)).

(** ** The combined table *)

Definition REQUIRED_COLUMNS : list string := ["NASDAQ 6M %"; "Yield Spread"].

(** [df[name] = s] for a series [s]: the series is aligned on the index of
    the frame (taken as it is when the indexes are equal, refused with
    [ValueError] when they are not and [s] repeats a label); a frame with
    no row yet takes the index of a series that has some. *)
Definition set_col_series (f : Frame) (name : string) (s : Series)
  : result Frame :=
  match index f, s with
  | [], _ :: _ =>
      Ok (set_col (mkFrame (map fst s)
                           (map (fun c => (fst c, map (fun _ => NaN) s))
                                (columns f)))
                  name (map snd s))
  | _, _ =>
      match align (index f) s with
      | Ok vs => Ok (set_col f name vs)
      | Raise e => Raise e
      end
  end.

(** The merge step of [load_all_data]: the frame of the five series, the
    recession column (aligned on the frame's index, or the constant 0), and
    the [dropna] on the required columns. *)
Definition combine_data (nasdaq_pct sp500_pct yield_spread gold_pct
    silver_pct : Series) (recessions_monthly : option Frame) : result Frame :=
  match frame_of_series
    [("NASDAQ 6M %", nasdaq_pct);
     ("S&P 500 6M %", sp500_pct);
     ("Yield Spread", yield_spread);
     ("Gold 6M %", gold_pct);
     ("Silver 6M %", silver_pct)]
  with
  | Raise e => Raise e
  | Ok combined =>
      match
        match recessions_monthly with
        | Some monthly =>
            match get_col monthly "USREC" with
            | Ok usrec => set_col_series combined "Recession" usrec
            | Raise e => Raise e
            end
        | None =>
            Ok (set_col combined "Recession"
                        (map (fun _ => fzero) (index combined)))
        end
      with
      | Ok combined => dropna_subset REQUIRED_COLUMNS combined
      | Raise e => Raise e
      end
  end.

Definition print_range (label : string) (idx : list Timestamp)
    (suffix : string) : M unit :=
  do first <- lift_result (index_first idx) ;
  do last <- lift_result (index_last idx) ;
  print (label +:+ strftime_ymd first +:+ " to " +:+ strftime_ymd last +:+
         suffix).

Definition print_metal_summary (label : string) (monthly : Series) : M unit :=
  let valid := map fst (dropna monthly) in
  do first <- lift_result (index_first valid) ;
  do last <- lift_result (index_last valid) ;
  print ("  " +:+ label +:+ ": " +:+ strftime_ym first +:+ " to " +:+
         strftime_ym last +:+ " (" +:+ str_of_nat (length valid) +:+
         " monthly)").

Definition load_all_data (start_date end_date : option Timestamp)
    (cache_dir : string) : M Frame :=
  let start_date := start_or_default start_date in
  do end_date <- end_or_now end_date ;
  run os_makedirs cache_dir ;
  do '(nasdaq, nasdaq_monthly, nasdaq_pct) <-
    load_nasdaq_data (Some start_date) (Some end_date) cache_dir ;
  do '(sp500, sp500_monthly, sp500_pct) <-
    load_sp500_data (Some start_date) (Some end_date) cache_dir ;
  do '(gold_monthly, gold_pct, silver_monthly, silver_pct) <-
    load_gold_silver_data (Some start_date) (Some end_date) cache_dir ;
  do '(yields_df, yields_monthly) <-
    load_yield_data (Some start_date) (Some end_date) cache_dir ;
  do '(recessions, recessions_monthly) <-
    load_recession_data (Some start_date) (Some end_date) cache_dir ;
  do yield_spread <- lift_result (get_col yields_monthly "10Y-2Y Spread") ;
  do combined <- lift_result
    (combine_data nasdaq_pct sp500_pct yield_spread gold_pct silver_pct
                  recessions_monthly) ;
  run print (nl +:+ "Data summary:") ;
  run print_range "  NASDAQ: " (index nasdaq)
        (" (" +:+ str_of_nat (length nasdaq_monthly) +:+ " monthly)") ;
  run print_range "  S&P 500: " (index sp500)
        (" (" +:+ str_of_nat (length sp500_monthly) +:+ " monthly)") ;
  run when (negb (Nat.eqb (length (dropna gold_monthly)) 0))
        (run print_metal_summary "Gold" gold_monthly ;
         print_metal_summary "Silver" silver_monthly) ;
  run print_range "  Yields: " (index yields_df) "" ;
  run print_range (nl +:+ "Combined data range: ") (index combined) "" ;
  run print ("Total data points: " +:+ str_of_nat (length (index combined)) +:+
             " months") ;
  ret combined.

End Loaders.

(** ** Concrete inputs *)

(** The float of a whole number (exact below 2^53). *)
Definition num (n : Z) : fval :=
  if n <? 0 then (- PrimFloat.of_uint63 (Uint63.of_Z (- n)))%float
  else PrimFloat.of_uint63 (Uint63.of_Z n).

Definition d_2020_01_05 : Timestamp := days_from_civil 2020 1 5.
Definition d_2020_01_20 : Timestamp := days_from_civil 2020 1 20.
Definition d_2020_01_31 : Timestamp := days_from_civil 2020 1 31.
Definition d_2020_02_10 : Timestamp := days_from_civil 2020 2 10.
Definition d_2020_02_29 : Timestamp := days_from_civil 2020 2 29.
Definition d_2020_03_10 : Timestamp := days_from_civil 2020 3 10.
Definition d_2020_03_31 : Timestamp := days_from_civil 2020 3 31.

(** February 2020 as a month index. *)
Definition feb_2020 : Z := 12 * 2020 + 1.

(** A daily series with no observation in February 2020. *)
Definition gap_series : Series :=
  [(d_2020_01_05, num 10); (d_2020_03_10, num 30)].

(** A daily series whose last observation of January 2020 is missing. *)
Definition nan_tail_series : Series :=
  [(d_2020_01_05, num 10); (d_2020_01_20, NaN)].

Definition three_day_series (v1 v2 v3 : fval) : Series :=
  [(d_2020_01_05, v1); (d_2020_01_20, v2); (d_2020_02_10, v3)].

(** The rows of a frame selected by a predicate on one of its columns, as
    the dates of [df[predicate(df[col])]]. *)
Definition selected_dates (p : fval -> bool) (idx : list Timestamp)
    (col : list fval) : list Timestamp :=
  map fst (List.filter (fun r => p (snd r)) (zip idx col)).

(** *** Groups of dates

    A group is a non-empty run of dates, kept as its first date and the
    dates that follow it. *)

Notation Group := (Timestamp * list Timestamp)%type (only parsing).

Definition group_dates (g : Group) : list Timestamp := fst g :: snd g.

Definition group_first (g : Group) : Timestamp := fst g.

Definition group_last (g : Group) : Timestamp := List.last (snd g) (fst g).

Definition group_span (g : Group) : Period := (group_first g, group_last g).

(** Every date of the run that follows [prev] is within the tolerance of the
    date before it. *)
Fixpoint close_run (tolerance : Z) (prev : Timestamp) (l : list Timestamp)
  : Prop :=
  match l with
  | [] => True
  | d :: t => d - prev <= tolerance /\ close_run tolerance d t
  end.

(** Each group starts more than the tolerance after the end of the group
    before it. *)
Fixpoint separated (tolerance : Z) (groups : list Group) : Prop :=
  match groups with
  | [] => True
  | g :: rest =>
      match rest with
      | [] => True
      | g' :: _ => group_first g' - group_last g > tolerance
      end /\ separated tolerance rest
  end.

(** [groups] cuts [dates] into the runs of the interval extractor. *)
Definition grouping (tolerance : Z) (dates : list Timestamp)
    (groups : list Group) : Prop :=
  concat (map group_dates groups) = dates /\
  Forall (fun g => close_run tolerance (fst g) (snd g)) groups /\
  separated tolerance groups.

(** *** Reading the splice *)

(** [s] has a value at [d]: a row labelled [d] whose value is not NaN. *)
Definition has_value (s : Series) (d : Timestamp) : bool :=
  match get s d with
  | Some v => notna v
  | None => false
  end.

(** The labels of [s] go up, row after row. *)
Definition ascending (s : Series) : Prop :=
  StronglySorted Z.le (map fst s).

(** What the splice loop leaves at [d], given what was there before. *)
Definition overlay (secondary : Series) (wb_end_date d : Timestamp)
    (base : option fval) : option fval :=
  match get secondary d with
  | Some v => if (d >? wb_end_date) && notna v then Some v else base
  | None => base
  end.

(** *** A small world

    The World Bank workbook is in the cache directory.  Its last gold price
    is for May 2020; its silver column goes on to June 2020. *)

Definition d_2020_04_30 : Timestamp := days_from_civil 2020 4 30.
Definition d_2020_05_31 : Timestamp := days_from_civil 2020 5 31.
Definition d_2020_06_15 : Timestamp := days_from_civil 2020 6 15.
Definition d_2020_06_30 : Timestamp := days_from_civil 2020 6 30.
Definition d_2020_07_15 : Timestamp := days_from_civil 2020 7 15.
Definition d_2020_07_31 : Timestamp := days_from_civil 2020 7 31.

Definition wb_sheet : Frame :=
  mkFrame [d_2020_04_30; d_2020_05_31; d_2020_06_30]
          [("Gold", [num 1700; num 1720; NaN]);
           ("Silver", [num 15; num 16; num 17])].

Definition wb_gold_ex : Series :=
  [(d_2020_04_30, num 1700); (d_2020_05_31, num 1720); (d_2020_06_30, NaN)].

Definition wb_silver_ex : Series :=
  [(d_2020_04_30, num 15); (d_2020_05_31, num 16); (d_2020_06_30, num 17)].

Definition yf_gold_ex : Frame :=
  mkFrame [d_2020_06_15; d_2020_07_15] [("Close", [num 1750; num 1800])].

Definition yf_silver_ex : Frame :=
  mkFrame [d_2020_06_15; d_2020_07_15] [("Close", [num 18; num 19])].

Definition yf_silver_monthly_ex : Series :=
  [(d_2020_06_30, num 18); (d_2020_07_31, num 19)].

Definition wb_path_ex : string :=
  path_join DEFAULT_CACHE_DIR wb_name.

(** Only the workbook is cached. *)
Definition world_wb : World :=
  mkWorld {[ wb_path_ex := ExcelFile (Some wb_sheet) ]} {[ DEFAULT_CACHE_DIR ]}
          [] 0 d_2020_07_31 false.

(** Yahoo Finance answers for both metals. *)
Definition yf_up (symbol : string) (start_date end_date : Timestamp) (n : nat)
  : result Frame :=
  if String.eqb symbol "GC=F" then Ok yf_gold_ex
  else if String.eqb symbol "SI=F" then Ok yf_silver_ex
  else Raise "unknown symbol".

(** Yahoo Finance is unreachable. *)
Definition yf_down (symbol : string) (start_date end_date : Timestamp)
    (n : nat) : result Frame :=
  Raise "ConnectionError".

Definition fred_down (series_id : string) (start_date end_date : Timestamp)
    (n : nat) : result Frame :=
  Raise "ConnectionError".

Definition url_down (url : string) (n : nat) : result File :=
  Raise "URLError".

(** ** Notions used in the statements *)

(** The claim of C4 as the specification words it: a calendar month with no
    observation has no row in the resampled series. *)
Definition no_row_for_empty_month : Prop :=
  forall (s : Series) (k : Z),
    (forall r, In r s -> month_index (fst r) <> k) ->
    forall r, In r (resample_ME agg_last s) -> fst r <> month_end k.

(** A computation that leaves the files alone. *)
Definition keeps_files {A : Type} (m : M A) : Prop :=
  forall w r w', m w = (r, w') -> files w' = files w.

(** [spliced] is [primary] up to [cutover] and, after it, [secondary] where
    that has a value and [primary] elsewhere. *)
Definition spliced_at (primary secondary spliced : Series)
    (cutover : Timestamp) : Prop :=
  (forall d, d <= cutover -> get spliced d = get primary d) /\
  (forall d v, d > cutover -> get secondary d = Some v -> notna v = true ->
     get spliced d = Some v) /\
  (forall d, d > cutover -> has_value secondary d = false ->
     get spliced d = get primary d).

(** The claim of C2 as the specification words it, the cutover of a series
    being the last date at which its own primary series has a value. *)
Definition splice_claim (primary secondary spliced : Series) : Prop :=
  forall cutover,
    index_last (map fst (dropna primary)) = Ok cutover ->
    (forall d, d <= cutover -> get spliced d = get primary d) /\
    (forall d v, d > cutover -> get secondary d = Some v -> notna v = true ->
       get spliced d = Some v) /\
    (forall d, d > cutover -> has_value secondary d = false ->
       has_value spliced d = false).

(** The claim of C3 as the specification words it: when the workbook is read
    and Yahoo Finance fails, the loader returns the World Bank gold series
    as it is. *)
Definition secondary_failure_keeps_primary
    (yf_download : string -> Timestamp -> Timestamp -> nat -> result Frame)
    (urlretrieve : string -> nat -> result File) (cache_dir : string)
    (w : World) : Prop :=
  forall sheet wb_gold,
    files w !! path_join cache_dir wb_name = Some (ExcelFile (Some sheet)) ->
    get_col sheet "Gold" = Ok wb_gold ->
    (forall symbol s e n, exists err, yf_download symbol s e n = Raise err) ->
    exists gold_pct silver_monthly silver_pct w',
      load_gold_silver_data yf_download urlretrieve None None cache_dir w
        = (Ok (wb_gold, gold_pct, silver_monthly, silver_pct), w').

(** The value of [s] at [d] once aligned on an index that has [d]: NaN
    where [s] has no row labelled [d]. *)
Definition at_date (s : Series) (d : Timestamp) : fval :=
  match get s d with
  | Some v => v
  | None => NaN
  end.

(** A date is kept by the merge when the NASDAQ and yield-spread series both
    have a value there. *)
Definition kept (nasdaq_pct yield_spread : Series) (d : Timestamp) : bool :=
  notna (at_date nasdaq_pct d) && notna (at_date yield_spread d).

(** The dates of the combined table. *)
Definition combined_index (nasdaq_pct sp500_pct yield_spread gold_pct
    silver_pct : Series) : list Timestamp :=
  List.filter (kept nasdaq_pct yield_spread)
    (union_index [map fst nasdaq_pct; map fst sp500_pct; map fst yield_spread;
                  map fst gold_pct; map fst silver_pct]).

(** The recession value the merge gives to date [d]. *)
Definition recession_at (usrec : option Series) (d : Timestamp) : fval :=
  match usrec with
  | Some s => at_date s d
  | None => fzero
  end.

(** The claim of C1 as the specification words it: every row of the
    combined table has the S&P 500 column present. *)
Definition sp500_required : Prop :=
  forall nasdaq_pct sp500_pct yield_spread gold_pct silver_pct combined col,
    combine_data nasdaq_pct sp500_pct yield_spread gold_pct silver_pct None
      = Ok combined ->
    get_col combined "S&P 500 6M %" = Ok col ->
    forall r, In r col -> notna (snd r) = true.

(** Month-end dates of 2020, and inputs of the merge in which the S&P 500
    series has no value for July. *)
Definition nasdaq_pct_ex : Series :=
  [(d_2020_06_30, num 5); (d_2020_07_31, num 7)].

Definition sp500_pct_ex : Series :=
  [(d_2020_06_30, num 4); (d_2020_07_31, NaN)].

Definition yield_spread_ex : Series :=
  [(d_2020_05_31, num 1); (d_2020_06_30, NaN); (d_2020_07_31, num 2)].

Definition gold_pct_ex : Series :=
  [(d_2020_06_30, num 3); (d_2020_07_31, num 3)].

Definition silver_pct_ex : Series :=
  [(d_2020_06_30, num 2)].

(** The claim of C5 as the specification words it: a row with a value [v]
    whose predecessor six rows earlier has a value [p] holds
    [100 * (v - p) / p], and a row whose predecessor is missing is
    missing. *)
Definition pct_change_as_specified (pads : bool) : Prop :=
  forall (s : Series) (i : nat) d v d0 p,
    s !! (6 + i)%nat = Some (d, v) -> s !! i = Some (d0, p) ->
    notna v = true ->
    (notna p = true ->
     times_100 (pct_change_default pads 6 s) !! (6 + i)%nat
       = Some (d, fdiv (fmul fhundred (fsub v p)) p)) /\
    (isna p = true ->
     times_100 (pct_change_default pads 6 s) !! (6 + i)%nat = Some (d, NaN)).

(** No date is repeated in [s]. *)
Definition unique_dates (s : Series) : Prop := NoDup (map fst s).

(** The monthly recession frame, when there is one, repeats no date. *)
Definition unique_index (f : option Frame) : Prop :=
  match f with
  | Some monthly => NoDup (index monthly)
  | None => True
  end.

(** *** A cache that holds everything but the recession indicator

    Seven months of daily index data, one observation a month, and the
    Treasury yields of July 2020. *)

Definition d_2020_01_15 : Timestamp := days_from_civil 2020 1 15.
Definition d_2020_02_14 : Timestamp := days_from_civil 2020 2 14.
Definition d_2020_03_16 : Timestamp := days_from_civil 2020 3 16.
Definition d_2020_04_15 : Timestamp := days_from_civil 2020 4 15.
Definition d_2020_05_15 : Timestamp := days_from_civil 2020 5 15.

Definition seven_days : list Timestamp :=
  [d_2020_01_15; d_2020_02_14; d_2020_03_16; d_2020_04_15; d_2020_05_15;
   d_2020_06_15; d_2020_07_15].

Definition nasdaq_ex : Frame :=
  mkFrame seven_days
    [("Close", [num 100; num 101; num 102; num 103; num 104; num 105;
                num 106])].

Definition sp500_ex : Frame :=
  mkFrame seven_days
    [("Close", [num 50; num 51; num 52; num 53; num 54; num 55; num 56])].

Definition yields_ex : Frame :=
  mkFrame [d_2020_07_15]
    [("2Y Treasury", [num 1]); ("10Y Treasury", [num 2]);
     ("3M Treasury", [num 1]); ("30Y Treasury", [num 3])].

Definition usrec_ex : Frame :=
  mkFrame [d_2020_06_15; d_2020_07_15] [("USREC", [num 1; num 0])].

Definition cache_path (cache_file : string) : string :=
  path_join DEFAULT_CACHE_DIR cache_file.

Definition world_no_recession : World :=
  mkWorld (<[ cache_path "nasdaq.pkl" := PickleFile nasdaq_ex ]>
           (<[ cache_path "sp500.pkl" := PickleFile sp500_ex ]>
            (<[ cache_path "yields.pkl" := PickleFile yields_ex ]>
             {[ wb_path_ex := ExcelFile (Some wb_sheet) ]})))
          {[ DEFAULT_CACHE_DIR ]} [] 0 d_2020_07_31 false.

(** The same cache with the recession indicator and the Yahoo Finance metals
    in it. *)
Definition world_cached : World :=
  mkWorld (<[ cache_path "recessions.pkl" := PickleFile usrec_ex ]>
           (<[ cache_path "yf_gold.pkl" := PickleFile yf_gold_ex ]>
            (<[ cache_path "yf_silver.pkl" := PickleFile yf_silver_ex ]>
             (files world_no_recession))))
          {[ DEFAULT_CACHE_DIR ]} [] 0 d_2020_07_31 false.

Definition empty_world : World := mkWorld ∅ ∅ [] 0 d_2020_07_31 false.

(** A download that succeeds, and one that fails. *)
Definition fetch_nasdaq : Downloader := fun _ => ([], Ok nasdaq_ex).

Definition fetch_fails : Downloader := fun _ => ([], Raise "ConnectionError").

(** The pipeline run on [world_no_recession], every provider being down. *)
Definition run_no_recession : result Frame * World :=
  load_all_data yf_down fred_down url_down None None DEFAULT_CACHE_DIR
                world_no_recession.

(** The gold and silver loader run on [world_wb], Yahoo Finance being up. *)
Definition run_metals : result (Series * Series * Series * Series) * World :=
  load_gold_silver_data yf_up url_down None None DEFAULT_CACHE_DIR world_wb.

(** The frame of a result, the empty frame for an exception. *)
Definition frame_of (r : result Frame) : Frame :=
  match r with
  | Ok f => f
  | Raise _ => mkFrame [] []
  end.

Definition metals_of (r : result (Series * Series * Series * Series))
  : Series * Series * Series * Series :=
  match r with
  | Ok res => res
  | Raise _ => ([], [], [], [])
  end.

Definition seven_months : Series :=
  [(d_2020_01_31, num 100); (d_2020_02_29, num 101); (d_2020_03_31, num 102);
   (d_2020_04_30, num 103); (d_2020_05_31, num 104); (d_2020_06_30, num 105);
   (d_2020_07_31, num 106)].

(** A combined table with a recession flag on three dates, 10 and 60 days
    apart. *)
Definition flagged_frame : Frame :=
  mkFrame [0; 100; 110; 140; 170]
    [("Yield Spread", [num 1; num (-1); fzero; NaN; num (-2)]);
     ("Recession", [num 0; num 1; num 1; NaN; num 1])].

Definition gold_monthly_run : Series :=
  fst (fst (fst (metals_of (fst run_metals)))).
Definition gold_pct_run : Series :=
  snd (fst (fst (metals_of (fst run_metals)))).
Definition silver_monthly_run : Series :=
  snd (fst (metals_of (fst run_metals))).
Definition silver_pct_run : Series :=
  snd (metals_of (fst run_metals)).

(** Eight months, the value of February missing. *)
Definition eight_months_gap : Series :=
  [(d_2020_01_31, num 100); (d_2020_02_29, NaN); (d_2020_03_31, num 102);
   (d_2020_04_30, num 103); (d_2020_05_31, num 104); (d_2020_06_30, num 105);
   (d_2020_07_31, num 106); (days_from_civil 2020 8 31, num 107)].

(** *** More concrete inputs *)

(** A frame Yahoo Finance gives when it has nothing: an index and no
    column. *)
Definition no_close_frame : Frame := mkFrame [] [].


(** A cache directory holding a file that is not a pickle under the key of
    the NASDAQ loader. *)
Definition world_bad_pickle : World :=
  mkWorld {[ cache_path "nasdaq.pkl" := ExcelFile None ]}
          {[ DEFAULT_CACHE_DIR ]} [] 0 d_2020_07_31 false.

Definition world_nasdaq_cached : World :=
  mkWorld {[ cache_path "nasdaq.pkl" := PickleFile nasdaq_ex ]}
          {[ DEFAULT_CACHE_DIR ]} [] 0 d_2020_07_31 false.

(** Each period starts more than the tolerance after the end of the period
    before it. *)
Fixpoint periods_apart (tolerance : Z) (periods : list Period) : Prop :=
  match periods with
  | [] => True
  | p :: rest =>
      match rest with
      | [] => True
      | p' :: _ => fst p' - snd p > tolerance
      end /\ periods_apart tolerance rest
  end.

(** The periods found by [periods_of_dates] on [dates] are in order, made of
    dates of [dates], and cover them. *)
Definition periods_cover (dates : list Timestamp) (periods : list Period)
  : Prop :=
  (forall p, In p periods ->
     fst p <= snd p /\ In (fst p) dates /\ In (snd p) dates) /\
  (forall d, In d dates -> exists p, In p periods /\ fst p <= d <= snd p) /\
  periods_apart GAP_TOLERANCE periods.

(** The months for which the calendar facts are checked: 1900 to 2199. *)
Definition known_month (k : Z) : Prop := 12 * 1900 <= k < 12 * 2200.

(** A period of months as the period of their last days. *)
Definition month_period (p : Z * Z) : Period :=
  (month_end (fst p), month_end (snd p)).

(** A frame with a recession flag in January, February, March and June
    2020. *)
Definition recession_2020 : Frame :=
  mkFrame (map month_end [24240; 24241; 24242; 24243; 24244; 24245; 24246])
    [("Recession", [num 1; num 1; num 1; num 0; num 0; num 1; num 0])].

(** The names of the columns of the combined table, in order. *)
Definition COMBINED_COLUMNS : list string :=
  ["NASDAQ 6M %"; "S&P 500 6M %"; "Yield Spread"; "Gold 6M %";
   "Silver 6M %"; "Recession"].

(** A frame is well formed when its index ascends strictly and each of its
    columns has one value per index entry. *)
Definition well_formed (f : Frame) : Prop :=
  StronglySorted Z.lt (index f) /\
  Forall (fun c => length (snd c) = length (index f)) (columns f).







(** The first download of the NASDAQ frame, into an empty file system. *)
Definition run_nasdaq_download : result Frame * World :=
  load_or_download "nasdaq.pkl" fetch_nasdaq "NASDAQ" DEFAULT_CACHE_DIR
                   empty_world.

(** The months January, February, March and June 2020. *)
Definition four_months : list Z := [24240; 24241; 24242; 24245].

(** The combined table of the six-month change of [seven_months] and the
    example series. *)
Definition combined_seven : result Frame :=
  combine_data (times_100 (pct_change 6 seven_months)) sp500_pct_ex
               yield_spread_ex gold_pct_ex silver_pct_ex None.



(** The same, the name of the cache directory being that of a file. *)
Definition world_legacy_blocked : World :=
  mkWorld (<[ DEFAULT_CACHE_DIR := PickleFile nasdaq_ex ]>
           {[ wb_name := ExcelFile (Some wb_sheet) ]})
          ∅ [] 0 d_2020_07_31 false.

(** The NASDAQ loader and the recession loader run on [world_cached], the
    providers being down. *)
Definition run_nasdaq : result (Frame * Series * Series) * World :=
  load_nasdaq_data yf_down None None DEFAULT_CACHE_DIR world_cached.

Definition index_data_of (r : result (Frame * Series * Series))
  : Frame * Series * Series :=
  match r with
  | Ok res => res
  | Raise _ => (mkFrame [] [], [], [])
  end.

Definition run_recession : result (option Frame * option Frame) * World :=
  load_recession_data fred_down None None DEFAULT_CACHE_DIR world_cached.

(** [monthly] is made of the 'Close' column of [df], and [pct] is a change
    of it over six months: it has the dates of [monthly] and its first six
    values are missing. *)
Definition monthly_change_of (df : Frame) (monthly pct : Series) : Prop :=
  (exists price, get_col df "Close" = Ok price /\
                 monthly = resample_ME agg_last price) /\
  map fst pct = map fst monthly /\
  (forall (i : nat) d v,
     (i < 6)%nat -> pct !! i = Some (d, v) -> v = NaN).

Definition recession_data_of (r : result (option Frame * option Frame))
  : option Frame * option Frame :=
  match r with
  | Ok res => res
  | Raise _ => (None, None)
  end.

(** The combined table of the example series, without recession data. *)
Definition combined_ex : result Frame :=
  combine_data nasdaq_pct_ex sp500_pct_ex yield_spread_ex gold_pct_ex
               silver_pct_ex None.

(** [world_wb] once the loader has looked for the workbook at the old place
    and read the one of the cache. *)
Definition world_wb_start : World :=
  snd (move_old_workbook DEFAULT_CACHE_DIR
         (with_line "Loading Gold and Silver data..." world_wb)).

Definition world_wb_read : World :=
  snd (read_world_bank url_down DEFAULT_CACHE_DIR world_wb_start).

(** The three observations of [three_day_series], the latest first. *)
Definition three_days_reversed (v1 v2 v3 : fval) : Series :=
  [(d_2020_02_10, v3); (d_2020_01_20, v2); (d_2020_01_05, v1)].

(** Every column of a frame has one value per label. *)
Definition rectangular (f : Frame) : Prop :=
  Forall (fun c => length (snd c) = length (index f)) (columns f).

(** A series with two rows at the same date. *)
Definition repeated_day : Series :=
  [(d_2020_07_31, num 1); (d_2020_07_31, num 2)].



(** Yahoo Finance answers for gold and is down for every other symbol. *)
Definition yf_gold_only (symbol : string) (start_date end_date : Timestamp)
    (n : nat) : result Frame :=
  if String.eqb symbol "GC=F" then Ok yf_gold_ex else Raise "ConnectionError".

(** * Properties *)

(** ** The cache *)

Lemma path_exists_file (p : string) (w : World) (f : File) :
  files w !! p = Some f -> path_exists p w = true.
Proof.
  intros H. unfold path_exists. rewrite H.
  rewrite bool_decide_eq_true_2; [reflexivity | eauto].
Qed.

Lemma path_exists_false (p : string) (w : World) :
  path_exists p w = false -> files w !! p = None /\ p ∉ dirs w.
Proof.
  unfold path_exists. intros H. apply orb_false_iff in H as [Hf Hd].
  apply bool_decide_eq_false in Hf. apply bool_decide_eq_false in Hd.
  split; [| exact Hd].
  destruct (files w !! p) eqn:E; [exfalso; apply Hf; eauto | reflexivity].
Qed.

(** On a cache hit the download function is not looked at. *)
Lemma load_or_download_hit (cache_file description cache_dir : string)
    (f1 f2 : Downloader) (w : World) :
  is_Some (files w !! path_join cache_dir cache_file) ->
  load_or_download cache_file f1 description cache_dir w =
  load_or_download cache_file f2 description cache_dir w.
Proof.
  intros [x Hx]. unfold load_or_download, bind, os_makedirs.
  destruct (String.eqb cache_dir ""); [reflexivity |].
  destruct (files w !! cache_dir); [reflexivity |].
  unfold os_path_exists.
  rewrite (path_exists_file _ _ x) by exact Hx.
  reflexivity.
Qed.

Lemma string_length_append (a b : string) :
  String.length (a +:+ b) = (String.length a + String.length b)%nat.
Proof.
  induction a as [| c a IH]; [reflexivity |].
  change (String.length (String c a +:+ b))
    with (S (String.length (a +:+ b))).
  rewrite IH. reflexivity.
Qed.

Lemma path_join_not_dir (cache_dir f : string) :
  cache_dir <> "" -> f <> "" -> starts_with_slash f = false ->
  path_join cache_dir f <> cache_dir.
Proof.
  intros Hdir Hf Hslash. unfold path_join. rewrite Hslash.
  assert (Hdirb : String.eqb cache_dir "" = false)
    by (apply String.eqb_neq; exact Hdir).
  rewrite Hdirb.
  assert (Hlen : (0 < String.length f)%nat)
    by (destruct f; [contradiction | cbn; lia]).
  destruct (ends_with_slash cache_dir); intros H;
    apply (f_equal String.length) in H;
    rewrite !string_length_append in H; cbn in H; lia.
Qed.

Lemma plain_name_inv (f : string) :
  plain_name f = true -> f <> "" /\ starts_with_slash f = false.
Proof.
  unfold plain_name. intros H.
  apply andb_true_iff in H as [H Hsep].
  apply andb_true_iff in H as [H _].
  apply andb_true_iff in H as [H _].
  apply negb_true_iff in H, Hsep. split.
  - intros ->. discriminate H.
  - destruct f as [| c t]; [reflexivity |]. cbn in Hsep |- *.
    apply orb_false_iff in Hsep as [Hsep _].
    apply orb_false_iff in Hsep as [Hsep _]. exact Hsep.
Qed.

Lemma plain_path_not_dir (cache_dir cache_file : string) :
  plain_name cache_dir = true -> plain_name cache_file = true ->
  path_join cache_dir cache_file <> cache_dir.
Proof.
  intros Hd Hf. apply plain_name_inv in Hd as [Hd _].
  apply plain_name_inv in Hf as [Hf Hslash].
  apply path_join_not_dir; assumption.
Qed.

(** C7.  Cache idempotence: from a cache with no entry for the key (an empty
    cache in particular), when the download succeeds, two successive calls
    of [load_or_download] with the same key and the same download function
    both return the downloaded data, and the download function is invoked
    exactly once, by the first call.  The key is a plain file name and the
    cache directory a plain directory name where no file stands. *)
Theorem load_or_download_idempotent (cache_file description cache_dir : string)
    (download_func : Downloader) (w : World) (data : Frame) :
  plain_name cache_dir = true ->
  plain_name cache_file = true ->
  files w !! cache_dir = None ->
  path_exists (path_join cache_dir cache_file) w = false ->
  snd (download_func (fetches w)) = Ok data ->
  exists w1 w2,
    load_or_download cache_file download_func description cache_dir w
      = (Ok data, w1) /\
    load_or_download cache_file download_func description cache_dir w1
      = (Ok data, w2) /\
    fetches w1 = S (fetches w) /\
    fetches w2 = fetches w1.
Proof.
  intros Hplain_dir Hplain_file Hnofile Hmiss Hfetch.
  pose proof (plain_path_not_dir _ _ Hplain_dir Hplain_file) as Hne.
  destruct (plain_name_inv _ Hplain_dir) as [Hdir _].
  apply path_exists_false in Hmiss as [Hf Hd].
  assert (Hdirb : String.eqb cache_dir "" = false)
    by (apply String.eqb_neq; exact Hdir).
  set (p := path_join cache_dir cache_file) in *.
  destruct (download_func (fetches w)) as [out r] eqn:Ef.
  simpl in Hfetch. subst r.
  assert (Hp : p ∉ ({[cache_dir]} ∪ dirs w : gset string)).
  { rewrite not_elem_of_union, not_elem_of_singleton. auto. }
  eexists. eexists. split; [| split].
  - unfold load_or_download, bind, os_makedirs, os_path_exists, path_exists.
    rewrite Hdirb, Hnofile. cbn [files dirs]. fold p. rewrite Hf.
    rewrite bool_decide_eq_false_2 by (intros [? ?]; discriminate).
    rewrite (bool_decide_eq_false_2 _ Hp). cbn.
    unfold call_download. cbn [fetches files dirs stdout clock]. rewrite Ef.
    unfold pickle_dump. cbn [files dirs stdout fetches clock].
    rewrite (bool_decide_eq_false_2 _ Hp). cbn. reflexivity.
  - unfold load_or_download, bind, os_makedirs, os_path_exists, path_exists.
    rewrite Hdirb. cbn [files dirs]. fold p.
    rewrite lookup_insert_ne by (intros ->; apply Hne; reflexivity).
    rewrite Hnofile. cbn [files dirs].
    rewrite lookup_insert_eq.
    rewrite bool_decide_eq_true_2 by eauto. cbn.
    unfold pickle_load. cbn [files]. rewrite lookup_insert_eq. reflexivity.
  - split; reflexivity.
Qed.


(** ** Month-end resampling *)

Lemma zip_map_fst_snd {A B : Type} (l : list (A * B)) :
  zip (map fst l) (map snd l) = l.
Proof.
  induction l as [| [a b] l IH]; [reflexivity |].
  cbn. f_equal. exact IH.
Qed.

Lemma In_labels_get (s : list (Z * fval)) (d : Z) :
  In d (map fst s) <-> get s d <> None.
Proof.
  induction s as [| [k v] s IH]; cbn; [tauto |].
  destruct (Z.eqb_spec k d) as [-> | Hne].
  - split; [discriminate | auto].
  - rewrite IH. split; [intros [H | H]; [contradiction | exact H] | auto].
Qed.

(** *** Sorting by label *)

Lemma insert_row_labels_sorted (r : Z * fval) (s : list (Z * fval)) :
  StronglySorted Z.le (map fst s) ->
  StronglySorted Z.le (map fst (insert_row r s)).
Proof.
  induction s as [| r' s IH]; intros Hs; cbn.
  - constructor; [constructor | constructor].
  - destruct (Z.leb_spec (fst r) (fst r')) as [Hle | Hgt].
    + cbn. constructor; [exact Hs |].
      cbn in Hs. apply StronglySorted_inv in Hs as [_ Hall].
      constructor; [exact Hle |].
      rewrite List.Forall_forall in Hall |- *.
      intros x Hx. specialize (Hall x Hx). lia.
    + cbn in Hs |- *. apply StronglySorted_inv in Hs as [Hs Hall].
      constructor; [apply IH; exact Hs |].
      rewrite List.Forall_forall in Hall |- *.
      intros x Hx. apply in_map_iff in Hx as (y & <- & Hy).
      assert (Hin : In y (r :: s)).
      { clear - Hy. induction s as [| z s IH]; cbn in Hy.
        - destruct Hy as [<- | []]. left. reflexivity.
        - destruct (fst r <=? fst z).
          + exact Hy.
          + destruct Hy as [<- | Hy]; [right; left; reflexivity |].
            destruct (IH Hy) as [<- | H]; [left; reflexivity |].
            right. right. exact H. }
      destruct Hin as [<- | Hin]; [lia |].
      apply Hall. apply in_map. exact Hin.
Qed.

Lemma sort_index_sorted (s : list (Z * fval)) :
  StronglySorted Z.le (map fst (sort_index s)).
Proof.
  unfold sort_index. induction s as [| r s IH]; [constructor |].
  cbn [fold_right]. apply insert_row_labels_sorted. exact IH.
Qed.

Lemma insert_row_perm (r : Z * fval) (s : list (Z * fval)) :
  Permutation (insert_row r s) (r :: s).
Proof.
  induction s as [| r' s IH]; cbn; [reflexivity |].
  destruct (fst r <=? fst r'); [reflexivity |].
  rewrite IH. apply perm_swap.
Qed.

Lemma sort_index_perm (s : list (Z * fval)) : Permutation (sort_index s) s.
Proof.
  unfold sort_index. induction s as [| r s IH]; [reflexivity |].
  cbn [fold_right]. rewrite insert_row_perm, IH. reflexivity.
Qed.

Lemma StronglySorted_filter_fst (s : list (Z * fval))
    (p : Z * fval -> bool) :
  StronglySorted Z.le (map fst s) ->
  StronglySorted Z.le (map fst (List.filter p s)).
Proof.
  induction s as [| r s IH]; intros H; [constructor |].
  cbn in H. apply StronglySorted_inv in H as [Hs Hall].
  cbn. destruct (p r); [| apply IH; exact Hs].
  cbn. constructor; [apply IH; exact Hs |].
  rewrite List.Forall_forall in Hall |- *.
  intros x Hx. apply Hall.
  apply in_map_iff in Hx as (y & <- & Hy).
  apply filter_In in Hy as [Hy _]. apply in_map. exact Hy.
Qed.

Lemma StronglySorted_app_l (l1 l2 : list Z) :
  StronglySorted Z.le (l1 ++ l2) -> StronglySorted Z.le l1.
Proof.
  induction l1 as [| a l1 IH]; intros H; [constructor |].
  cbn in H. apply StronglySorted_inv in H as [Hs Hall].
  constructor; [apply IH; exact Hs |].
  rewrite List.Forall_forall in Hall |- *.
  intros x Hx. apply Hall. apply in_or_app. left. exact Hx.
Qed.

Lemma StronglySorted_app_r (l1 l2 : list Z) :
  StronglySorted Z.le (l1 ++ l2) -> StronglySorted Z.le l2.
Proof.
  induction l1 as [| a l1 IH]; intros H; [exact H |].
  cbn in H. apply StronglySorted_inv in H as [Hs _]. apply IH. exact Hs.
Qed.

(** *** The bins *)

Lemma bin_values_rows (k : Z) (s : Series) :
  bin_values k (map fst s) (map snd s) = map snd (month_rows k s).
Proof. unfold bin_values, month_rows. rewrite zip_map_fst_snd. reflexivity. Qed.

Lemma fold_min_le (m : Z) (ms : list Z) (x : Z) :
  In x (m :: ms) -> fold_right Z.min m ms <= x.
Proof.
  induction ms as [| y ms IH]; cbn.
  - intros [-> | []]. lia.
  - intros [-> | [-> | H]].
    + specialize (IH (or_introl eq_refl)). cbn in IH. lia.
    + lia.
    + specialize (IH (or_intror H)). lia.
Qed.

Lemma fold_max_ge (m : Z) (ms : list Z) (x : Z) :
  In x (m :: ms) -> x <= fold_right Z.max m ms.
Proof.
  induction ms as [| y ms IH]; cbn.
  - intros [-> | []]. lia.
  - intros [-> | [-> | H]].
    + specialize (IH (or_introl eq_refl)). cbn in IH. lia.
    + lia.
    + specialize (IH (or_intror H)). lia.
Qed.

Lemma fold_min_in (m : Z) (ms : list Z) : In (fold_right Z.min m ms) (m :: ms).
Proof.
  induction ms as [| y ms IH]; cbn; [left; reflexivity |].
  destruct (Z.min_spec y (fold_right Z.min m ms)) as [[_ ->] | [_ ->]].
  - right. left. reflexivity.
  - destruct IH as [H | H]; [left; exact H | right; right; exact H].
Qed.

Lemma fold_max_in (m : Z) (ms : list Z) : In (fold_right Z.max m ms) (m :: ms).
Proof.
  induction ms as [| y ms IH]; cbn; [left; reflexivity |].
  destruct (Z.max_spec y (fold_right Z.max m ms)) as [[_ ->] | [_ ->]].
  - destruct IH as [H | H]; [left; exact H | right; right; exact H].
  - right. left. reflexivity.
Qed.

Lemma In_zrange (lo hi k : Z) : In k (zrange lo hi) <-> lo <= k <= hi.
Proof.
  unfold zrange. rewrite <- list_elem_of_In, elem_of_seqZ. lia.
Qed.

(** The bins are the months lying between the months of two labels. *)
Lemma In_month_bins (idx : list Timestamp) (k : Z) :
  In k (month_bins idx) <->
  exists a b, In a idx /\ In b idx /\ month_index a <= k <= month_index b.
Proof.
  unfold month_bins.
  destruct (map month_index idx) as [| m ms] eqn:E.
  - destruct idx; [| discriminate]. split; [intros [] |].
    intros (a & _ & [] & _).
  - rewrite In_zrange. split.
    + intros [Hlo Hhi].
      pose proof (fold_min_in m ms) as Hmin.
      pose proof (fold_max_in m ms) as Hmax.
      rewrite <- E in Hmin, Hmax.
      apply in_map_iff in Hmin as (a & Ha & Hain).
      apply in_map_iff in Hmax as (b & Hb & Hbin).
      exists a, b. repeat split; try assumption; lia.
    + intros (a & b & Ha & Hb & Hlo & Hhi).
      assert (In (month_index a) (m :: ms))
        by (rewrite <- E; apply in_map; exact Ha).
      assert (In (month_index b) (m :: ms))
        by (rewrite <- E; apply in_map; exact Hb).
      pose proof (fold_min_le m ms _ H). pose proof (fold_max_ge m ms _ H0).
      lia.
Qed.

Lemma NoDup_month_bins (idx : list Timestamp) : NoDup (month_bins idx).
Proof.
  unfold month_bins. destruct (map month_index idx); [constructor |].
  apply NoDup_seqZ.
Qed.

Lemma agg_last_all_na (vs : list fval) (acc : fval) :
  (forall v, In v vs -> isna v = true) ->
  fold_left (fun acc v => if isna v then acc else v) vs acc = acc.
Proof.
  revert acc. induction vs as [| v vs IH]; intros acc H; [reflexivity |].
  cbn. rewrite (H v (or_introl eq_refl)). apply IH.
  intros x Hx. apply H. right. exact Hx.
Qed.

Lemma agg_last_split (before after : list fval) (v : fval) :
  notna v = true ->
  (forall x, In x after -> isna x = true) ->
  agg_last (before ++ v :: after) = v.
Proof.
  intros Hv Hafter. unfold agg_last. rewrite fold_left_app. cbn.
  unfold notna in Hv. apply negb_true_iff in Hv. rewrite Hv.
  apply agg_last_all_na. exact Hafter.
Qed.

(** C4, counterexample.  With observations on 2020-01-05 and 2020-03-10 only,
    February 2020 has no observation and still has a row, dated 2020-02-29
    and holding NaN.  And when the last observation of a month is NaN, the
    row of the month holds the last value that is not: January 2020 of
    [nan_tail_series] holds the value of 2020-01-05. *)
Lemma resample_empty_month_has_row :
  ~ no_row_for_empty_month /\
  resample_ME agg_last gap_series =
    [(d_2020_01_31, num 10); (d_2020_02_29, NaN); (d_2020_03_31, num 30)] /\
  resample_ME agg_last nan_tail_series = [(d_2020_01_31, num 10)].
Proof.
  split; [| split; vm_compute; reflexivity].
  intros H.
  apply (H gap_series feb_2020) with (r := (d_2020_02_29, NaN)).
  - intros r [<- | [<- | []]]; vm_compute; discriminate.
  - vm_compute. right. left. reflexivity.
  - vm_compute. reflexivity.
Qed.

(** Between 1900 and 2200 the last day of a month falls in that month. *)
Lemma month_index_month_end (k : Z) :
  12 * 1900 <= k < 12 * 2200 -> month_index (month_end k) = k.
Proof.
  intros Hk.
  assert (Hall : forallb (fun k => month_index (month_end k) =? k)
                         (seqZ (12 * 1900) (12 * 300)) = true)
    by (vm_compute; reflexivity).
  rewrite forallb_forall in Hall. apply Z.eqb_eq, Hall.
  apply list_elem_of_In, elem_of_seqZ. lia.
Qed.

(** A row is in the rows of month [k] when it is a row of the series
    dated in month [k], wherever it stands in the series. *)
Lemma In_month_rows (k : Z) (s : list (Z * fval)) (r : Z * fval) :
  In r (month_rows k s) <-> In r s /\ month_index (fst r) = k.
Proof.
  unfold month_rows. rewrite filter_In, Z.eqb_eq.
  split; intros [Hin Hk]; (split; [| exact Hk]).
  - apply (Permutation_in _ (sort_index_perm s)). exact Hin.
  - apply (Permutation_in _ (Permutation_sym (sort_index_perm s))). exact Hin.
Qed.

Lemma month_rows_sorted (k : Z) (s : list (Z * fval)) :
  StronglySorted Z.le (map fst (month_rows k s)).
Proof.
  unfold month_rows. apply StronglySorted_filter_fst, sort_index_sorted.
Qed.

Lemma agg_last_tail (before after : list fval) (v : fval) :
  notna v = true ->
  (forall x, In x after -> isna x = true \/ x = v) ->
  agg_last (before ++ v :: after) = v.
Proof.
  intros Hv Hafter. unfold agg_last. rewrite fold_left_app. cbn.
  unfold notna in Hv. apply negb_true_iff in Hv. rewrite Hv.
  clear before. induction after as [| x after IH]; [reflexivity |].
  cbn. destruct (Hafter x (or_introl eq_refl)) as [Hx | ->].
  - rewrite Hx. apply IH. intros y Hy. apply Hafter. right. exact Hy.
  - rewrite Hv. apply IH. intros y Hy. apply Hafter. right. exact Hy.
Qed.

(** In rows sorted by date, [.last()] is the value of the latest date that
    has one. *)
Lemma agg_last_latest (rows : list (Z * fval)) (d : Z) (v : fval) :
  StronglySorted Z.le (map fst rows) ->
  In (d, v) rows -> notna v = true ->
  (forall r, In r rows -> notna (snd r) = true -> fst r < d \/ r = (d, v)) ->
  agg_last (map snd rows) = v.
Proof.
  intros Hsorted Hin Hv Hlatest.
  apply in_split in Hin as (before & after & ->).
  rewrite map_app. cbn [map snd]. apply agg_last_tail; [exact Hv |].
  intros x Hx. apply in_map_iff in Hx as (r & <- & Hr).
  destruct (isna (snd r)) eqn:Hna; [left; reflexivity | right].
  assert (Hle : d <= fst r).
  { rewrite map_app in Hsorted. apply StronglySorted_app_r in Hsorted.
    cbn in Hsorted. apply StronglySorted_inv in Hsorted as [_ Hall].
    rewrite List.Forall_forall in Hall. apply Hall. apply in_map. exact Hr. }
  destruct (Hlatest r) as [Hlt | ->].
  - apply in_or_app. right. right. exact Hr.
  - unfold notna. rewrite Hna. reflexivity.
  - lia.
  - reflexivity.
Qed.

(** The bins depend on the dates only, not on the order of the rows. *)
Lemma month_bins_perm (idx idx' : list Z) :
  Permutation idx idx' -> month_bins idx = month_bins idx'.
Proof.
  intros Hperm.
  assert (Hm : Permutation (map month_index idx) (map month_index idx'))
    by (apply Permutation_map; exact Hperm).
  unfold month_bins.
  destruct (map month_index idx) as [| m ms] eqn:E,
           (map month_index idx') as [| m' ms'] eqn:E'.
  - reflexivity.
  - apply Permutation_nil in Hm. discriminate Hm.
  - symmetry in Hm. apply Permutation_nil in Hm. discriminate Hm.
  - f_equal.
    + pose proof (fold_min_in m ms) as H1. pose proof (fold_min_in m' ms') as H2.
      apply (Permutation_in _ Hm) in H1.
      apply (Permutation_in _ (Permutation_sym Hm)) in H2.
      apply fold_min_le in H1, H2. lia.
    + pose proof (fold_max_in m ms) as H1. pose proof (fold_max_in m' ms') as H2.
      apply (Permutation_in _ Hm) in H1.
      apply (Permutation_in _ (Permutation_sym Hm)) in H2.
      apply fold_max_ge in H1, H2. lia.
Qed.

(** C4, amended.  [resample('ME').last()] gives exactly one row to every
    calendar month from the month of the earliest observation to the month
    of the latest one, labelled with the last day of the month.  The row
    holds the value of the latest date of the month that has a value not
    NaN, wherever that row stands in the series, and NaN when the month has
    no such value, in particular when it has no observation at all.  Months
    outside that span have no row.  The series observed on 2020-01-05,
    2020-01-20 and 2020-02-10, its rows in any order, gives exactly two
    rows, holding the values of 2020-01-20 and 2020-02-10.  (Between 1900
    and 2200 the label of a row falls in the month of the row, so the rows
    of different months have different labels.) *)
Theorem resample_last_rows (s : Series) :
  resample_ME agg_last s =
    map (fun k => (month_end k, agg_last (map snd (month_rows k s))))
        (month_bins (map fst s)) /\
  NoDup (month_bins (map fst s)) /\
  (forall k, In k (month_bins (map fst s)) <->
     exists r1 r2, In r1 s /\ In r2 s /\
       month_index (fst r1) <= k <= month_index (fst r2)) /\
  (forall k r, In r (month_rows k s) <-> In r s /\ month_index (fst r) = k) /\
  (forall k d v,
     In (d, v) s -> month_index d = k -> notna v = true ->
     (forall r, In r s -> month_index (fst r) = k -> notna (snd r) = true ->
        fst r < d \/ r = (d, v)) ->
     agg_last (map snd (month_rows k s)) = v) /\
  (forall k,
     (forall r, In r s -> month_index (fst r) = k -> isna (snd r) = true) ->
     agg_last (map snd (month_rows k s)) = NaN) /\
  (forall v1 v2 v3,
     Permutation s (three_day_series v1 v2 v3) ->
     notna v2 = true -> notna v3 = true ->
     resample_ME agg_last s = [(d_2020_01_31, v2); (d_2020_02_29, v3)]) /\
  (forall k, 12 * 1900 <= k < 12 * 2200 -> month_index (month_end k) = k).
Proof.
  assert (Hrows : resample_ME agg_last s =
    map (fun k => (month_end k, agg_last (map snd (month_rows k s))))
        (month_bins (map fst s))).
  { unfold resample_ME. apply map_ext. intros k.
    rewrite bin_values_rows. reflexivity. }
  assert (Hlatest : forall k d v,
     In (d, v) s -> month_index d = k -> notna v = true ->
     (forall r, In r s -> month_index (fst r) = k -> notna (snd r) = true ->
        fst r < d \/ r = (d, v)) ->
     agg_last (map snd (month_rows k s)) = v).
  { intros k d v Hin Hk Hv Hothers.
    apply (agg_last_latest _ d v); [apply month_rows_sorted | | exact Hv |].
    - apply In_month_rows. split; [exact Hin | exact Hk].
    - intros r Hr Hna. apply In_month_rows in Hr as [Hr Hkr]. auto. }
  split; [exact Hrows |].
  split; [apply NoDup_month_bins |].
  split.
  { intros k. split.
    - intros H. apply In_month_bins in H as (a & b & Ha & Hb & Hk).
      apply in_map_iff in Ha as (r1 & <- & H1).
      apply in_map_iff in Hb as (r2 & <- & H2).
      exists r1, r2. auto.
    - intros (r1 & r2 & H1 & H2 & Hk). apply In_month_bins.
      exists (fst r1), (fst r2).
      split; [apply in_map; exact H1 |]. split; [apply in_map; exact H2 |].
      exact Hk. }
  split; [intros k r; apply In_month_rows |].
  split; [exact Hlatest |].
  split.
  { intros k Hall. unfold agg_last. apply agg_last_all_na.
    intros v Hv. apply in_map_iff in Hv as (r & <- & Hr).
    apply In_month_rows in Hr as [Hr Hk]. auto. }
  split; [| apply month_index_month_end].
  intros v1 v2 v3 Hperm H2 H3. rewrite Hrows.
  rewrite (month_bins_perm _ _ (Permutation_map fst Hperm)).
  change (month_bins (map fst (three_day_series v1 v2 v3)))
    with (month_bins [d_2020_01_05; d_2020_01_20; d_2020_02_10]).
  replace (month_bins [d_2020_01_05; d_2020_01_20; d_2020_02_10])
    with [feb_2020 - 1; feb_2020] by (vm_compute; reflexivity).
  cbn [map].
  assert (Hin : forall r, In r s <->
            r = (d_2020_01_05, v1) \/ r = (d_2020_01_20, v2) \/
            r = (d_2020_02_10, v3)).
  { intros r. split.
    - intros Hr. apply (Permutation_in _ Hperm) in Hr.
      destruct Hr as [<- | [<- | [<- | []]]]; auto.
    - intros Hr. apply (Permutation_in _ (Permutation_sym Hperm)).
      destruct Hr as [-> | [-> | ->]]; cbn; auto. }
  rewrite (Hlatest (feb_2020 - 1) d_2020_01_20 v2).
  - rewrite (Hlatest feb_2020 d_2020_02_10 v3).
    + reflexivity.
    + apply Hin. auto.
    + vm_compute. reflexivity.
    + exact H3.
    + intros r Hr Hk _. apply Hin in Hr.
      destruct Hr as [-> | [-> | ->]];
        [vm_compute in Hk; discriminate Hk
        | vm_compute in Hk; discriminate Hk | right; reflexivity].
  - apply Hin. auto.
  - vm_compute. reflexivity.
  - exact H2.
  - intros r Hr Hk _. apply Hin in Hr.
    destruct Hr as [-> | [-> | ->]];
      [left; vm_compute; reflexivity | right; reflexivity
      | vm_compute in Hk; discriminate Hk].
Qed.

(** ** Percent change *)

Lemma shift_length (n : nat) (vs : list fval) : length (shift n vs) = length vs.
Proof.
  unfold shift. rewrite length_take, length_app, length_replicate. lia.
Qed.

Lemma shift_lookup_lt (n i : nat) (vs : list fval) :
  (i < n)%nat -> (i < length vs)%nat -> shift n vs !! i = Some NaN.
Proof.
  intros Hn Hl. unfold shift. rewrite lookup_take_lt by exact Hl.
  rewrite lookup_app_l by (rewrite length_replicate; exact Hn).
  apply lookup_replicate_2. exact Hn.
Qed.

Lemma shift_lookup_ge (n i : nat) (vs : list fval) :
  (n + i < length vs)%nat -> shift n vs !! (n + i)%nat = vs !! i.
Proof.
  intros Hl. unfold shift. rewrite lookup_take_lt by exact Hl.
  rewrite lookup_app_r by (rewrite length_replicate; lia).
  rewrite length_replicate. f_equal. lia.
Qed.

Lemma lookup_map {A B : Type} (f : A -> B) (l : list A) (i : nat) :
  map f l !! i = option_map f (l !! i).
Proof.
  revert i. induction l as [| a l IH]; intros [| i]; cbn; auto.
Qed.

Lemma map_fst_zip {A B : Type} (l : list A) (k : list B) :
  length l = length k -> map fst (zip l k) = l.
Proof.
  revert k. induction l as [| a l IH]; intros [| b k] H; try discriminate;
    [reflexivity |].
  cbn. f_equal. apply IH. cbn in H. lia.
Qed.

Lemma times_100_dates (s : Series) : map fst (times_100 s) = map fst s.
Proof.
  unfold times_100. rewrite map_map. apply map_ext. reflexivity.
Qed.

Lemma pct_change_dates (n : nat) (s : Series) :
  map fst (times_100 (pct_change n s)) = map fst s.
Proof.
  rewrite times_100_dates. unfold pct_change. apply map_fst_zip.
  rewrite length_zip_with_l_eq by (rewrite shift_length; reflexivity).
  rewrite !length_map. reflexivity.
Qed.

(** Row [i] of the percent change, when row [i] of the shifted values is
    [p]. *)
Lemma pct_change_lookup (n : nat) (s : Series) (i : nat) (d : Timestamp)
    (v p : fval) :
  s !! i = Some (d, v) ->
  shift n (map snd s) !! i = Some p ->
  times_100 (pct_change n s) !! i = Some (d, pct_of v p).
Proof.
  intros Hs Hp. unfold times_100, pct_change.
  rewrite lookup_map, lookup_zip_with, !lookup_map, Hs. cbn.
  rewrite lookup_zip_with, lookup_map, Hs, Hp. cbn. reflexivity.
Qed.

(** *** Missing values in binary64 *)

Lemma SFcompare_refl_finite (sign : bool) (m : positive) (e : Z) :
  SFcompare (S754_finite sign m e) (S754_finite sign m e) = Some Eq.
Proof.
  cbn. destruct sign; rewrite Z.compare_refl, Pos.compare_cont_refl;
    reflexivity.
Qed.

(** There is one NaN. *)
Lemma isna_NaN (v : fval) : isna v = true -> v = NaN.
Proof.
  unfold isna, is_nan. intros H. apply negb_true_iff in H.
  rewrite FloatAxioms.eqb_spec in H.
  apply Prim2SF_inj. change (Prim2SF NaN) with S754_nan.
  destruct (Prim2SF v) as [sign | sign | | sign m e]; try reflexivity.
  - destruct sign; discriminate H.
  - destruct sign; discriminate H.
  - unfold SFeqb in H. rewrite SFcompare_refl_finite in H. discriminate H.
Qed.

Lemma fdiv_nan_r (v : fval) : fdiv v NaN = NaN.
Proof.
  unfold fdiv. apply Prim2SF_inj. rewrite FloatAxioms.div_spec.
  change (Prim2SF NaN) with S754_nan.
  destruct (Prim2SF v); reflexivity.
Qed.

Lemma pct_of_nan_r (v : fval) : pct_of v NaN = NaN.
Proof. unfold pct_of. rewrite fdiv_nan_r. reflexivity. Qed.

Lemma pct_change_head_nan (n : nat) (s : Series) (i : nat)
    (r : Timestamp * fval) :
  (i < n)%nat -> times_100 (pct_change n s) !! i = Some r -> snd r = NaN.
Proof.
  intros Hi Hr.
  destruct (s !! i) as [[d v] |] eqn:Hs.
  - assert (Hl : (i < length (map snd s))%nat).
    { rewrite length_map. apply lookup_lt_Some in Hs. exact Hs. }
    rewrite (pct_change_lookup n s i d v NaN Hs (shift_lookup_lt n i _ Hi Hl))
      in Hr.
    injection Hr as <-. apply pct_of_nan_r.
  - apply lookup_lt_Some in Hr. apply lookup_ge_None in Hs.
    assert (length (times_100 (pct_change n s)) = length s).
    { rewrite <- (length_map fst), pct_change_dates, length_map. reflexivity. }
    lia.
Qed.

(** *** Filling before the change

    On a series with no missing value the filling changes nothing, so the
    two readings of [pct_change] agree; they differ at an entry whose
    predecessor is missing after an earlier value. *)

Lemma ffill_from_length (vs : list fval) (last : fval) :
  length (ffill_from last vs) = length vs.
Proof.
  revert last. induction vs as [| v vs IH]; intros last; [reflexivity |].
  cbn. rewrite IH. reflexivity.
Qed.

Lemma ffill_from_valid (vs : list fval) (last : fval) :
  (forall v, In v vs -> notna v = true) -> ffill_from last vs = vs.
Proof.
  revert last. induction vs as [| v vs IH]; intros last H; [reflexivity |].
  cbn. assert (Hv : isna v = false).
  { specialize (H v (or_introl eq_refl)). unfold notna in H.
    apply negb_true_iff in H. exact H. }
  rewrite Hv. f_equal. apply IH. intros x Hx. apply H. right. exact Hx.
Qed.

Lemma pct_change_pad_no_missing (n : nat) (s : list (Z * fval)) :
  (forall r, In r s -> notna (snd r) = true) ->
  pct_change_pad n s = pct_change n s.
Proof.
  intros H. unfold pct_change_pad, ffill.
  rewrite ffill_from_valid.
  - rewrite zip_map_fst_snd. reflexivity.
  - intros v Hv. apply in_map_iff in Hv as (r & <- & Hr). auto.
Qed.

Lemma padded_dates (s : list (Z * fval)) :
  map fst (zip (map fst s) (ffill (map snd s))) = map fst s.
Proof.
  apply map_fst_zip. unfold ffill.
  rewrite ffill_from_length, !length_map. reflexivity.
Qed.

(** Whichever way pandas fills, the change keeps the dates and its first
    [n] values are missing. *)
Lemma pct_change_default_dates (pads : bool) (n : nat) (s : list (Z * fval)) :
  map fst (times_100 (pct_change_default pads n s)) = map fst s.
Proof.
  destruct pads; cbn [pct_change_default]; [| apply pct_change_dates].
  unfold pct_change_pad. rewrite pct_change_dates. apply padded_dates.
Qed.

Lemma pct_change_default_head (pads : bool) (n i : nat) (s : list (Z * fval))
    (r : Z * fval) :
  (i < n)%nat -> times_100 (pct_change_default pads n s) !! i = Some r ->
  snd r = NaN.
Proof.
  destruct pads; cbn [pct_change_default]; apply pct_change_head_nan.
Qed.

Lemma pct_change_default_no_missing (pads : bool) (n : nat)
    (s : list (Z * fval)) :
  pads = false \/ (forall r, In r s -> notna (snd r) = true) ->
  pct_change_default pads n s = pct_change n s.
Proof.
  intros [-> | Hvalid]; [reflexivity |].
  destruct pads; [| reflexivity].
  apply pct_change_pad_no_missing. exact Hvalid.
Qed.

(** C5, counterexample.  From 100 to 106 the program gives
    6.000000000000005, the binary64 value of [(106 / 100 - 1) * 100], where
    [100 * (106 - 100) / 100] is 6: the formula of the claim is not the one
    computed, whichever way pandas fills.  And when pandas pads, a row whose
    predecessor is missing is not missing: August 2020 of
    [eight_months_gap] is compared with January, the last value before the
    missing February. *)
Lemma pct_change_not_as_specified :
  (forall pads, ~ pct_change_as_specified pads) /\
  (forall pads,
     times_100 (pct_change_default pads 6 seven_months) !! 6%nat
       = Some (d_2020_07_31, 0x1.8000000000006p+2%float)) /\
  fdiv (fmul fhundred (fsub (num 106) (num 100))) (num 100) = 6%float /\
  times_100 (pct_change_default true 6 eight_months_gap) !! 7%nat
    = Some (days_from_civil 2020 8 31, pct_of (num 107) (num 100)) /\
  isna (pct_of (num 107) (num 100)) = false.
Proof.
  assert (Hrun : forall pads,
     times_100 (pct_change_default pads 6 seven_months) !! 6%nat
       = Some (d_2020_07_31, 0x1.8000000000006p+2%float)).
  { intros [|]; vm_compute; reflexivity. }
  split; [| split; [exact Hrun |]].
  - intros pads Hclaim.
    destruct (Hclaim seven_months 0%nat d_2020_07_31 (num 106) d_2020_01_31
                (num 100) eq_refl eq_refl eq_refl) as [Hexact _].
    specialize (Hexact eq_refl). rewrite Hrun in Hexact.
    vm_compute in Hexact. discriminate Hexact.
  - split; [vm_compute; reflexivity |].
    split; vm_compute; reflexivity.
Qed.

(** C5, amended.  [pct_change(periods=6) * 100] keeps the dates of the
    series, and each of its first 6 entries is missing, whichever way
    pandas fills.  Where pandas does not fill before it compares, or the
    series has no missing value, an entry with the value [v] whose
    predecessor 6 rows earlier has the value [p] is [pct_of v p], the
    binary64 value of [(v / p - 1) * 100]; where pandas does not fill, an
    entry whose predecessor is missing is missing.  So a series of length 5
    gives only missing entries, and a series of 7 values gives 6 missing
    entries and then [(v7 / v1 - 1) * 100]. *)
Theorem pct_change_6_spec (pads : bool) (s : Series) :
  map fst (times_100 (pct_change_default pads 6 s)) = map fst s /\
  (forall (i : nat) r,
     (i < 6)%nat -> times_100 (pct_change_default pads 6 s) !! i = Some r ->
     snd r = NaN) /\
  (pads = false \/ (forall r, In r s -> notna (snd r) = true) ->
   forall (i : nat) d v d0 p,
     s !! (6 + i)%nat = Some (d, v) -> s !! i = Some (d0, p) ->
     times_100 (pct_change_default pads 6 s) !! (6 + i)%nat
       = Some (d, pct_of v p)) /\
  (pads = false ->
   forall (i : nat) d v d0 p,
     s !! (6 + i)%nat = Some (d, v) -> s !! i = Some (d0, p) ->
     isna p = true ->
     times_100 (pct_change_default pads 6 s) !! (6 + i)%nat = Some (d, NaN)) /\
  (length s = 5%nat ->
   forall r, In r (times_100 (pct_change_default pads 6 s)) -> snd r = NaN) /\
  (pads = false \/ (forall r, In r s -> notna (snd r) = true) ->
   forall d1 d2 d3 d4 d5 d6 d7 a1 a2 a3 a4 a5 a6 a7,
     s = [(d1, a1); (d2, a2); (d3, a3); (d4, a4); (d5, a5); (d6, a6);
          (d7, a7)] ->
     times_100 (pct_change_default pads 6 s) =
       [(d1, NaN); (d2, NaN); (d3, NaN); (d4, NaN); (d5, NaN); (d6, NaN);
        (d7, pct_of a7 a1)]).
Proof.
  assert (Hrow : pads = false \/ (forall r, In r s -> notna (snd r) = true) ->
   forall (i : nat) d v d0 p,
     s !! (6 + i)%nat = Some (d, v) -> s !! i = Some (d0, p) ->
     times_100 (pct_change_default pads 6 s) !! (6 + i)%nat
       = Some (d, pct_of v p)).
  { intros Hfill i d v d0 p Hv Hp.
    rewrite (pct_change_default_no_missing pads 6 s Hfill).
    apply pct_change_lookup; [exact Hv |].
    rewrite shift_lookup_ge.
    - rewrite lookup_map, Hp. reflexivity.
    - rewrite length_map. apply lookup_lt_Some in Hv. exact Hv. }
  split; [apply pct_change_default_dates |].
  split; [intros i r; apply pct_change_default_head |].
  split; [exact Hrow |].
  split; [| split].
  - intros Hpads i d v d0 p Hv Hp Hna.
    rewrite (Hrow (or_introl Hpads) i d v d0 p Hv Hp).
    rewrite (isna_NaN p Hna), pct_of_nan_r. reflexivity.
  - intros Hlen r Hr. apply list_elem_of_In in Hr.
    apply list_elem_of_lookup in Hr as [i Hi].
    apply (pct_change_default_head pads 6 i s r); [| exact Hi].
    apply lookup_lt_Some in Hi.
    assert (length (times_100 (pct_change_default pads 6 s)) = length s).
    { rewrite <- (length_map fst), pct_change_default_dates, length_map.
      reflexivity. }
    lia.
  - intros Hfill d1 d2 d3 d4 d5 d6 d7 a1 a2 a3 a4 a5 a6 a7 Hs.
    rewrite (pct_change_default_no_missing pads 6 s Hfill). subst s.
    unfold times_100, pct_change, shift.
    cbn [map fst snd length replicate app take zip zip_with].
    rewrite !fdiv_nan_r. reflexivity.
Qed.

(** ** Contiguous periods *)

Lemma filter_by_selected (p : fval -> bool) (idx : list Timestamp)
    (col : list fval) :
  filter_by (map p col) idx = selected_dates p idx col.
Proof.
  unfold selected_dates. revert idx.
  induction col as [| v col IH]; intros [| d idx]; cbn; try reflexivity.
  destruct (p v); cbn; rewrite IH; reflexivity.
Qed.

(** The group numbers of the dates that follow [prev], counted from [acc]. *)
Lemma cumsum_gaps_cons (acc : nat) (prev d : Z) (t : list Z) :
  cumsum_from acc
    (map gap_exceeds (zip_with (fun cur prev => Some (cur - prev)) (d :: t)
                               (prev :: d :: t))) =
  (if d - prev >? GAP_TOLERANCE then S acc else acc) ::
  cumsum_from (if d - prev >? GAP_TOLERANCE then S acc else acc)
    (map gap_exceeds (zip_with (fun cur prev => Some (cur - prev)) t (d :: t))).
Proof. reflexivity. Qed.

Lemma cumsum_from_ge (bs : list bool) (acc g : nat) :
  In g (cumsum_from acc bs) -> (acc <= g)%nat.
Proof.
  revert acc. induction bs as [| b bs IH]; intros acc; cbn; [tauto |].
  intros [<- | H].
  - destruct b; lia.
  - apply IH in H. destruct b; lia.
Qed.

Lemma cumsum_from_length (bs : list bool) (acc : nat) :
  length (cumsum_from acc bs) = length bs.
Proof.
  revert acc. induction bs as [| b bs IH]; intros acc; cbn;
    [| rewrite IH]; reflexivity.
Qed.

Lemma unique_In (l : list nat) (x : nat) : In x (unique l) -> In x l.
Proof.
  revert x. induction l as [| y l IH]; intros x; cbn; [tauto |].
  intros [-> | H]; [left; reflexivity |].
  apply filter_In in H as [H _]. right. apply IH. exact H.
Qed.

Lemma filter_ne_absent (l : list nat) (x : nat) :
  ~ In x l -> List.filter (fun y => negb (Nat.eqb y x)) l = l.
Proof.
  induction l as [| y l IH]; intros H; cbn; [reflexivity |].
  destruct (Nat.eqb_spec y x) as [-> | Hne].
  - exfalso. apply H. left. reflexivity.
  - cbn. rewrite IH; [reflexivity |]. intros Hx. apply H. right. exact Hx.
Qed.

Lemma unique_run_drop (n acc : nat) (gs : list nat) :
  ~ In acc gs ->
  List.filter (fun y => negb (Nat.eqb y acc)) (unique (replicate n acc ++ gs))
  = unique gs.
Proof.
  intros Hgs. induction n as [| n IH]; cbn.
  - apply filter_ne_absent. intros H. apply Hgs, unique_In. exact H.
  - rewrite Nat.eqb_refl. cbn.
    assert (Hidem : forall l : list nat,
      List.filter (fun y => negb (Nat.eqb y acc))
        (List.filter (fun y => negb (Nat.eqb y acc)) l) =
      List.filter (fun y => negb (Nat.eqb y acc)) l).
    { intros l. induction l as [| z l IHl]; cbn; [reflexivity |].
      destruct (negb (Nat.eqb z acc)) eqn:E; cbn; rewrite ?E, IHl;
        reflexivity. }
    rewrite Hidem. exact IH.
Qed.

Lemma unique_run (acc : nat) (gs : list nat) (start : Z) (mid : list Z) :
  ~ In acc gs ->
  unique (replicate (length (start :: mid)) acc ++ gs) = acc :: unique gs.
Proof.
  intros Hgs. cbn. f_equal. apply unique_run_drop. exact Hgs.
Qed.

Lemma filter_by_absent (id : nat) (gs : list nat) (t : list Z) :
  ~ In id gs -> filter_by (map (Nat.eqb id) gs) t = [].
Proof.
  revert t. induction gs as [| g gs IH]; intros t H; [reflexivity |].
  destruct t as [| d t]; [reflexivity |]. cbn.
  destruct (Nat.eqb_spec id g) as [-> | _].
  - exfalso. apply H. left. reflexivity.
  - apply IH. intros Hin. apply H. right. exact Hin.
Qed.

Lemma filter_by_run_eq (acc : nat) (gs : list nat) (pre t : list Z) :
  ~ In acc gs ->
  filter_by (map (Nat.eqb acc) (replicate (length pre) acc ++ gs)) (pre ++ t)
  = pre.
Proof.
  intros Hgs. induction pre as [| d pre IH]; cbn.
  - apply filter_by_absent. exact Hgs.
  - rewrite Nat.eqb_refl. f_equal. exact IH.
Qed.

Lemma filter_by_run_ne (id acc : nat) (gs : list nat) (pre t : list Z) :
  id <> acc ->
  filter_by (map (Nat.eqb id) (replicate (length pre) acc ++ gs)) (pre ++ t)
  = filter_by (map (Nat.eqb id) gs) t.
Proof.
  intros Hne. induction pre as [| d pre IH]; cbn; [reflexivity |].
  destruct (Nat.eqb_spec id acc) as [-> | _]; [contradiction | exact IH].
Qed.

Lemma collect_periods_run (acc : nat) (gs ids : list nat) (pre t : list Z) :
  (forall id, In id ids -> id <> acc) ->
  collect_periods (pre ++ t) (replicate (length pre) acc ++ gs) ids
  = collect_periods t gs ids.
Proof.
  induction ids as [| id ids IH]; intros Hids; [reflexivity |].
  cbn [collect_periods].
  rewrite filter_by_run_ne by (apply Hids; left; reflexivity).
  rewrite IH by (intros x Hx; apply Hids; right; exact Hx).
  reflexivity.
Qed.

Lemma replicate_shift (n x : nat) (l : list nat) :
  replicate n x ++ x :: l = replicate (S n) x ++ l.
Proof.
  induction n as [| n IH]; [reflexivity |].
  cbn. f_equal. exact IH.
Qed.

Lemma last_snoc (mid : list Z) (start d : Z) :
  List.last (mid ++ [d]) start = d.
Proof. apply last_last. Qed.

(** The grouping by the cumulative sum of the gap indicator and the scan
    give the same periods, from any point of the scan on: [start :: mid]
    is the run being built, numbered [acc]. *)
Lemma collect_periods_scan (t mid : list Z) (acc : nat) (start : Z) :
  let prev := List.last mid start in
  let gs := cumsum_from acc
              (map gap_exceeds
                   (zip_with (fun cur prev => Some (cur - prev)) t (prev :: t)))
  in
  collect_periods ((start :: mid) ++ t)
                  (replicate (length (start :: mid)) acc ++ gs)
                  (unique (replicate (length (start :: mid)) acc ++ gs))
  = Ok (scan_intervals GAP_TOLERANCE start prev t).
Proof.
  revert mid acc start. induction t as [| d t IH]; intros mid acc start.
  - cbn zeta. cbn [zip_with map cumsum_from scan_intervals].
    rewrite unique_run by (intros []).
    cbn [unique collect_periods].
    rewrite filter_by_run_eq by (intros []). reflexivity.
  - cbn zeta. rewrite cumsum_gaps_cons. cbn [scan_intervals].
    destruct (d - List.last mid start >? GAP_TOLERANCE) eqn:Hgap.
    + set (gs := cumsum_from (S acc) _).
      assert (Hfresh : ~ In acc (S acc :: gs)).
      { intros [H | H]; [lia |]. apply cumsum_from_ge in H. lia. }
      rewrite unique_run by exact Hfresh.
      cbn [collect_periods].
      rewrite filter_by_run_eq by exact Hfresh.
      rewrite collect_periods_run.
      2:{ intros id Hid Heq. subst id. apply unique_In in Hid.
          apply Hfresh. exact Hid. }
      specialize (IH [] (S acc) d). cbn zeta in IH.
      cbn [List.last length replicate app] in IH. fold gs in IH.
      rewrite IH. reflexivity.
    + specialize (IH (mid ++ [d]) acc start). cbn zeta in IH.
      rewrite last_snoc in IH.
      replace ((start :: mid ++ [d]) ++ t) with ((start :: mid) ++ d :: t) in IH
        by (cbn; rewrite <- app_assoc; reflexivity).
      replace (replicate (length (start :: mid ++ [d])) acc ++
               cumsum_from acc
                 (map gap_exceeds
                    (zip_with (fun cur prev => Some (cur - prev)) t (d :: t))))
        with (replicate (length (start :: mid)) acc ++
              acc :: cumsum_from acc
                 (map gap_exceeds
                    (zip_with (fun cur prev => Some (cur - prev)) t (d :: t))))
        in IH.
      2:{ cbn [length]. rewrite length_app. cbn [length].
          replace (S (length mid + 1)) with (S (S (length mid))) by lia.
          apply replicate_shift. }
      exact IH.
Qed.

(** The code's grouping refines the scan of the specification. *)
Lemma periods_of_dates_scan (dates : list Z) :
  periods_of_dates dates = Ok (find_intervals GAP_TOLERANCE dates).
Proof.
  destruct dates as [| d t]; [reflexivity |].
  unfold periods_of_dates. cbn [length Nat.eqb index_diff map gap_exceeds].
  unfold cumsum. cbn [cumsum_from find_intervals].
  exact (collect_periods_scan t [] 0%nat d).
Qed.

Lemma last_cons_default (mid : list Z) (x start : Z) :
  List.last (x :: mid) start = List.last mid x.
Proof.
  revert x start. induction mid as [| y mid IH]; intros x start;
    [reflexivity |].
  change (List.last (x :: y :: mid) start) with (List.last (y :: mid) start).
  rewrite (IH y start), (IH y x). reflexivity.
Qed.

Lemma close_run_snoc (tolerance start d : Z) (mid : list Z) :
  close_run tolerance start mid ->
  d - List.last mid start <= tolerance ->
  close_run tolerance start (mid ++ [d]).
Proof.
  revert start. induction mid as [| x mid IH]; intros start Hrun Hd.
  - cbn in *. auto.
  - destruct Hrun as [Hx Hrun]. cbn [app close_run]. split; [exact Hx |].
    apply IH; [exact Hrun |].
    rewrite <- (last_cons_default mid x start). exact Hd.
Qed.

(** The scan cuts the dates into groups: the run being built, [start ::
    mid], is extended by the dates that stay within the tolerance, and the
    dates left over form the groups that follow. *)
Lemma scan_intervals_grouping (tolerance : Z) (t mid : list Z) (start : Z) :
  close_run tolerance start mid ->
  exists ext rest,
    grouping tolerance (start :: mid ++ t) ((start, mid ++ ext) :: rest) /\
    scan_intervals tolerance start (List.last mid start) t =
      map group_span ((start, mid ++ ext) :: rest).
Proof.
  revert mid start. induction t as [| d t IH]; intros mid start Hrun.
  - exists [], []. unfold grouping. cbn. rewrite !app_nil_r.
    split; [split; [| split] |]; auto.
  - cbn [scan_intervals].
    destruct (d - List.last mid start >? tolerance) eqn:Hgap.
    + destruct (IH [] d I) as (ext & rest & (Hcat & Hclose & Hsep) & Hscan).
      exists [], ((d, [] ++ ext) :: rest). unfold grouping.
      cbn [List.last] in Hscan. rewrite Hscan.
      rewrite app_nil_r. split; [split; [| split] | reflexivity].
      * cbn [map concat] in *. rewrite Hcat. reflexivity.
      * constructor; assumption.
      * cbn [separated]. split; [| exact Hsep].
        unfold group_first, group_last. cbn [fst snd].
        apply Z.gtb_lt in Hgap. lia.
    + destruct (IH (mid ++ [d]) start)
        as (ext & rest & (Hcat & Hclose & Hsep) & Hscan).
      { apply close_run_snoc; [exact Hrun |].
        rewrite Z.gtb_ltb in Hgap. apply Z.ltb_ge in Hgap. exact Hgap. }
      rewrite last_snoc in Hscan.
      exists (d :: ext), rest. unfold grouping.
      replace (mid ++ d :: ext) with ((mid ++ [d]) ++ ext)
        by (rewrite <- app_assoc; reflexivity).
      replace (start :: mid ++ d :: t) with (start :: (mid ++ [d]) ++ t)
        by (rewrite <- app_assoc; reflexivity).
      split; [split; [| split] |]; assumption.
Qed.

(** C6.  Interval extraction.  [get_recession_periods] works on the dates of
    the rows where [Recession == 1], [get_inversion_periods] on the dates of
    the rows where the spread is below 0.  From these dates both return the
    intervals of the scan, which opens a new interval exactly when the gap to
    the previous selected date exceeds 45 days: the selected dates are cut
    into groups, in order, every date of a group being at most 45 days after
    the one before it and every group starting more than 45 days after the
    end of the group before it, and each interval is the pair of the first
    and last date of its group.  No selected date gives no interval, and
    three dates with gaps of 10 and 60 days give the two intervals [d1,d2]
    and [d3,d3]. *)
Theorem interval_extraction (df : Frame) :
  (forall recession,
     assoc "Recession" (columns df) = Some recession ->
     get_recession_periods df =
       Ok (find_intervals GAP_TOLERANCE
             (selected_dates feq_one (index df) recession))) /\
  (forall spread_col spread,
     assoc spread_col (columns df) = Some spread ->
     get_inversion_periods df spread_col =
       Ok (find_intervals GAP_TOLERANCE
             (selected_dates flt_zero (index df) spread))) /\
  (forall dates,
     periods_of_dates dates = Ok (find_intervals GAP_TOLERANCE dates) /\
     exists groups,
       grouping GAP_TOLERANCE dates groups /\
       find_intervals GAP_TOLERANCE dates = map group_span groups) /\
  (forall recession,
     assoc "Recession" (columns df) = Some recession ->
     selected_dates feq_one (index df) recession = [] ->
     get_recession_periods df = Ok []) /\
  (forall spread_col spread,
     assoc spread_col (columns df) = Some spread ->
     selected_dates flt_zero (index df) spread = [] ->
     get_inversion_periods df spread_col = Ok []) /\
  (forall d1 : Z,
     periods_of_dates [d1; d1 + 10; d1 + 10 + 60] =
       Ok [(d1, d1 + 10); (d1 + 10 + 60, d1 + 10 + 60)]).
Proof.
  split; [| split; [| split; [| split; [| split]]]].
  - intros recession Hcol. unfold get_recession_periods. rewrite Hcol.
    cbn [select_rows index]. rewrite filter_by_selected.
    apply periods_of_dates_scan.
  - intros spread_col spread Hcol. unfold get_inversion_periods.
    rewrite Hcol. cbn [select_rows index]. rewrite filter_by_selected.
    apply periods_of_dates_scan.
  - intros dates. split; [apply periods_of_dates_scan |].
    destruct dates as [| d t].
    + exists []. unfold grouping. cbn. auto.
    + destruct (scan_intervals_grouping GAP_TOLERANCE t [] d I)
        as (ext & rest & Hgrouping & Hscan).
      exists ((d, [] ++ ext) :: rest). split; [exact Hgrouping |].
      exact Hscan.
  - intros recession Hcol Hnone. unfold get_recession_periods.
    rewrite Hcol. cbn [select_rows index]. rewrite filter_by_selected, Hnone.
    reflexivity.
  - intros spread_col spread Hcol Hnone. unfold get_inversion_periods.
    rewrite Hcol. cbn [select_rows index]. rewrite filter_by_selected, Hnone.
    reflexivity.
  - intros d1. rewrite periods_of_dates_scan. unfold GAP_TOLERANCE.
    cbn [find_intervals scan_intervals].
    replace (d1 + 10 - d1) with 10 by lia.
    replace (d1 + 10 + 60 - (d1 + 10)) with 60 by lia.
    reflexivity.
Qed.

(** ** The splice *)

Lemma get_app (s1 s2 : list (Z * fval)) (d : Z) :
  get (s1 ++ s2) d =
  match get s1 d with Some v => Some v | None => get s2 d end.
Proof.
  induction s1 as [| [k v] s1 IH]; [reflexivity |].
  cbn. destruct (k =? d); [reflexivity | exact IH].
Qed.

Lemma has_label_get (s : list (Z * fval)) (d : Z) :
  has_label s d = false -> get s d = None.
Proof.
  unfold has_label. induction s as [| [k v] s IH]; [reflexivity |].
  cbn. destruct (k =? d); [discriminate | exact IH].
Qed.

Lemma get_overwrite (s : list (Z * fval)) (d d' : Z) (v : fval) :
  get (map (fun r => if fst r =? d then (d, v) else r) s) d' =
  if d =? d'
  then (if has_label s d then Some v else None)
  else get s d'.
Proof.
  unfold has_label. induction s as [| [k x] s IH].
  - cbn. destruct (d =? d'); reflexivity.
  - cbn [map fst get existsb]. destruct (Z.eqb_spec k d) as [-> | Hkd].
    + cbn [get orb]. destruct (Z.eqb_spec d d') as [-> | Hne];
        [reflexivity |].
      rewrite IH. destruct (Z.eqb_spec d d'); [contradiction | reflexivity].
    + cbn [get orb]. rewrite IH.
      destruct (Z.eqb_spec k d') as [-> | Hk];
        destruct (Z.eqb_spec d d') as [-> | Hd]; try reflexivity.
      contradiction.
Qed.

Lemma get_setitem (s : list (Z * fval)) (d d' : Z) (v : fval) :
  get (setitem s d v) d' = if d =? d' then Some v else get s d'.
Proof.
  unfold setitem. destruct (has_label s d) eqn:Hl.
  - rewrite get_overwrite, Hl. reflexivity.
  - rewrite get_app. cbn.
    destruct (Z.eqb_spec d d') as [<- | Hne].
    + rewrite (has_label_get _ _ Hl). reflexivity.
    + destruct (get s d'); reflexivity.
Qed.

Lemma get_insert_row (r : Z * fval) (s : list (Z * fval)) (d : Z) :
  get (insert_row r s) d = get (r :: s) d.
Proof.
  induction s as [| r' s IH]; [reflexivity |].
  cbn [insert_row]. destruct (fst r <=? fst r') eqn:Hle; [reflexivity |].
  destruct r as [k v], r' as [k' v']. cbn in Hle |- *.
  cbn in IH. rewrite IH.
  destruct (Z.eqb_spec k d) as [-> | _]; [| reflexivity].
  destruct (Z.eqb_spec k' d) as [-> | _]; [| reflexivity].
  apply Z.leb_gt in Hle. lia.
Qed.

Lemma get_sort_index (s : list (Z * fval)) (d : Z) :
  get (sort_index s) d = get s d.
Proof.
  unfold sort_index. induction s as [| [k v] s IH]; [reflexivity |].
  cbn [fold_right]. rewrite get_insert_row. cbn. rewrite IH. reflexivity.
Qed.

Lemma get_label (s : list (Z * fval)) (d : Z) :
  existsb (Z.eqb d) (map fst s) = false -> get s d = None.
Proof.
  induction s as [| [k v] s IH]; [reflexivity |].
  cbn. rewrite (Z.eqb_sym k d). destruct (d =? k); [discriminate | exact IH].
Qed.

Lemma overlay_idem (secondary : list (Z * fval)) (c d : Z) (b : option fval) :
  overlay secondary c d (overlay secondary c d b) = overlay secondary c d b.
Proof.
  unfold overlay. destruct (get secondary d) as [v |]; [| reflexivity].
  destruct ((d >? c) && notna v); reflexivity.
Qed.

Lemma get_splice_step (secondary acc : list (Z * fval)) (c l d : Z) :
  get (splice_step secondary c acc l) d =
  if l =? d then overlay secondary c d (get acc d) else get acc d.
Proof.
  unfold splice_step, overlay.
  destruct (Z.eqb_spec l d) as [-> | Hne].
  - destruct (get secondary d) as [v |]; [| reflexivity].
    destruct ((d >? c) && notna v); [| reflexivity].
    rewrite get_setitem, Z.eqb_refl. reflexivity.
  - destruct (get secondary l) as [v |]; [| reflexivity].
    destruct ((l >? c) && notna v); [| reflexivity].
    rewrite get_setitem. destruct (Z.eqb_spec l d); [contradiction |].
    reflexivity.
Qed.

Lemma get_splice_loop (secondary : list (Z * fval)) (c d : Z)
    (labels : list Z) (acc : list (Z * fval)) :
  get (fold_left (splice_step secondary c) labels acc) d =
  if existsb (Z.eqb d) labels
  then overlay secondary c d (get acc d)
  else get acc d.
Proof.
  revert acc. induction labels as [| l labels IH]; intros acc; [reflexivity |].
  cbn [fold_left existsb]. rewrite IH, get_splice_step.
  rewrite (Z.eqb_sym d l).
  destruct (l =? d); cbn [orb].
  - rewrite overlay_idem. destruct (existsb (Z.eqb d) labels); reflexivity.
  - reflexivity.
Qed.

(** The value of the spliced series at every date. *)
Lemma get_splice (primary secondary : list (Z * fval)) (c d : Z) :
  get (splice primary secondary c) d =
  overlay secondary c d (get primary d).
Proof.
  unfold splice. rewrite get_sort_index, get_splice_loop.
  destruct (existsb (Z.eqb d) (map fst secondary)) eqn:E; [reflexivity |].
  unfold overlay. rewrite (get_label _ _ E). reflexivity.
Qed.

Lemma get_In (s : list (Z * fval)) (d : Z) (v : fval) :
  get s d = Some v -> In (d, v) s.
Proof.
  induction s as [| [k x] s IH]; [discriminate |].
  cbn. destruct (Z.eqb_spec k d) as [-> | _].
  - intros [= ->]. left. reflexivity.
  - intros H. right. apply IH. exact H.
Qed.

Lemma StronglySorted_le_last (l : list Z) (x c : Z) :
  StronglySorted Z.le l -> index_last l = Ok c -> In x l -> x <= c.
Proof.
  destruct l as [| a l]; [intros _ _ [] |].
  intros Hs Hc. cbn in Hc. injection Hc as <-.
  revert a x Hs. induction l as [| b l IH]; intros a x Hs Hx.
  - destruct Hx as [-> | []]. cbn. lia.
  - rewrite last_cons_default.
    apply StronglySorted_inv in Hs as [Hs Hall].
    rewrite List.Forall_forall in Hall.
    destruct Hx as [-> | Hx].
    + specialize (Hall b (or_introl eq_refl)).
      specialize (IH b b Hs (or_introl eq_refl)). lia.
    + apply IH; assumption.
Qed.

(** After the last date at which it has a value, an ascending series has
    none. *)
Lemma no_value_after_last (s : list (Z * fval)) (c d : Z) :
  ascending s ->
  index_last (map fst (dropna s)) = Ok c ->
  d > c ->
  has_value s d = false.
Proof.
  intros Hasc Hc Hd. unfold has_value.
  destruct (get s d) as [v |] eqn:Hg; [| reflexivity].
  destruct (notna v) eqn:Hv; [| reflexivity].
  exfalso. apply get_In in Hg.
  assert (Hin : In d (map fst (dropna s))).
  { apply in_map_iff. exists (d, v). split; [reflexivity |].
    apply filter_In. split; [exact Hg | exact Hv]. }
  pose proof (StronglySorted_le_last _ d c
                (StronglySorted_filter_fst s _ Hasc) Hc Hin).
  lia.
Qed.

(** The splice, for any cutover: at or before the cutover the spliced series
    is the primary one; after it, it takes the secondary value where there
    is one that is not NaN, and is the primary series elsewhere. *)
Lemma splice_spec (primary secondary : list (Z * fval)) (c : Z) :
  (forall d, d <= c ->
     get (splice primary secondary c) d = get primary d) /\
  (forall d v, d > c -> get secondary d = Some v -> notna v = true ->
     get (splice primary secondary c) d = Some v) /\
  (forall d, d > c -> has_value secondary d = false ->
     get (splice primary secondary c) d = get primary d).
Proof.
  split; [| split].
  - intros d Hd. rewrite get_splice. unfold overlay.
    destruct (get secondary d) as [v |]; [| reflexivity].
    replace (d >? c) with false; [reflexivity |].
    symmetry. rewrite Z.gtb_ltb. apply Z.ltb_ge. lia.
  - intros d v Hd Hs Hv. rewrite get_splice. unfold overlay. rewrite Hs, Hv.
    replace (d >? c) with true; [reflexivity |].
    symmetry. apply Z.gtb_lt. lia.
  - intros d Hd Hs. rewrite get_splice. unfold overlay.
    unfold has_value in Hs. destruct (get secondary d) as [v |]; [| reflexivity].
    rewrite Hs, andb_false_r. reflexivity.
Qed.

(** ** Running the monad *)

Lemma bind_ok {A B : Type} (m : M A) (k : A -> M B) (w w1 : World) (a : A) :
  m w = (Ok a, w1) -> bind m k w = k a w1.
Proof. intros H. unfold bind. rewrite H. reflexivity. Qed.

Lemma bind_raise {A B : Type} (m : M A) (k : A -> M B) (w w1 : World)
    (e : exn) :
  m w = (Raise e, w1) -> bind m k w = (Raise e, w1).
Proof. intros H. unfold bind. rewrite H. reflexivity. Qed.

Lemma bind_Ok_inv {A B : Type} (m : M A) (k : A -> M B) (w w' : World)
    (b : B) :
  bind m k w = (Ok b, w') ->
  exists a w1, m w = (Ok a, w1) /\ k a w1 = (Ok b, w').
Proof.
  unfold bind. destruct (m w) as [[a | e] w1]; [| discriminate].
  intros H. exists a, w1. auto.
Qed.

Lemma lift_result_inv {A : Type} (r : result A) (w w' : World) (a : A) :
  lift_result r w = (Ok a, w') -> r = Ok a /\ w' = w.
Proof. unfold lift_result. intros [= -> ->]. auto. Qed.

Lemma bind_ext_at {A B : Type} (m : M A) (k1 k2 : A -> M B) (w : World) :
  (forall a w1, m w = (Ok a, w1) -> k1 a w1 = k2 a w1) ->
  bind m k1 w = bind m k2 w.
Proof.
  intros H. unfold bind. destruct (m w) as [[a | e] w1]; [| reflexivity].
  apply H. reflexivity.
Qed.

Lemma bind_cong_at {A B : Type} (m1 m2 : M A) (k1 k2 : A -> M B)
    (w : World) :
  m1 w = m2 w ->
  (forall a w1, m2 w = (Ok a, w1) -> k1 a w1 = k2 a w1) ->
  bind m1 k1 w = bind m2 k2 w.
Proof.
  intros Hm H. unfold bind. rewrite Hm.
  destruct (m2 w) as [[a | e] w1]; [| reflexivity].
  apply H. reflexivity.
Qed.

Lemma bind_assoc {A B C : Type} (m : M A) (f : A -> M B) (g : B -> M C)
    (w : World) :
  bind (bind m f) g w = bind m (fun a => bind (f a) g) w.
Proof. unfold bind. destruct (m w) as [[a | e] w1]; reflexivity. Qed.

Lemma try_except_ext_at {A : Type} (m1 m2 : M A) (h : exn -> M A)
    (w : World) :
  m1 w = m2 w -> try_except m1 h w = try_except m2 h w.
Proof. intros H. unfold try_except. rewrite H. reflexivity. Qed.

Lemma keeps_files_ret {A : Type} (a : A) : keeps_files (ret a).
Proof. intros w r w' [= <- <-]. reflexivity. Qed.

Lemma keeps_files_lift {A : Type} (r : result A) : keeps_files (lift_result r).
Proof. intros w r' w' [= <- <-]. reflexivity. Qed.

Lemma keeps_files_print (line : string) : keeps_files (print line).
Proof. intros w r w' [= <- <-]. reflexivity. Qed.

Lemma keeps_files_makedirs (d : string) : keeps_files (os_makedirs d).
Proof.
  intros w r w'. unfold os_makedirs.
  destruct (String.eqb d ""); [intros [= <- <-]; reflexivity |].
  destruct (files w !! d); intros [= <- <-]; reflexivity.
Qed.

Lemma keeps_files_exists (p : string) : keeps_files (os_path_exists p).
Proof. intros w r w' [= <- <-]. reflexivity. Qed.

Lemma keeps_files_end_or_now (e : option Z) : keeps_files (end_or_now e).
Proof. destruct e; intros w r w' [= <- <-]; reflexivity. Qed.

Lemma keeps_files_bind {A B : Type} (m : M A) (k : A -> M B) :
  keeps_files m -> (forall a, keeps_files (k a)) -> keeps_files (bind m k).
Proof.
  intros Hm Hk w r w'. unfold bind.
  destruct (m w) as [[a | e] w1] eqn:E.
  - intros H. rewrite (Hk a _ _ _ H). apply (Hm _ _ _ E).
  - intros [= <- <-]. apply (Hm _ _ _ E).
Qed.

Lemma keeps_files_print_metal_range (label : string) (s : list (Z * fval)) :
  keeps_files (print_metal_range label s).
Proof.
  unfold print_metal_range.
  apply keeps_files_bind; [apply keeps_files_lift | intros first].
  apply keeps_files_bind; [apply keeps_files_lift | intros last].
  apply keeps_files_print.
Qed.

(** *** [load_or_download], case by case *)

(** With no file under the key and a download that raises,
    [load_or_download] raises and writes nothing. *)
Lemma load_or_download_raises (cache_file description cache_dir : string)
    (download_func : Downloader) (w : World) :
  files w !! path_join cache_dir cache_file = None ->
  (exists e, snd (download_func (fetches w)) = Raise e) ->
  exists e' w',
    load_or_download cache_file download_func description cache_dir w
      = (Raise e', w') /\
    files w' = files w.
Proof.
  intros Hf [e Hfetch].
  set (p := path_join cache_dir cache_file) in *.
  destruct (download_func (fetches w)) as [out r] eqn:Ef.
  simpl in Hfetch. subst r.
  unfold load_or_download, bind, os_makedirs.
  destruct (String.eqb cache_dir ""); [eauto |].
  destruct (files w !! cache_dir); [eauto |].
  unfold os_path_exists. cbn [print].
  destruct (path_exists _ _) eqn:Hex.
  - unfold pickle_load. cbn [files dirs]. fold p. rewrite Hf.
    destruct (bool_decide _); eauto.
  - unfold call_download. cbn [fetches files dirs stdout clock].
    rewrite Ef. eauto.
Qed.

(** When [load_or_download] returns, its result is in the cache under the
    key, and no other file has changed. *)
(** A call that raises has written no file. *)
Lemma load_or_download_raise_files (cache_file description cache_dir : string)
    (download_func : Downloader) (w w' : World) (e : exn) :
  load_or_download cache_file download_func description cache_dir w
    = (Raise e, w') ->
  files w' = files w.
Proof.
  unfold load_or_download, bind, os_makedirs.
  destruct (String.eqb cache_dir ""); [intros [= _ <-]; reflexivity |].
  destruct (files w !! cache_dir); [intros [= _ <-]; reflexivity |].
  unfold os_path_exists. cbn [print].
  destruct (path_exists _ _).
  - unfold pickle_load. cbn [files dirs].
    destruct (files w !! path_join cache_dir cache_file) as [[? | ?] |];
      [discriminate | intros [= _ <-]; reflexivity |].
    destruct (bool_decide _); intros [= _ <-]; reflexivity.
  - unfold call_download. cbn [fetches files dirs stdout clock].
    destruct (download_func (fetches w)) as [out [d | e0]];
      [| intros [= _ <-]; reflexivity].
    unfold pickle_dump. cbn [files dirs stdout fetches clock].
    destruct (bool_decide _); [intros [= _ <-]; reflexivity | discriminate].
Qed.

Lemma load_or_download_returns (cache_file description cache_dir : string)
    (download_func : Downloader) (w w' : World) (data : Frame) :
  load_or_download cache_file download_func description cache_dir w
    = (Ok data, w') ->
  files w' !! path_join cache_dir cache_file = Some (PickleFile data) /\
  (forall p, p <> path_join cache_dir cache_file ->
             files w' !! p = files w !! p).
Proof.
  set (p := path_join cache_dir cache_file).
  unfold load_or_download, bind, os_makedirs.
  destruct (String.eqb cache_dir ""); [discriminate |].
  destruct (files w !! cache_dir); [discriminate |].
  unfold os_path_exists. cbn [print]. fold p.
  destruct (path_exists _ _) eqn:Hex.
  - unfold pickle_load. cbn [files dirs].
    destruct (files w !! p) as [[payload | sheet] |] eqn:Hf.
    + intros [= <- <-]. cbn [files]. auto.
    + discriminate.
    + destruct (bool_decide _); discriminate.
  - unfold call_download. cbn [fetches files dirs stdout clock].
    destruct (download_func (fetches w)) as [out [d | e]]; [| discriminate].
    unfold pickle_dump. cbn [files dirs stdout fetches clock].
    destruct (bool_decide _); [discriminate |].
    intros [= <- <-]. cbn [files]. split.
    + apply lookup_insert_eq.
    + intros q Hq. apply lookup_insert_ne. congruence.
Qed.

(** ** Gold and silver *)

Section GoldSilverProperties.

Variable yf_download : string -> Timestamp -> Timestamp -> nat -> result Frame.
Variable urlretrieve : string -> nat -> result File.

(** The end date a loader works with. *)
Lemma end_or_now_eq (end_date : option Z) (w : World) :
  end_or_now end_date w =
  (Ok (match end_date with Some d => d | None => clock w end), w).
Proof. destruct end_date; reflexivity. Qed.

(** The loader never raises out of its [try] block: it can only raise while
    moving a workbook found at the old location. *)
Lemma load_gold_silver_data_returns (start_date end_date : option Z)
    (cache_dir : string) (w : World) :
  path_exists wb_name w = false \/
  path_exists (path_join cache_dir wb_name) w = true ->
  exists res w',
    load_gold_silver_data yf_download urlretrieve start_date end_date
                          cache_dir w = (Ok res, w').
Proof.
  intros Hmove. unfold load_gold_silver_data.
  rewrite (bind_ok _ _ _ _ _ (end_or_now_eq end_date w)).
  unfold bind at 1. cbn [print].
  unfold bind at 1. unfold os_path_exists at 1.
  unfold bind at 1. unfold os_path_exists at 1.
  replace (path_exists wb_name _ && negb (path_exists (path_join cache_dir wb_name) _))
    with false.
  2:{ unfold path_exists in *. cbn [files dirs] in *.
      destruct Hmove as [-> | ->]; [reflexivity |].
      symmetry. apply andb_false_r. }
  unfold bind at 1. cbn [when ret].
  unfold try_except.
  match goal with |- context [match ?body with _ => _ end] =>
    destruct body as [[res | e] w2] end.
  - eauto.
  - unfold bind, print, ret. eauto.
Qed.

(** A cache hit changes neither the files nor the count of downloads. *)
Lemma load_or_download_hit_world (cache_file description cache_dir : string)
    (download_func : Downloader) (w w' : World) (x : File) (r : result Frame) :
  files w !! path_join cache_dir cache_file = Some x ->
  load_or_download cache_file download_func description cache_dir w = (r, w') ->
  files w' = files w /\ fetches w' = fetches w.
Proof.
  intros Hx. unfold load_or_download, bind, os_makedirs.
  destruct (String.eqb cache_dir ""); [intros [= <- <-]; auto |].
  destruct (files w !! cache_dir); [intros [= <- <-]; auto |].
  unfold os_path_exists. cbn [print].
  replace (path_exists (path_join cache_dir cache_file) _) with true.
  2:{ symmetry. apply (path_exists_file _ _ x). exact Hx. }
  unfold pickle_load. cbn [files dirs]. rewrite Hx.
  destruct x; intros [= <- <-]; auto.
Qed.

(** The loader is the sequence of its steps. *)
Lemma load_gold_silver_data_steps (start_date end_date : option Z)
    (cache_dir : string) (w : World) :
  load_gold_silver_data yf_download urlretrieve start_date end_date
                        cache_dir w =
  (do end_date <- end_or_now end_date ;
   run print "Loading Gold and Silver data..." ;
   run move_old_workbook cache_dir ;
   try_except
     (do ' (wb_gold, wb_silver, wb_end_date) <-
        read_world_bank urlretrieve cache_dir ;
      splice_with_yahoo yf_download wb_gold wb_silver wb_end_date end_date
                        cache_dir)
     (fun e =>
        run print ("Warning: Could not load Gold/Silver data: " +:+ e) ;
        ret (empty_series, empty_series, empty_series, empty_series))) w.
Proof.
  symmetry.
  unfold load_gold_silver_data, move_old_workbook, read_world_bank,
    splice_with_yahoo.
  apply bind_ext_at. intros end_date' w0 _.
  apply bind_ext_at. intros [] w1 _.
  rewrite bind_assoc. apply bind_ext_at. intros old_there w2 _.
  rewrite bind_assoc. apply bind_ext_at. intros new_there w3 _.
  apply bind_ext_at. intros [] w4 _.
  apply try_except_ext_at.
  repeat (rewrite bind_assoc; apply bind_ext_at; intros ? ? _).
  reflexivity.
Qed.

(** When a Yahoo Finance download fails, that of gold, or that of silver
    once gold has been obtained, the Yahoo Finance step raises, and it has
    written nothing but the gold file. *)
Lemma splice_with_yahoo_raises (wb_gold wb_silver : list (Z * fval))
    (wb_end_date end_date : Z) (cache_dir : string) (w : World) (err : exn) :
  (files w !! path_join cache_dir "yf_gold.pkl" = None /\
   yf_download "GC=F" wb_end_date end_date (fetches w) = Raise err) \/
  (exists yf_gold wg,
     load_or_download "yf_gold.pkl"
       (quiet (yf_download "GC=F" wb_end_date end_date))
       "Yahoo Finance Gold" cache_dir
       (with_line "  Fetching recent Gold/Silver from Yahoo Finance..." w)
       = (Ok yf_gold, wg) /\
     files wg !! path_join cache_dir "yf_silver.pkl" = None /\
     yf_download "SI=F" wb_end_date end_date (fetches wg) = Raise err) ->
  exists e' w',
    splice_with_yahoo yf_download wb_gold wb_silver wb_end_date end_date
                      cache_dir w = (Raise e', w') /\
    (forall p, p <> path_join cache_dir "yf_gold.pkl" ->
               files w' !! p = files w !! p) /\
    files w' =
      files (snd (load_or_download "yf_gold.pkl"
                    (quiet (yf_download "GC=F" wb_end_date end_date))
                    "Yahoo Finance Gold" cache_dir
                    (with_line
                       "  Fetching recent Gold/Silver from Yahoo Finance..."
                       w))).
Proof.
  intros Hfail. unfold splice_with_yahoo.
  unfold bind at 1. cbn [print].
  change (mkWorld (files w) (dirs w) (stdout w ++ [?line]) (fetches w)
                  (clock w) (pct_pads w))
    with (with_line line w).
  destruct Hfail as [[Hmiss Hfetch] | (yf_gold & wg & Hgold & Hmiss & Hfetch)].
  - match goal with
    | |- context [bind (load_or_download ?k ?f ?d ?c) _ ?w0] =>
        destruct (load_or_download_raises k d c f w0)
          as (e' & w2 & Hlod & Hfiles)
    end.
    { exact Hmiss. }
    { exists err. cbn [fetches with_line quiet snd]. exact Hfetch. }
    rewrite (bind_raise _ _ _ _ _ Hlod).
    exists e', w2. split; [reflexivity |]. split.
    + intros p _. rewrite Hfiles. reflexivity.
    + rewrite Hlod. reflexivity.
  - rewrite (bind_ok _ _ _ _ _ Hgold).
    match goal with
    | |- context [bind (load_or_download ?k ?f ?d ?c) _ ?w0] =>
        destruct (load_or_download_raises k d c f w0)
          as (e' & w3 & Hlod & Hfiles)
    end.
    { exact Hmiss. }
    { exists err. cbn [quiet snd]. exact Hfetch. }
    rewrite (bind_raise _ _ _ _ _ Hlod).
    exists e', w3. split; [reflexivity |]. split.
    + intros p Hp. rewrite Hfiles.
      apply load_or_download_returns in Hgold as [_ Hother].
      rewrite (Hother p Hp). reflexivity.
    + rewrite Hgold. exact Hfiles.
Qed.

(** C3, amended.  When the World Bank workbook has been read, from the
    cache or freshly downloaded, and a Yahoo Finance download then fails,
    that of gold, or that of silver once gold has been obtained, the loader
    does not raise: it prints a warning as its last line and returns four
    empty series, the World Bank data included in what is dropped.  After
    the reading of the workbook it has written nothing but the gold file:
    nothing at all when the gold load raised, and when the gold load
    returned a frame, this frame stays in the cache under its key. *)
Theorem secondary_failure_returns_empty (start_date end_date : option Z)
    (cache_dir : string) (w w1 w2 : World)
    (wb_gold wb_silver : list (Z * fval)) (wb_end_date : Z) (err : exn) :
  move_old_workbook cache_dir (with_line "Loading Gold and Silver data..." w)
    = (Ok tt, w1) ->
  read_world_bank urlretrieve cache_dir w1
    = (Ok (wb_gold, wb_silver, wb_end_date), w2) ->
  (files w2 !! path_join cache_dir "yf_gold.pkl" = None /\
   yf_download "GC=F" wb_end_date
     (match end_date with Some d => d | None => clock w end) (fetches w2)
     = Raise err) \/
  (exists yf_gold wg,
     load_or_download "yf_gold.pkl"
       (quiet (yf_download "GC=F" wb_end_date
                 (match end_date with Some d => d | None => clock w end)))
       "Yahoo Finance Gold" cache_dir
       (with_line "  Fetching recent Gold/Silver from Yahoo Finance..." w2)
       = (Ok yf_gold, wg) /\
     files wg !! path_join cache_dir "yf_silver.pkl" = None /\
     yf_download "SI=F" wb_end_date
       (match end_date with Some d => d | None => clock w end) (fetches wg)
       = Raise err) ->
  exists e' out w',
    load_gold_silver_data yf_download urlretrieve start_date end_date
                          cache_dir w
      = (Ok (empty_series, empty_series, empty_series, empty_series), w') /\
    stdout w' = out ++ ["Warning: Could not load Gold/Silver data: " +:+ e'] /\
    (forall p, p <> path_join cache_dir "yf_gold.pkl" ->
               files w' !! p = files w2 !! p) /\
    (forall e wg,
       load_or_download "yf_gold.pkl"
         (quiet (yf_download "GC=F" wb_end_date
                   (match end_date with Some d => d | None => clock w end)))
         "Yahoo Finance Gold" cache_dir
         (with_line "  Fetching recent Gold/Silver from Yahoo Finance..." w2)
         = (Raise e, wg) ->
       files w' = files w2) /\
    (forall yf_gold wg,
       load_or_download "yf_gold.pkl"
         (quiet (yf_download "GC=F" wb_end_date
                   (match end_date with Some d => d | None => clock w end)))
         "Yahoo Finance Gold" cache_dir
         (with_line "  Fetching recent Gold/Silver from Yahoo Finance..." w2)
         = (Ok yf_gold, wg) ->
       files w' !! path_join cache_dir "yf_gold.pkl"
         = Some (PickleFile yf_gold)).
Proof.
  intros Hmove Hread Hfail.
  destruct (splice_with_yahoo_raises wb_gold wb_silver wb_end_date _
              cache_dir w2 err Hfail) as (e' & w3 & Hyahoo & Hfiles & Hgold).
  rewrite load_gold_silver_data_steps.
  rewrite (bind_ok _ _ _ _ _ (end_or_now_eq end_date w)).
  unfold bind at 1. cbn [print].
  change (mkWorld (files w) (dirs w) (stdout w ++ [?line]) (fetches w)
                  (clock w) (pct_pads w))
    with (with_line line w).
  rewrite (bind_ok _ _ _ _ _ Hmove).
  unfold try_except. rewrite (bind_ok _ _ _ _ _ Hread).
  rewrite Hyahoo. unfold bind, print, ret.
  eexists e', (stdout w3), _. split; [reflexivity |]. cbn [files stdout].
  split; [reflexivity |]. split; [exact Hfiles |]. split.
  - intros e wg Hload. rewrite Hgold, Hload. cbn [snd].
    apply (load_or_download_raise_files _ _ _ _ _ _ _ Hload).
  - intros yf_gold wg Hload. rewrite Hgold, Hload. cbn [snd].
    apply (load_or_download_returns _ _ _ _ _ _ _ Hload).
Qed.

(** The cache files of the loader are three different paths. *)
Lemma append_inj (pre x y : string) : pre +:+ x = pre +:+ y -> x = y.
Proof.
  induction pre as [| ch pre IH]; cbn; [auto |].
  intros [= H]. apply IH. exact H.
Qed.

Lemma path_join_inj (cache_dir f1 f2 : string) :
  starts_with_slash f1 = false -> starts_with_slash f2 = false ->
  path_join cache_dir f1 = path_join cache_dir f2 -> f1 = f2.
Proof.
  intros H1 H2. unfold path_join. rewrite H1, H2.
  destruct (String.eqb cache_dir ""); [auto |].
  destruct (ends_with_slash cache_dir).
  - apply append_inj.
  - intros H. apply append_inj in H. apply (append_inj "/") in H. exact H.
Qed.

(** What the loader returns when it does not fall back: both metals are
    spliced at the same date, the last date at which the World Bank gold
    column has a value. *)
Lemma load_gold_silver_data_inv (start_date end_date : option Z)
    (cache_dir : string) (w w' : World)
    (gold_monthly gold_pct silver_monthly silver_pct : list (Z * fval)) :
  load_gold_silver_data yf_download urlretrieve start_date end_date
                        cache_dir w
    = (Ok (gold_monthly, gold_pct, silver_monthly, silver_pct), w') ->
  gold_monthly <> [] ->
  exists sheet yf_gold yf_silver wb_gold wb_silver yf_gold_close
         yf_silver_close wb_end_date,
    files w' !! path_join cache_dir wb_name = Some (ExcelFile (Some sheet)) /\
    files w' !! path_join cache_dir "yf_gold.pkl" = Some (PickleFile yf_gold) /\
    files w' !! path_join cache_dir "yf_silver.pkl"
      = Some (PickleFile yf_silver) /\
    get_col sheet "Gold" = Ok wb_gold /\
    get_col sheet "Silver" = Ok wb_silver /\
    get_col yf_gold "Close" = Ok yf_gold_close /\
    get_col yf_silver "Close" = Ok yf_silver_close /\
    index_last (map fst (dropna wb_gold)) = Ok wb_end_date /\
    gold_monthly =
      splice wb_gold (resample_ME agg_last yf_gold_close) wb_end_date /\
    silver_monthly =
      splice wb_silver (resample_ME agg_last yf_silver_close) wb_end_date /\
    exists pads,
      gold_pct = times_100 (pct_change_default pads 6 gold_monthly) /\
      silver_pct = times_100 (pct_change_default pads 6 silver_monthly).
Proof.
  intros Hrun Hnonempty. unfold load_gold_silver_data in Hrun.
  rewrite (bind_ok _ _ _ _ _ (end_or_now_eq end_date w)) in Hrun.
  apply bind_Ok_inv in Hrun as (? & w1 & _ & Hrun).
  apply bind_Ok_inv in Hrun as (? & w2 & _ & Hrun).
  apply bind_Ok_inv in Hrun as (? & w3 & _ & Hrun).
  apply bind_Ok_inv in Hrun as (? & w4 & _ & Hrun).
  unfold try_except in Hrun.
  match type of Hrun with context [match ?body with _ => _ end] =>
    destruct body as [[res | e] w5] eqn:Hbody end.
  2:{ unfold bind, print, ret in Hrun. injection Hrun as <- _ _ _ _.
      exfalso. apply Hnonempty. reflexivity. }
  injection Hrun as -> ->. clear - Hbody.
  apply bind_Ok_inv in Hbody as (cached & wa & _ & Hbody).
  apply bind_Ok_inv in Hbody as (? & wb & _ & Hbody).
  apply bind_Ok_inv in Hbody as (wb_data & wc & Hread & Hbody).
  apply bind_Ok_inv in Hbody as (wb_gold & ? & Hgold & Hbody).
  apply lift_result_inv in Hgold as [Hgold ->].
  apply bind_Ok_inv in Hbody as (wb_silver & ? & Hsilver & Hbody).
  apply lift_result_inv in Hsilver as [Hsilver ->].
  apply bind_Ok_inv in Hbody as (wb_end_date & ? & Hend & Hbody).
  apply lift_result_inv in Hend as [Hend ->].
  apply bind_Ok_inv in Hbody as (? & wd & Hp1 & Hbody).
  apply bind_Ok_inv in Hbody as (? & we & Hp2 & Hbody).
  apply bind_Ok_inv in Hbody as (yf_gold & wf & Hlg & Hbody).
  apply bind_Ok_inv in Hbody as (yf_silver & wg & Hls & Hbody).
  apply bind_Ok_inv in Hbody as (yf_gold_close & ? & Hgc & Hbody).
  apply lift_result_inv in Hgc as [Hgc ->].
  apply bind_Ok_inv in Hbody as (yf_silver_close & ? & Hsc & Hbody).
  apply lift_result_inv in Hsc as [Hsc ->].
  apply bind_Ok_inv in Hbody as (gold_change & ? & Hgp & Hbody).
  injection Hgp as <- <-.
  apply bind_Ok_inv in Hbody as (silver_change & ? & Hsp & Hbody).
  injection Hsp as <- <-.
  apply bind_Ok_inv in Hbody as (? & wh & Hm1 & Hbody).
  apply bind_Ok_inv in Hbody as (? & wi & Hm2 & Hbody).
  injection Hbody as <- <- <- <- <-.
  apply keeps_files_print_metal_range in Hm1, Hm2.
  apply keeps_files_print in Hp1, Hp2.
  apply load_or_download_returns in Hlg as [Hg_file Hg_other].
  apply load_or_download_returns in Hls as [Hs_file Hs_other].
  assert (Hwb : files wc !! path_join cache_dir wb_name
                = Some (ExcelFile (Some wb_data))).
  { unfold read_wb_data in Hread.
    destruct (files wb !! path_join cache_dir wb_name) as [[? | [? |]] |] eqn:E;
      try discriminate.
    injection Hread as <- <-. exact E. }
  exists wb_data, yf_gold, yf_silver, wb_gold, wb_silver, yf_gold_close,
         yf_silver_close, wb_end_date.
  rewrite Hm2, Hm1.
  repeat match goal with |- _ /\ _ => split end; try assumption;
    try reflexivity.
  - rewrite Hs_other, Hg_other, Hp2, Hp1; [exact Hwb | |];
      intros H; apply path_join_inj in H; try reflexivity; discriminate.
  - rewrite Hs_other; [exact Hg_file |].
    intros H; apply path_join_inj in H; try reflexivity; discriminate.
  - eexists. split; reflexivity.
Qed.

(** What the loader returns has no row at all, or a value for gold and a
    value for silver. *)
Lemma load_gold_silver_data_values (start_date end_date : option Z)
    (cache_dir : string) (w w' : World)
    (gold_monthly gold_pct silver_monthly silver_pct : list (Z * fval)) :
  load_gold_silver_data yf_download urlretrieve start_date end_date
                        cache_dir w
    = (Ok (gold_monthly, gold_pct, silver_monthly, silver_pct), w') ->
  (gold_monthly = [] /\ gold_pct = [] /\ silver_monthly = [] /\
   silver_pct = []) \/
  (dropna gold_monthly <> [] /\ dropna silver_monthly <> []).
Proof.
  rewrite load_gold_silver_data_steps.
  rewrite (bind_ok _ _ _ _ _ (end_or_now_eq end_date w)).
  intros Hrun.
  apply bind_Ok_inv in Hrun as (? & w1 & _ & Hrun).
  apply bind_Ok_inv in Hrun as (? & w2 & _ & Hrun).
  unfold try_except in Hrun.
  match type of Hrun with context [match ?body with _ => _ end] =>
    destruct body as [[res | e] w5] eqn:Hbody end.
  2:{ unfold bind, print, ret in Hrun. injection Hrun as <- <- <- <- _.
      left. auto. }
  injection Hrun as -> ->. right.
  apply bind_Ok_inv in Hbody as ([[wb_gold wb_silver] wb_end_date] & wa & _ &
                                 Hbody).
  unfold splice_with_yahoo in Hbody.
  apply bind_Ok_inv in Hbody as (? & wb & _ & Hbody).
  apply bind_Ok_inv in Hbody as (yf_gold & wc & _ & Hbody).
  apply bind_Ok_inv in Hbody as (yf_silver & wd & _ & Hbody).
  apply bind_Ok_inv in Hbody as (yf_gold_close & ? & _ & Hbody).
  apply bind_Ok_inv in Hbody as (yf_silver_close & ? & _ & Hbody).
  apply bind_Ok_inv in Hbody as (gold_change & ? & _ & Hbody).
  apply bind_Ok_inv in Hbody as (silver_change & ? & _ & Hbody).
  apply bind_Ok_inv in Hbody as ([] & wh & Hm1 & Hbody).
  apply bind_Ok_inv in Hbody as ([] & wi & Hm2 & Hbody).
  injection Hbody as <- _ <- _ _.
  split.
  - intros Hnil. unfold print_metal_range in Hm1. rewrite Hnil in Hm1.
    cbn in Hm1. discriminate Hm1.
  - intros Hnil. unfold print_metal_range in Hm2. rewrite Hnil in Hm2.
    cbn in Hm2. discriminate Hm2.
Qed.

(** With the workbook and both Yahoo Finance files in the cache, the gold
    and silver loader does not look at its date arguments either. *)
Lemma load_gold_silver_data_ignores_dates (cache_dir : string) (w : World)
    (s1 e1 s2 e2 : option Z) :
  path_exists (path_join cache_dir wb_name) w = true ->
  is_Some (files w !! path_join cache_dir "yf_gold.pkl") ->
  is_Some (files w !! path_join cache_dir "yf_silver.pkl") ->
  load_gold_silver_data yf_download urlretrieve s1 e1 cache_dir w =
  load_gold_silver_data yf_download urlretrieve s2 e2 cache_dir w.
Proof.
  intros Hwb Hgold Hsilver. unfold load_gold_silver_data.
  rewrite !(bind_ok _ _ _ _ _ (end_or_now_eq _ w)).
  apply bind_ext_at. intros [] w1 [= <-].
  apply bind_ext_at. intros old_there w2 [= <- <-].
  apply bind_ext_at. intros new_there w3 [= <- <-].
  change (path_exists (path_join cache_dir wb_name) _)
    with (path_exists (path_join cache_dir wb_name) w).
  rewrite Hwb, andb_false_r.
  apply bind_ext_at. intros [] w4 [= <-].
  unfold try_except.
  match goal with |- match ?m1 with _ => _ end = match ?m2 with _ => _ end =>
    replace m1 with m2; [reflexivity |] end.
  apply bind_ext_at. intros cached w5 [= <- <-].
  change (path_exists (path_join cache_dir wb_name) _)
    with (path_exists (path_join cache_dir wb_name) w).
  rewrite Hwb. cbn [negb].
  apply bind_ext_at. intros [] w6 [= <-].
  apply bind_ext_at. intros wb_data w7 Hread.
  assert (Hfiles7 : files w7 = files w).
  { unfold read_wb_data in Hread. cbn [files] in Hread.
    destruct (files w !! path_join cache_dir wb_name) as [[? | [? |]] |];
      try discriminate.
    injection Hread as _ <-. reflexivity. }
  apply bind_ext_at. intros wb_gold w8 [_ ->]%lift_result_inv.
  apply bind_ext_at. intros wb_silver w9 [_ ->]%lift_result_inv.
  apply bind_ext_at. intros wb_end_date w10 [_ ->]%lift_result_inv.
  apply bind_ext_at. intros [] w11 [= <-].
  apply bind_ext_at. intros [] w12 [= <-].
  apply bind_cong_at.
  { apply load_or_download_hit. cbn [files]. rewrite Hfiles7. exact Hgold. }
  intros yf_gold w13 Hlod.
  assert (Hfiles13 : files w13 = files w).
  { destruct Hgold as [x Hx].
    apply (load_or_download_hit_world _ _ _ _ _ _ x) in Hlod as [Hf _].
    - rewrite Hf. cbn [files]. exact Hfiles7.
    - cbn [files]. rewrite Hfiles7. exact Hx. }
  apply bind_cong_at.
  { apply load_or_download_hit. rewrite Hfiles13. exact Hsilver. }
  reflexivity.
Qed.

(** C2, amended.  When the loader returns spliced series, both metals are
    spliced at one cutover, the last date at which the World Bank GOLD
    column has a value; the silver column's own last date plays no part.
    For gold and for silver alike: at every date up to the cutover the
    spliced series is the World Bank series; at every later date where the
    monthly Yahoo Finance series has a value that is not NaN it is that
    value; at every later date where it has none the spliced series is the
    World Bank series there, no value being carried forward.  For gold,
    whose World Bank series ascends, this means no value at such a date. *)
Theorem gold_silver_spliced_at_gold_cutover (start_date end_date : option Z)
    (cache_dir : string) (w w' : World)
    (gold_monthly gold_pct silver_monthly silver_pct : list (Z * fval)) :
  load_gold_silver_data yf_download urlretrieve start_date end_date
                        cache_dir w
    = (Ok (gold_monthly, gold_pct, silver_monthly, silver_pct), w') ->
  gold_monthly <> [] ->
  exists sheet yf_gold yf_silver wb_gold wb_silver yf_gold_close
         yf_silver_close wb_end_date,
    files w' !! path_join cache_dir wb_name = Some (ExcelFile (Some sheet)) /\
    files w' !! path_join cache_dir "yf_gold.pkl" = Some (PickleFile yf_gold) /\
    files w' !! path_join cache_dir "yf_silver.pkl"
      = Some (PickleFile yf_silver) /\
    get_col sheet "Gold" = Ok wb_gold /\
    get_col sheet "Silver" = Ok wb_silver /\
    get_col yf_gold "Close" = Ok yf_gold_close /\
    get_col yf_silver "Close" = Ok yf_silver_close /\
    index_last (map fst (dropna wb_gold)) = Ok wb_end_date /\
    spliced_at wb_gold (resample_ME agg_last yf_gold_close) gold_monthly
               wb_end_date /\
    spliced_at wb_silver (resample_ME agg_last yf_silver_close) silver_monthly
               wb_end_date /\
    (ascending wb_gold ->
     forall d, d > wb_end_date ->
       has_value (resample_ME agg_last yf_gold_close) d = false ->
       has_value gold_monthly d = false).
Proof.
  intros Hrun Hnonempty.
  destruct (load_gold_silver_data_inv _ _ _ _ _ _ _ _ _ Hrun Hnonempty)
    as (sheet & yf_gold & yf_silver & wb_gold & wb_silver & yf_gold_close &
        yf_silver_close & wb_end_date & Hwb & Hg & Hs & Hgold & Hsilver &
        Hgc & Hsc & Hend & -> & -> & _).
  exists sheet, yf_gold, yf_silver, wb_gold, wb_silver, yf_gold_close,
         yf_silver_close, wb_end_date.
  repeat match goal with |- _ /\ _ => split end; try assumption.
  - apply splice_spec.
  - apply splice_spec.
  - intros Hasc d Hd Hsec. unfold has_value.
    destruct (splice_spec wb_gold (resample_ME agg_last yf_gold_close)
                wb_end_date) as (_ & _ & H3).
    rewrite (H3 d Hd Hsec).
    exact (no_value_after_last wb_gold wb_end_date d Hasc Hend Hd).
Qed.

End GoldSilverProperties.

(** C2, counterexample.  In [world_wb] the World Bank gold column ends in
    May 2020 and the silver column in June 2020, and Yahoo Finance has both
    metals for June and July.  The loader splices silver at the gold
    cutover: in June 2020, which is not after the last date of the World
    Bank silver series, the spliced silver series holds the Yahoo Finance
    value 18 and not the World Bank value 17. *)
Lemma silver_cutover_is_not_its_own :
  exists gold_monthly gold_pct silver_monthly silver_pct w',
    load_gold_silver_data yf_up url_down None None DEFAULT_CACHE_DIR world_wb
      = (Ok (gold_monthly, gold_pct, silver_monthly, silver_pct), w') /\
    get_col wb_sheet "Silver" = Ok wb_silver_ex /\
    match get_col yf_silver_ex "Close" with
    | Ok close => resample_ME agg_last close = yf_silver_monthly_ex
    | Raise _ => False
    end /\
    get wb_silver_ex d_2020_06_30 = Some (num 17) /\
    get silver_monthly d_2020_06_30 = Some (num 18) /\
    ~ splice_claim wb_silver_ex yf_silver_monthly_ex silver_monthly.
Proof.
  eexists _, _, _, _, _. split; [vm_compute; reflexivity |].
  split; [reflexivity |]. split; [vm_compute; reflexivity |].
  split; [reflexivity |]. split; [vm_compute; reflexivity |].
  intros Hclaim.
  destruct (Hclaim d_2020_06_30 eq_refl) as [Hbefore _].
  specialize (Hbefore d_2020_06_30 (Z.le_refl _)).
  vm_compute in Hbefore. discriminate Hbefore.
Qed.

(** C3, counterexample.  In [world_wb] the workbook is read, with its gold
    series, and Yahoo Finance is unreachable: the loader returns four empty
    series, not the World Bank gold series. *)
Lemma secondary_failure_drops_primary :
  ~ secondary_failure_keeps_primary yf_down url_down DEFAULT_CACHE_DIR world_wb
  /\
  fst (load_gold_silver_data yf_down url_down None None DEFAULT_CACHE_DIR
                             world_wb)
    = Ok (empty_series, empty_series, empty_series, empty_series).
Proof.
  split; [| vm_compute; reflexivity].
  intros Hclaim.
  destruct (Hclaim wb_sheet wb_gold_ex) as (gp & sm & sp & w' & Hrun).
  - vm_compute. reflexivity.
  - reflexivity.
  - intros symbol s e n. exists "ConnectionError". reflexivity.
  - apply (f_equal fst) in Hrun. vm_compute in Hrun. discriminate Hrun.
Qed.

(** ** The loaders on a cache hit *)

Section LoaderProperties.

Variable yf_download : string -> Timestamp -> Timestamp -> nat -> result Frame.
Variable fred_reader : string -> Timestamp -> Timestamp -> nat -> result Frame.
Variable urlretrieve : string -> nat -> result File.

Lemma end_or_now_world (end_date : option Timestamp) (w : World) :
  exists d, end_or_now end_date w = (Ok d, w).
Proof. destruct end_date; eexists; reflexivity. Qed.

Ltac enter_loader e1 e2 w :=
  let d1 := fresh "d" in
  let d2 := fresh "d" in
  let H1 := fresh "Hend" in
  let H2 := fresh "Hend" in
  destruct (end_or_now_world e1 w) as [d1 H1];
  destruct (end_or_now_world e2 w) as [d2 H2];
  unfold bind at 1; rewrite H1;
  symmetry; unfold bind at 1; rewrite H2; symmetry;
  unfold bind at 1; symmetry; unfold bind at 1; symmetry;
  cbn [print]; unfold bind at 1; symmetry; unfold bind at 1; symmetry.

(** C10.  The cache file of a loader is a fixed name that carries neither
    [start_date] nor [end_date]: once the cache holds an entry under that
    name, the loader gives the same result, and leaves the same world, for
    every pair of date arguments.  This holds for the four loaders that go
    through [load_or_download] directly, and for the gold and silver loader
    once the workbook and its two Yahoo Finance files are in the cache. *)
Theorem loaders_ignore_dates_on_cache_hit (cache_dir : string) (w : World)
    (s1 e1 s2 e2 : option Timestamp) :
  (is_Some (files w !! path_join cache_dir "nasdaq.pkl") ->
   load_nasdaq_data yf_download s1 e1 cache_dir w =
   load_nasdaq_data yf_download s2 e2 cache_dir w) /\
  (is_Some (files w !! path_join cache_dir "sp500.pkl") ->
   load_sp500_data yf_download s1 e1 cache_dir w =
   load_sp500_data yf_download s2 e2 cache_dir w) /\
  (is_Some (files w !! path_join cache_dir "yields.pkl") ->
   load_yield_data fred_reader s1 e1 cache_dir w =
   load_yield_data fred_reader s2 e2 cache_dir w) /\
  (is_Some (files w !! path_join cache_dir "recessions.pkl") ->
   load_recession_data fred_reader s1 e1 cache_dir w =
   load_recession_data fred_reader s2 e2 cache_dir w) /\
  (path_exists (path_join cache_dir wb_name) w = true ->
   is_Some (files w !! path_join cache_dir "yf_gold.pkl") ->
   is_Some (files w !! path_join cache_dir "yf_silver.pkl") ->
   load_gold_silver_data yf_download urlretrieve s1 e1 cache_dir w =
   load_gold_silver_data yf_download urlretrieve s2 e2 cache_dir w).
Proof.
  split; [| split; [| split; [| split]]];
    [intros Hhit | intros Hhit | intros Hhit | intros Hhit |
     apply load_gold_silver_data_ignores_dates].
  - unfold load_nasdaq_data. enter_loader e1 e2 w.
    rewrite (load_or_download_hit _ _ _
               (quiet (yf_download "^IXIC" (start_or_default s1) d))
               (quiet (yf_download "^IXIC" (start_or_default s2) d0)))
      by exact Hhit.
    reflexivity.
  - unfold load_sp500_data. enter_loader e1 e2 w.
    rewrite (load_or_download_hit _ _ _
               (quiet (yf_download "^GSPC" (start_or_default s1) d))
               (quiet (yf_download "^GSPC" (start_or_default s2) d0)))
      by exact Hhit.
    reflexivity.
  - unfold load_yield_data. enter_loader e1 e2 w.
    rewrite (load_or_download_hit _ _ _
               (download_yields fred_reader (start_or_default s1) d)
               (download_yields fred_reader (start_or_default s2) d0))
      by exact Hhit.
    reflexivity.
  - unfold load_recession_data. enter_loader e1 e2 w.
    unfold try_except. unfold bind at 1. symmetry. unfold bind at 1. symmetry.
    rewrite (load_or_download_hit _ _ _
               (quiet (fred_reader "USREC" (start_or_default s1) d))
               (quiet (fred_reader "USREC" (start_or_default s2) d0)))
      by exact Hhit.
    reflexivity.
Qed.

End LoaderProperties.

(** ** The combined table *)

(** *** The union of the indexes *)

Lemma insert_label_perm (d : Z) (l : list Z) :
  Permutation (insert_label d l) (d :: l).
Proof.
  induction l as [| x l IH]; cbn; [reflexivity |].
  destruct (d <=? x); [reflexivity |].
  rewrite IH. apply perm_swap.
Qed.

Lemma sort_labels_perm (l : list Z) : Permutation (sort_labels l) l.
Proof.
  unfold sort_labels. induction l as [| d l IH]; [reflexivity |].
  cbn [fold_right]. rewrite insert_label_perm, IH. reflexivity.
Qed.

Lemma remove_first_In (x d : Z) (l : list Z) :
  In x (remove_first d l) -> In x l.
Proof.
  induction l as [| y l IH]; cbn; [tauto |].
  destruct (y =? d); [auto |]. cbn. intros [H | H]; auto.
Qed.

Lemma In_remove_first (x d : Z) (l : list Z) :
  NoDup l -> In x (remove_first d l) <-> In x l /\ x <> d.
Proof.
  induction l as [| y l IH]; intros Hnd; cbn; [tauto |].
  apply NoDup_cons in Hnd as [Hy Hnd]. rewrite list_elem_of_In in Hy.
  destruct (Z.eqb_spec y d) as [-> | Hne].
  - split.
    + intros H. split; [right; exact H |]. intros ->. contradiction.
    + intros [[H | H] Hx]; [congruence | exact H].
  - cbn. rewrite (IH Hnd). split.
    + intros [<- | [H Hx]]; auto.
    + intros [[<- | H] Hx]; auto.
Qed.

Lemma remove_first_NoDup (d : Z) (l : list Z) :
  NoDup l -> NoDup (remove_first d l).
Proof.
  induction l as [| y l IH]; intros Hnd; cbn; [constructor |].
  apply NoDup_cons in Hnd as [Hy Hnd].
  destruct (y =? d); [exact Hnd |].
  apply NoDup_cons. split; [| apply IH; exact Hnd].
  rewrite list_elem_of_In in Hy |- *. intros H. apply Hy.
  apply (remove_first_In _ _ _ H).
Qed.

Lemma remove_each_spec (a b : list Z) :
  NoDup b ->
  NoDup (fold_left (fun l d => remove_first d l) a b) /\
  forall x, In x (fold_left (fun l d => remove_first d l) a b) <->
            In x b /\ ~ In x a.
Proof.
  revert b. induction a as [| d a IH]; intros b Hnd; cbn [fold_left].
  - split; [exact Hnd |]. intros x. cbn. tauto.
  - destruct (IH (remove_first d b) (remove_first_NoDup d b Hnd))
      as [Hnd' Hin].
    split; [exact Hnd' |]. intros x. rewrite Hin, (In_remove_first x d b Hnd).
    cbn. split.
    + intros [[Hb Hne] Ha]. split; [exact Hb |]. intros [H | H]; auto.
    + intros [Hb Ha]. split; [split; [exact Hb |] |]; auto.
Qed.

(** The union of two indexes without repeated labels has the labels of
    both, none repeated. *)
Lemma union_labels_spec (a b : list Z) :
  NoDup a -> NoDup b ->
  NoDup (union_labels a b) /\
  forall x, In x (union_labels a b) <-> In x a \/ In x b.
Proof.
  intros Ha Hb. unfold union_labels.
  destruct a as [| z a], b as [| y b];
    [split; [exact Ha | intros x; cbn; tauto]
    | split; [exact Hb | intros x; cbn; tauto]
    | split; [exact Ha | intros x; cbn; tauto] |].
  destruct (bool_decide ((z :: a) = (y :: b))) eqn:Heq.
  - apply bool_decide_eq_true in Heq. rewrite <- Heq.
    split; [exact Ha | intros x; tauto].
  - destruct (remove_each_spec (z :: a) (y :: b) Hb) as [Hnd Hin].
    split.
    + apply (NoDup_Permutation_proper _ _ (sort_labels_perm _)).
      apply NoDup_app. split; [exact Ha |]. split; [| exact Hnd].
      intros x Hx Hx'. rewrite list_elem_of_In in Hx, Hx'.
      apply Hin in Hx' as [_ Hx']. contradiction.
    + intros x. split.
      * intros H. apply (Permutation_in _ (sort_labels_perm _)) in H.
        apply in_app_or in H as [H | H]; [left; exact H |].
        apply Hin in H as [H _]. right. exact H.
      * intros H.
        apply (Permutation_in _ (Permutation_sym (sort_labels_perm _))).
        apply in_or_app.
        destruct (in_dec Z.eq_dec x (z :: a)) as [Hxa | Hxa];
          [left; exact Hxa |].
        destruct H as [H | H]; [left; exact H | right].
        apply Hin. split; assumption.
Qed.

Lemma union_fold_spec (idxs : list (list Z)) (acc : list Z) :
  NoDup acc -> Forall (fun idx => NoDup idx) idxs ->
  NoDup (fold_left union_labels idxs acc) /\
  forall x, In x (fold_left union_labels idxs acc) <->
            In x acc \/ exists idx, In idx idxs /\ In x idx.
Proof.
  revert acc. induction idxs as [| idx idxs IH]; intros acc Hacc Hall.
  - split; [exact Hacc |]. intros x. cbn. split; [auto |].
    intros [H | (? & [] & _)]. exact H.
  - apply Forall_cons in Hall as [Hidx Hall]. cbn [fold_left].
    destruct (union_labels_spec acc idx Hacc Hidx) as [Hnd Hin].
    destruct (IH _ Hnd Hall) as [Hnd' Hin'].
    split; [exact Hnd' |]. intros x. rewrite Hin', Hin. split.
    + intros [[H | H] | (i & Hi & Hx)]; [left; exact H | |].
      * right. exists idx. split; [left; reflexivity | exact H].
      * right. exists i. split; [right; exact Hi | exact Hx].
    + intros [H | (i & [<- | Hi] & Hx)]; [left; left; exact H | |].
      * left. right. exact Hx.
      * right. exists i. split; assumption.
Qed.

Lemma union_index_spec (idxs : list (list Z)) :
  Forall (fun idx => NoDup idx) idxs ->
  NoDup (union_index idxs) /\
  forall x, In x (union_index idxs) <-> exists idx, In idx idxs /\ In x idx.
Proof.
  intros Hall. unfold union_index. destruct idxs as [| idx idxs].
  - split; [constructor |]. intros x. split; [intros [] |].
    intros (? & [] & _).
  - apply Forall_cons in Hall as [Hidx Hall].
    destruct (union_fold_spec idxs idx Hidx Hall) as [Hnd Hin].
    split; [exact Hnd |]. intros x. rewrite Hin. split.
    + intros [H | (i & Hi & Hx)].
      * exists idx. split; [left; reflexivity | exact H].
      * exists i. split; [right; exact Hi | exact Hx].
    + intros (i & [<- | Hi] & Hx); [left; exact Hx |].
      right. exists i. split; assumption.
Qed.

Lemma In_union_index (idxs : list (list Z)) (x : Z) :
  Forall (fun idx => NoDup idx) idxs ->
  In x (union_index idxs) <-> exists idx, In idx idxs /\ In x idx.
Proof. intros Hall. apply union_index_spec. exact Hall. Qed.

(** *** Alignment *)

Lemma zip_with_andb_map {A : Type} (f g : A -> bool) (l : list A) :
  zip_with andb (map f l) (map g l) = map (fun x => f x && g x) l.
Proof. induction l as [| a l IH]; cbn; [| rewrite IH]; reflexivity. Qed.

Lemma filter_by_map {A B : Type} (p : A -> bool) (g : A -> B) (l : list A) :
  filter_by (map p l) (map g l) = map g (List.filter p l).
Proof.
  induction l as [| a l IH]; cbn; [reflexivity |].
  destruct (p a); cbn; rewrite IH; reflexivity.
Qed.

Lemma filter_by_self {A : Type} (p : A -> bool) (l : list A) :
  filter_by (map p l) l = List.filter p l.
Proof.
  induction l as [| a l IH]; cbn; [reflexivity |].
  destruct (p a); cbn; rewrite IH; reflexivity.
Qed.

Lemma reindex_at (s : list (Z * fval)) (idx : list Z) :
  reindex s idx = map (at_date s) idx.
Proof. reflexivity. Qed.

Lemma notna_at_date (s : list (Z * fval)) (d : Z) :
  notna (at_date s d) = has_value s d.
Proof. unfold at_date, has_value. destruct (get s d); reflexivity. Qed.

Lemma zip_map_self {A B : Type} (g : A -> B) (l : list A) :
  zip l (map g l) = map (fun x => (x, g x)) l.
Proof. induction l as [| a l IH]; cbn; [| rewrite IH]; reflexivity. Qed.

Lemma at_date_own_labels (s : list (Z * fval)) :
  NoDup (map fst s) -> map snd s = map (at_date s) (map fst s).
Proof.
  induction s as [| [k v] t IH]; [reflexivity |].
  cbn [map fst snd]. intros Hnd. apply NoDup_cons in Hnd as [Hk Hnd].
  unfold at_date at 1. cbn [get]. rewrite Z.eqb_refl. f_equal.
  rewrite (IH Hnd) at 1. apply map_ext_in. intros d Hd.
  unfold at_date. cbn [get].
  destruct (Z.eqb_spec k d) as [-> | _]; [| reflexivity].
  exfalso. apply Hk. apply list_elem_of_In. exact Hd.
Qed.

(** A series that repeats no date is aligned on any index, and holds at
    each label its value at that date. *)
Lemma align_unique (idx : list Z) (s : list (Z * fval)) :
  NoDup (map fst s) -> align idx s = Ok (map (at_date s) idx).
Proof.
  intros Hnd. unfold align.
  destruct (bool_decide (map fst s = idx)) eqn:E.
  - apply bool_decide_eq_true in E. subst idx.
    rewrite <- at_date_own_labels by exact Hnd. reflexivity.
  - rewrite bool_decide_eq_true_2 by exact Hnd. reflexivity.
Qed.

Lemma align_Ok_unique (idx : list Z) (s : list (Z * fval))
    (vs : list fval) :
  align idx s = Ok vs -> NoDup (map fst s) -> vs = map (at_date s) idx.
Proof.
  intros Halign Hnd. rewrite (align_unique idx s Hnd) in Halign.
  injection Halign as <-. reflexivity.
Qed.

Lemma align_all_unique (idx : list Z) (cols : list (string * list (Z * fval))) :
  Forall (fun c => NoDup (map fst (snd c))) cols ->
  align_all idx cols
  = Ok (map (fun c => (fst c, map (at_date (snd c)) idx)) cols).
Proof.
  induction cols as [| [name s] cols IH]; intros Hall; [reflexivity |].
  apply Forall_cons in Hall as [Hs Hall]. cbn [align_all map fst snd].
  cbn [snd] in Hs. rewrite (align_unique idx s Hs), (IH Hall). reflexivity.
Qed.

Lemma frame_of_series_unique (cols : list (string * list (Z * fval))) :
  Forall (fun c => NoDup (map fst (snd c))) cols ->
  frame_of_series cols
  = Ok (mkFrame (union_index (map (fun c => map fst (snd c)) cols))
          (map (fun c => (fst c,
                          map (at_date (snd c))
                              (union_index (map (fun c => map fst (snd c))
                                                cols))))
               cols)).
Proof.
  intros Hall. unfold frame_of_series.
  rewrite (align_all_unique _ cols Hall). reflexivity.
Qed.

Lemma filter_by_none {A B : Type} (l : list A) (k : list B) :
  filter_by (map (fun _ => false) l) k = [].
Proof.
  revert k. induction l as [| a l IH]; intros [| b k]; cbn; auto.
Qed.

Lemma In_zip_labels {A : Type} (idx : list Z) (vs : list A) (d : Z) :
  In d (map fst (zip idx vs)) -> In d idx.
Proof.
  revert vs. induction idx as [| x idx IH]; intros [| v vs]; cbn; try tauto.
  intros [H | H]; [left; exact H | right; apply (IH vs); exact H].
Qed.

(** A column of a frame that repeats no date repeats none. *)
Lemma zip_labels_NoDup {A : Type} (idx : list Z) (vs : list A) :
  NoDup idx -> NoDup (map fst (zip idx vs)).
Proof.
  revert vs. induction idx as [| x idx IH]; intros [| v vs] Hnd; cbn;
    try constructor.
  - apply NoDup_cons in Hnd as [Hx _]. intros Hin. apply Hx.
    apply list_elem_of_In in Hin. apply list_elem_of_In.
    apply (In_zip_labels _ _ _ Hin).
  - apply IH. apply NoDup_cons in Hnd as [_ Hnd]. exact Hnd.
Qed.

(** *** The merge *)

(** The [dropna] of the merge, once the recession column is known: the
    frame on the kept dates. *)
Lemma merge_frame (nasdaq_pct sp500_pct yield_spread gold_pct silver_pct
    : list (Z * fval)) (recession : Z -> fval) (idx : list Z) :
  dropna_subset REQUIRED_COLUMNS
    (set_col (mkFrame idx
                [("NASDAQ 6M %", map (at_date nasdaq_pct) idx);
                 ("S&P 500 6M %", map (at_date sp500_pct) idx);
                 ("Yield Spread", map (at_date yield_spread) idx);
                 ("Gold 6M %", map (at_date gold_pct) idx);
                 ("Silver 6M %", map (at_date silver_pct) idx)])
             "Recession" (map recession idx))
  = Ok (mkFrame (List.filter (kept nasdaq_pct yield_spread) idx)
          [("NASDAQ 6M %",
            map (at_date nasdaq_pct)
                (List.filter (kept nasdaq_pct yield_spread) idx));
           ("S&P 500 6M %",
            map (at_date sp500_pct)
                (List.filter (kept nasdaq_pct yield_spread) idx));
           ("Yield Spread",
            map (at_date yield_spread)
                (List.filter (kept nasdaq_pct yield_spread) idx));
           ("Gold 6M %",
            map (at_date gold_pct)
                (List.filter (kept nasdaq_pct yield_spread) idx));
           ("Silver 6M %",
            map (at_date silver_pct)
                (List.filter (kept nasdaq_pct yield_spread) idx));
           ("Recession",
            map recession (List.filter (kept nasdaq_pct yield_spread) idx))]).
Proof.
  unfold dropna_subset, set_col, REQUIRED_COLUMNS.
  cbn -[at_date notna kept].
  rewrite !map_map.
  assert (Hmask :
    zip_with andb (map (fun x => notna (at_date nasdaq_pct x)) idx)
      (zip_with andb (map (fun x => notna (at_date yield_spread x)) idx)
         (map (fun _ => true) idx))
    = map (kept nasdaq_pct yield_spread) idx).
  { rewrite !zip_with_andb_map. apply map_ext. intros d. unfold kept.
    rewrite andb_true_r. reflexivity. }
  rewrite Hmask. unfold select_rows. cbn -[at_date kept].
  rewrite !filter_by_map, filter_by_self. reflexivity.
Qed.

(** With no row in the frame, and a recession series that has some, the
    frame takes the dates of the recession series, every other column
    missing, and the [dropna] leaves no row. *)
Lemma merge_frame_no_row (usrec : list (Z * fval)) :
  dropna_subset REQUIRED_COLUMNS
    (set_col (mkFrame (map fst usrec)
                [("NASDAQ 6M %", map (fun _ => NaN) usrec);
                 ("S&P 500 6M %", map (fun _ => NaN) usrec);
                 ("Yield Spread", map (fun _ => NaN) usrec);
                 ("Gold 6M %", map (fun _ => NaN) usrec);
                 ("Silver 6M %", map (fun _ => NaN) usrec)])
             "Recession" (map snd usrec))
  = Ok (mkFrame []
          [("NASDAQ 6M %", []); ("S&P 500 6M %", []); ("Yield Spread", []);
           ("Gold 6M %", []); ("Silver 6M %", []); ("Recession", [])]).
Proof.
  unfold dropna_subset, set_col, REQUIRED_COLUMNS.
  cbn -[notna].
  rewrite !map_map.
  assert (Hmask :
    zip_with andb (map (fun _ => notna NaN) usrec)
      (zip_with andb (map (fun _ => notna NaN) usrec)
         (map (fun _ => true) usrec))
    = map (fun _ => false) usrec).
  { rewrite !zip_with_andb_map. apply map_ext. intros d. reflexivity. }
  rewrite Hmask. unfold select_rows. cbn.
  rewrite !filter_by_none. reflexivity.
Qed.

(** The merge with the recession column resolved: [usrec] is the monthly
    recession series, or [None] when there is none. *)
Lemma combine_data_frame (nasdaq_pct sp500_pct yield_spread gold_pct
    silver_pct : list (Z * fval)) (recessions_monthly : option Frame)
    (usrec : option (list (Z * fval))) :
  unique_dates nasdaq_pct -> unique_dates sp500_pct ->
  unique_dates yield_spread -> unique_dates gold_pct ->
  unique_dates silver_pct -> unique_index recessions_monthly ->
  match recessions_monthly, usrec with
  | Some monthly, Some s => get_col monthly "USREC" = Ok s
  | None, None => True
  | _, _ => False
  end ->
  combine_data nasdaq_pct sp500_pct yield_spread gold_pct silver_pct
               recessions_monthly
  = Ok (mkFrame (combined_index nasdaq_pct sp500_pct yield_spread gold_pct
                                silver_pct)
          [("NASDAQ 6M %",
            map (at_date nasdaq_pct)
                (combined_index nasdaq_pct sp500_pct yield_spread gold_pct
                                silver_pct));
           ("S&P 500 6M %",
            map (at_date sp500_pct)
                (combined_index nasdaq_pct sp500_pct yield_spread gold_pct
                                silver_pct));
           ("Yield Spread",
            map (at_date yield_spread)
                (combined_index nasdaq_pct sp500_pct yield_spread gold_pct
                                silver_pct));
           ("Gold 6M %",
            map (at_date gold_pct)
                (combined_index nasdaq_pct sp500_pct yield_spread gold_pct
                                silver_pct));
           ("Silver 6M %",
            map (at_date silver_pct)
                (combined_index nasdaq_pct sp500_pct yield_spread gold_pct
                                silver_pct));
           ("Recession",
            map (recession_at usrec)
                (combined_index nasdaq_pct sp500_pct yield_spread gold_pct
                                silver_pct))]).
Proof.
  intros Hn Hs Hy Hg Hsi Hr Hrec. unfold unique_dates in *.
  unfold combine_data.
  rewrite frame_of_series_unique.
  2:{ repeat (apply Forall_cons; split; [cbn [snd]; assumption |]).
      constructor. }
  cbn [map fst snd].
  unfold combined_index.
  set (idx := union_index [map fst nasdaq_pct; map fst sp500_pct;
                           map fst yield_spread; map fst gold_pct;
                           map fst silver_pct]).
  destruct recessions_monthly as [monthly |], usrec as [s |];
    try contradiction.
  - rewrite Hrec.
    assert (Hs_unique : NoDup (map fst s)).
    { unfold get_col in Hrec.
      destruct (assoc "USREC" (columns monthly)) as [vs |]; [| discriminate].
      injection Hrec as <-. apply zip_labels_NoDup. exact Hr. }
    unfold set_col_series. cbn [index columns].
    destruct idx as [| d0 idx0] eqn:Eidx.
    + destruct s as [| r s'].
      * reflexivity.
      * exact (merge_frame_no_row (r :: s')).
    + rewrite (align_unique _ s Hs_unique).
      apply (merge_frame nasdaq_pct sp500_pct yield_spread gold_pct silver_pct
                         (at_date s)).
  - cbn [index].
    apply (merge_frame nasdaq_pct sp500_pct yield_spread gold_pct silver_pct
                       (fun _ => fzero)).
Qed.

(** C1, counterexample.  In July 2020 the NASDAQ and yield-spread series
    have a value and the S&P 500 series has none: the row of July is in the
    combined table, its S&P 500 column NaN. *)
Lemma sp500_not_required :
  ~ sp500_required /\
  match combine_data nasdaq_pct_ex sp500_pct_ex yield_spread_ex gold_pct_ex
                     silver_pct_ex None with
  | Ok combined =>
      index combined = [d_2020_07_31] /\
      get_col combined "S&P 500 6M %" = Ok [(d_2020_07_31, NaN)]
  | Raise _ => False
  end.
Proof.
  split; [| vm_compute; auto].
  intros Hclaim.
  assert (Hrun : exists combined,
    combine_data nasdaq_pct_ex sp500_pct_ex yield_spread_ex gold_pct_ex
                 silver_pct_ex None = Ok combined /\
    get_col combined "S&P 500 6M %" = Ok [(d_2020_07_31, NaN)]).
  { eexists. split; vm_compute; reflexivity. }
  destruct Hrun as (combined & Hcombine & Hcol).
  specialize (Hclaim _ _ _ _ _ _ _ Hcombine Hcol (d_2020_07_31, NaN)
                     (or_introl eq_refl)).
  discriminate Hclaim.
Qed.

(** C1, amended.  When no series repeats a date, the merge returns a
    combined table whose rows are exactly the dates, among those of the five
    series, at which both 'NASDAQ 6M %' and 'Yield Spread' are present: a
    row missing either is dropped.  'S&P 500 6M %' is not required: like
    'Gold 6M %', 'Silver 6M %' and 'Recession' it takes no part in the
    test, and a kept row holds in each of these columns the value of the
    series at its date, NaN when there is none. *)
Theorem combined_rows_have_nasdaq_and_spread (nasdaq_pct sp500_pct
    yield_spread gold_pct silver_pct : list (Z * fval))
    (recessions_monthly : option Frame) (usrec : option (list (Z * fval))) :
  unique_dates nasdaq_pct -> unique_dates sp500_pct ->
  unique_dates yield_spread -> unique_dates gold_pct ->
  unique_dates silver_pct -> unique_index recessions_monthly ->
  match recessions_monthly, usrec with
  | Some monthly, Some s => get_col monthly "USREC" = Ok s
  | None, None => True
  | _, _ => False
  end ->
  exists combined,
    combine_data nasdaq_pct sp500_pct yield_spread gold_pct silver_pct
                 recessions_monthly = Ok combined /\
    (forall d, In d (index combined) <->
       (In d (map fst nasdaq_pct) \/ In d (map fst sp500_pct) \/
        In d (map fst yield_spread) \/ In d (map fst gold_pct) \/
        In d (map fst silver_pct)) /\
       has_value nasdaq_pct d = true /\ has_value yield_spread d = true) /\
    get_col combined "NASDAQ 6M %"
      = Ok (map (fun d => (d, at_date nasdaq_pct d)) (index combined)) /\
    get_col combined "S&P 500 6M %"
      = Ok (map (fun d => (d, at_date sp500_pct d)) (index combined)) /\
    get_col combined "Yield Spread"
      = Ok (map (fun d => (d, at_date yield_spread d)) (index combined)) /\
    get_col combined "Gold 6M %"
      = Ok (map (fun d => (d, at_date gold_pct d)) (index combined)) /\
    get_col combined "Silver 6M %"
      = Ok (map (fun d => (d, at_date silver_pct d)) (index combined)) /\
    get_col combined "Recession"
      = Ok (map (fun d => (d, recession_at usrec d)) (index combined)).
Proof.
  intros Hn Hs Hy Hg Hsi Hr Hrec. eexists.
  split; [apply (combine_data_frame _ _ _ _ _ _ _ Hn Hs Hy Hg Hsi Hr Hrec) |].
  cbn [index]. split.
  - intros d. unfold combined_index. rewrite filter_In, In_union_index.
    2:{ repeat (apply Forall_cons; split; [cbn [snd]; assumption |]).
      constructor. }
    unfold kept. rewrite !notna_at_date, andb_true_iff.
    split.
    + intros [(idx & Hidx & Hd) Hkept]. split; [| exact Hkept].
      cbn in Hidx.
      destruct Hidx as [<- | [<- | [<- | [<- | [<- | []]]]]]; tauto.
    + intros [Hany Hkept]. split; [| exact Hkept].
      destruct Hany as [H | [H | [H | [H | H]]]];
        eexists; (split; [| exact H]); cbn; tauto.
  - unfold get_col. cbn [columns index assoc String.eqb Ascii.eqb Bool.eqb].
    rewrite !zip_map_self. repeat split; reflexivity.
Qed.

(** ** The recession indicator *)

Section RecessionProperties.

Variable yf_download : string -> Timestamp -> Timestamp -> nat -> result Frame.
Variable fred_reader : string -> Timestamp -> Timestamp -> nat -> result Frame.
Variable urlretrieve : string -> nat -> result File.

(** What [load_recession_data] returns: nothing, or the cached frame and its
    monthly maximum. *)
Lemma load_recession_data_inv (start_date end_date : option Z)
    (cache_dir : string) (w w' : World) (recessions monthly : option Frame) :
  load_recession_data fred_reader start_date end_date cache_dir w
    = (Ok (recessions, monthly), w') ->
  (recessions = None /\ monthly = None) \/
  (exists data,
     recessions = Some data /\
     monthly = Some (frame_resample_ME agg_max data) /\
     files w' !! path_join cache_dir "recessions.pkl"
       = Some (PickleFile data)).
Proof.
  unfold load_recession_data.
  rewrite (bind_ok _ _ _ _ _ (end_or_now_eq end_date w)).
  unfold bind at 1. cbn [print]. unfold try_except.
  unfold bind at 1.
  match goal with |- context [load_or_download ?k ?f ?d ?c ?w0] =>
    destruct (load_or_download k f d c w0) as [[data | e] w1] eqn:Hlod end.
  - intros [= <- <- <-]. right. exists data.
    apply load_or_download_returns in Hlod as [Hfile _]. auto.
  - unfold bind, print, ret. intros [= <- <- <-]. left. auto.
Qed.

(** [load_recession_data] never raises. *)
Lemma load_recession_data_returns (start_date end_date : option Z)
    (cache_dir : string) (w : World) :
  exists res w',
    load_recession_data fred_reader start_date end_date cache_dir w
      = (Ok res, w').
Proof.
  unfold load_recession_data.
  rewrite (bind_ok _ _ _ _ _ (end_or_now_eq end_date w)).
  unfold bind at 1. cbn [print]. unfold try_except.
  match goal with |- context [match ?body with _ => _ end] =>
    destruct body as [[res | e] w1] end.
  - eauto.
  - unfold bind, print, ret. eauto.
Qed.

Lemma keeps_files_print_range (label : string) (idx : list Z)
    (suffix : string) :
  keeps_files (print_range label idx suffix).
Proof.
  unfold print_range.
  apply keeps_files_bind; [apply keeps_files_lift | intros first].
  apply keeps_files_bind; [apply keeps_files_lift | intros last].
  apply keeps_files_print.
Qed.

Lemma keeps_files_print_metal_summary (label : string)
    (s : list (Z * fval)) :
  keeps_files (print_metal_summary label s).
Proof.
  unfold print_metal_summary.
  apply keeps_files_bind; [apply keeps_files_lift | intros first].
  apply keeps_files_bind; [apply keeps_files_lift | intros last].
  apply keeps_files_print.
Qed.

Lemma keeps_files_when (b : bool) (m : M unit) :
  keeps_files m -> keeps_files (when b m).
Proof. intros H. destruct b; [exact H | apply keeps_files_ret]. Qed.

(** What [load_all_data] returns is the merge of what its loaders gave; the
    recession loader's answer is in the cache at the end if it gave one. *)
Lemma load_all_data_inv (start_date end_date : option Z) (cache_dir : string)
    (w w' : World) (combined : Frame) :
  load_all_data yf_download fred_reader urlretrieve start_date end_date
                cache_dir w = (Ok combined, w') ->
  exists nasdaq_pct sp500_pct yield_spread gold_pct silver_pct
         recessions_monthly,
    combine_data nasdaq_pct sp500_pct yield_spread gold_pct silver_pct
                 recessions_monthly = Ok combined /\
    (recessions_monthly = None \/
     exists data,
       recessions_monthly = Some (frame_resample_ME agg_max data) /\
       files w' !! path_join cache_dir "recessions.pkl"
         = Some (PickleFile data)).
Proof.
  unfold load_all_data.
  rewrite (bind_ok _ _ _ _ _ (end_or_now_eq end_date w)).
  intros Hrun.
  apply bind_Ok_inv in Hrun as (? & w0 & _ & Hrun).
  apply bind_Ok_inv in Hrun as ([[nasdaq nasdaq_monthly] nasdaq_pct] & w1 & _ & Hrun).
  apply bind_Ok_inv in Hrun as ([[sp500 sp500_monthly] sp500_pct] & w2 & _ & Hrun).
  apply bind_Ok_inv in Hrun
    as ([[[gold_monthly gold_pct] silver_monthly] silver_pct] & w3 & _ & Hrun).
  apply bind_Ok_inv in Hrun as ([yields_df yields_monthly] & w4 & _ & Hrun).
  apply bind_Ok_inv in Hrun as ([recessions recessions_monthly] & w5 & Hrec & Hrun).
  apply bind_Ok_inv in Hrun as (yield_spread & ? & Hspread & Hrun).
  apply lift_result_inv in Hspread as [_ ->].
  apply bind_Ok_inv in Hrun as (combined' & ? & Hcombine & Hrun).
  apply lift_result_inv in Hcombine as [Hcombine ->].
  apply bind_Ok_inv in Hrun as (? & wa & Ha & Hrun).
  apply bind_Ok_inv in Hrun as (? & wb & Hb & Hrun).
  apply bind_Ok_inv in Hrun as (? & wc & Hc & Hrun).
  apply bind_Ok_inv in Hrun as (? & wd & Hd & Hrun).
  apply bind_Ok_inv in Hrun as (? & we & He & Hrun).
  apply bind_Ok_inv in Hrun as (? & wf & Hf & Hrun).
  apply bind_Ok_inv in Hrun as (? & wg & Hg & Hrun).
  injection Hrun as <- <-.
  apply keeps_files_print in Ha, Hg.
  apply keeps_files_print_range in Hb, Hc, He, Hf.
  apply keeps_files_when in Hd.
  2:{ apply keeps_files_bind; [apply keeps_files_print_metal_summary |].
      intros _. apply keeps_files_print_metal_summary. }
  exists nasdaq_pct, sp500_pct, yield_spread, gold_pct, silver_pct,
         recessions_monthly.
  split; [exact Hcombine |].
  apply load_recession_data_inv in Hrec
    as [[_ ->] | (data & _ & -> & Hfile)]; [left; reflexivity |].
  right. exists data. split; [reflexivity |].
  rewrite Hg, Hf, He, Hd, Hc, Hb, Ha. exact Hfile.
Qed.






Lemma times_100_rows (s : list (Z * fval)) : times_100 s = [] -> s = [].
Proof. destruct s; [reflexivity | discriminate]. Qed.


End RecessionProperties.

(** * The theorems at concrete inputs *)

Lemma load_or_download_idempotent_witness :
  exists w1 w2,
    load_or_download "nasdaq.pkl" fetch_nasdaq "NASDAQ" DEFAULT_CACHE_DIR
                     empty_world = (Ok nasdaq_ex, w1) /\
    load_or_download "nasdaq.pkl" fetch_nasdaq "NASDAQ" DEFAULT_CACHE_DIR w1
      = (Ok nasdaq_ex, w2) /\
    fetches w1 = S (fetches empty_world) /\
    fetches w2 = fetches w1.
Proof.
  apply load_or_download_idempotent.
  - reflexivity.
  - reflexivity.
  - reflexivity.
  - vm_compute. reflexivity.
  - reflexivity.
Defined.


Lemma loaders_ignore_dates_on_cache_hit_witness :
  load_nasdaq_data yf_up None None DEFAULT_CACHE_DIR world_cached =
  load_nasdaq_data yf_up (Some 0) (Some d_2020_01_31) DEFAULT_CACHE_DIR
                   world_cached /\
  load_sp500_data yf_up None None DEFAULT_CACHE_DIR world_cached =
  load_sp500_data yf_up (Some 0) (Some d_2020_01_31) DEFAULT_CACHE_DIR
                  world_cached /\
  load_yield_data fred_down None None DEFAULT_CACHE_DIR world_cached =
  load_yield_data fred_down (Some 0) (Some d_2020_01_31) DEFAULT_CACHE_DIR
                  world_cached /\
  load_recession_data fred_down None None DEFAULT_CACHE_DIR world_cached =
  load_recession_data fred_down (Some 0) (Some d_2020_01_31)
                      DEFAULT_CACHE_DIR world_cached /\
  load_gold_silver_data yf_up url_down None None DEFAULT_CACHE_DIR
                        world_cached =
  load_gold_silver_data yf_up url_down (Some 0) (Some d_2020_01_31)
                        DEFAULT_CACHE_DIR world_cached.
Proof.
  destruct (loaders_ignore_dates_on_cache_hit yf_up fred_down url_down
              DEFAULT_CACHE_DIR world_cached None None (Some 0)
              (Some d_2020_01_31))
    as (Hnasdaq & Hsp500 & Hyields & Hrecession & Hmetals).
  split; [| split; [| split; [| split]]].
  - apply Hnasdaq. eexists. vm_compute. reflexivity.
  - apply Hsp500. eexists. vm_compute. reflexivity.
  - apply Hyields. eexists. vm_compute. reflexivity.
  - apply Hrecession. eexists. vm_compute. reflexivity.
  - apply Hmetals.
    + vm_compute. reflexivity.
    + eexists. vm_compute. reflexivity.
    + eexists. vm_compute. reflexivity.
Defined.

Lemma resample_last_rows_witness :
  In feb_2020 (month_bins (map fst gap_series)) /\
  agg_last (map snd (month_rows feb_2020 gap_series)) = NaN /\
  agg_last (map snd (month_rows (feb_2020 - 1) nan_tail_series)) = num 10 /\
  resample_ME agg_last (three_days_reversed (num 1) (num 2) (num 3)) =
    [(d_2020_01_31, num 2); (d_2020_02_29, num 3)].
Proof.
  split; [| split; [| split]].
  - destruct (resample_last_rows gap_series) as (_ & _ & Hbins & _).
    apply Hbins.
    exists (d_2020_01_05, num 10), (d_2020_03_10, num 30).
    split; [left; reflexivity |]. split; [right; left; reflexivity |].
    vm_compute. split; discriminate.
  - destruct (resample_last_rows gap_series)
      as (_ & _ & _ & _ & _ & Hnone & _).
    apply Hnone. intros r [<- | [<- | []]] Hk; vm_compute in Hk;
      discriminate Hk.
  - destruct (resample_last_rows nan_tail_series)
      as (_ & _ & _ & _ & Hlast & _).
    apply (Hlast (feb_2020 - 1) d_2020_01_05 (num 10)).
    + left. reflexivity.
    + vm_compute. reflexivity.
    + reflexivity.
    + intros r [<- | [<- | []]] _ Hv; [right; reflexivity |].
      vm_compute in Hv. discriminate Hv.
  - destruct (resample_last_rows
                (three_days_reversed (num 1) (num 2) (num 3)))
      as (_ & _ & _ & _ & _ & _ & Hthree & _).
    apply (Hthree (num 1)); [| reflexivity | reflexivity].
    unfold three_days_reversed, three_day_series.
    apply Permutation_sym. apply (Permutation_rev [_; _; _]).
Defined.

Lemma pct_change_6_spec_witness :
  times_100 (pct_change_default false 6 seven_months) =
    [(d_2020_01_31, NaN); (d_2020_02_29, NaN); (d_2020_03_31, NaN);
     (d_2020_04_30, NaN); (d_2020_05_31, NaN); (d_2020_06_30, NaN);
     (d_2020_07_31, pct_of (num 106) (num 100))] /\
  pct_of (num 106) (num 100) = 0x1.8000000000006p+2%float /\
  (forall r, In r (times_100 (pct_change_default true 6
                                (take 5 seven_months))) ->
             snd r = NaN) /\
  times_100 (pct_change_default true 6 seven_months) !! 6%nat =
    Some (d_2020_07_31, pct_of (num 106) (num 100)) /\
  times_100 (pct_change_default false 6 eight_months_gap) !! 7%nat =
    Some (days_from_civil 2020 8 31, NaN).
Proof.
  split; [| split; [| split; [| split]]].
  - destruct (pct_change_6_spec false seven_months)
      as (_ & _ & _ & _ & _ & Hseven).
    apply (Hseven (or_introl eq_refl) _ _ _ _ _ _ _ _ (num 101) (num 102)
             (num 103) (num 104) (num 105) _ eq_refl).
  - vm_compute. reflexivity.
  - destruct (pct_change_6_spec true (take 5 seven_months))
      as (_ & _ & _ & _ & Hfive & _).
    apply Hfive. reflexivity.
  - destruct (pct_change_6_spec true seven_months) as (_ & _ & Hrow & _).
    apply (fun H => Hrow H 0%nat d_2020_07_31 (num 106) d_2020_01_31
                         (num 100) eq_refl eq_refl).
    right. intros r Hr.
    repeat (destruct Hr as [<- | Hr]; [reflexivity |]). destruct Hr.
  - destruct (pct_change_6_spec false eight_months_gap)
      as (_ & _ & _ & Hmissing & _).
    apply (Hmissing eq_refl 1%nat (days_from_civil 2020 8 31) (num 107)
             d_2020_02_29 NaN eq_refl eq_refl eq_refl).
Defined.

Lemma interval_extraction_witness :
  get_recession_periods flagged_frame = Ok [(100, 110); (170, 170)] /\
  get_inversion_periods flagged_frame "Yield Spread"
    = Ok [(100, 100); (170, 170)].
Proof.
  destruct (interval_extraction flagged_frame) as (Hrec & Hinv & _).
  split.
  - rewrite (Hrec _ eq_refl). vm_compute. reflexivity.
  - rewrite (Hinv "Yield Spread" _ eq_refl). vm_compute. reflexivity.
Defined.

Lemma gold_silver_spliced_at_gold_cutover_witness :
  exists sheet yf_gold yf_silver wb_gold wb_silver yf_gold_close
         yf_silver_close wb_end_date,
    files (snd run_metals) !! path_join DEFAULT_CACHE_DIR wb_name
      = Some (ExcelFile (Some sheet)) /\
    files (snd run_metals) !! path_join DEFAULT_CACHE_DIR "yf_gold.pkl"
      = Some (PickleFile yf_gold) /\
    files (snd run_metals) !! path_join DEFAULT_CACHE_DIR "yf_silver.pkl"
      = Some (PickleFile yf_silver) /\
    get_col sheet "Gold" = Ok wb_gold /\
    get_col sheet "Silver" = Ok wb_silver /\
    get_col yf_gold "Close" = Ok yf_gold_close /\
    get_col yf_silver "Close" = Ok yf_silver_close /\
    index_last (map fst (dropna wb_gold)) = Ok wb_end_date /\
    spliced_at wb_gold (resample_ME agg_last yf_gold_close) gold_monthly_run
               wb_end_date /\
    spliced_at wb_silver (resample_ME agg_last yf_silver_close)
               silver_monthly_run wb_end_date /\
    (ascending wb_gold ->
     forall d, d > wb_end_date ->
       has_value (resample_ME agg_last yf_gold_close) d = false ->
       has_value gold_monthly_run d = false).
Proof.
  apply (gold_silver_spliced_at_gold_cutover yf_up url_down None None
           DEFAULT_CACHE_DIR world_wb (snd run_metals) gold_monthly_run
           gold_pct_run silver_monthly_run silver_pct_run).
  - vm_compute. reflexivity.
  - intros H. vm_compute in H. discriminate H.
Defined.

Lemma secondary_failure_returns_empty_witness :
  (exists e' out w',
     load_gold_silver_data yf_down url_down None None DEFAULT_CACHE_DIR
                           world_wb
       = (Ok (empty_series, empty_series, empty_series, empty_series), w') /\
     stdout w' = out ++ ["Warning: Could not load Gold/Silver data: " +:+ e'] /\
     files w' = files world_wb) /\
  (exists e' out w',
     load_gold_silver_data yf_gold_only url_down None None DEFAULT_CACHE_DIR
                           world_wb
       = (Ok (empty_series, empty_series, empty_series, empty_series), w') /\
     stdout w' = out ++ ["Warning: Could not load Gold/Silver data: " +:+ e'] /\
     files w' !! path_join DEFAULT_CACHE_DIR "yf_gold.pkl"
       = Some (PickleFile yf_gold_ex) /\
     files w' !! path_join DEFAULT_CACHE_DIR "yf_silver.pkl" = None).
Proof.
  split.
  - destruct (secondary_failure_returns_empty yf_down url_down None None
                DEFAULT_CACHE_DIR world_wb world_wb_start world_wb_read
                wb_gold_ex wb_silver_ex d_2020_05_31 "ConnectionError")
      as (e' & out & w' & Hrun & Hout & _ & Hnone & _).
    + vm_compute. reflexivity.
    + vm_compute. reflexivity.
    + left. split; [vm_compute; reflexivity | reflexivity].
    + exists e', out, w'. split; [exact Hrun |]. split; [exact Hout |].
      rewrite (Hnone "ConnectionError" _ eq_refl). vm_compute. reflexivity.
  - destruct (secondary_failure_returns_empty yf_gold_only url_down None None
                DEFAULT_CACHE_DIR world_wb world_wb_start world_wb_read
                wb_gold_ex wb_silver_ex d_2020_05_31 "ConnectionError")
      as (e' & out & w' & Hrun & Hout & Hother & _ & Hkept).
    + vm_compute. reflexivity.
    + vm_compute. reflexivity.
    + right. eexists _, _. split; [vm_compute; reflexivity |].
      split; [vm_compute; reflexivity | reflexivity].
    + exists e', out, w'. split; [exact Hrun |]. split; [exact Hout |].
      split.
      * eapply (Hkept yf_gold_ex). vm_compute. reflexivity.
      * rewrite Hother by (vm_compute; discriminate).
        vm_compute. reflexivity.
Defined.

Lemma combined_rows_have_nasdaq_and_spread_witness :
  exists combined,
    combine_data nasdaq_pct_ex sp500_pct_ex yield_spread_ex gold_pct_ex
                 silver_pct_ex None = Ok combined /\
    (forall d, In d (index combined) <->
       (In d (map fst nasdaq_pct_ex) \/ In d (map fst sp500_pct_ex) \/
        In d (map fst yield_spread_ex) \/ In d (map fst gold_pct_ex) \/
        In d (map fst silver_pct_ex)) /\
       has_value nasdaq_pct_ex d = true /\
       has_value yield_spread_ex d = true) /\
    get_col combined "NASDAQ 6M %"
      = Ok (map (fun d => (d, at_date nasdaq_pct_ex d)) (index combined)) /\
    get_col combined "S&P 500 6M %"
      = Ok (map (fun d => (d, at_date sp500_pct_ex d)) (index combined)) /\
    get_col combined "Yield Spread"
      = Ok (map (fun d => (d, at_date yield_spread_ex d)) (index combined)) /\
    get_col combined "Gold 6M %"
      = Ok (map (fun d => (d, at_date gold_pct_ex d)) (index combined)) /\
    get_col combined "Silver 6M %"
      = Ok (map (fun d => (d, at_date silver_pct_ex d)) (index combined)) /\
    get_col combined "Recession"
      = Ok (map (fun d => (d, recession_at None d)) (index combined)).
Proof.
  apply (combined_rows_have_nasdaq_and_spread nasdaq_pct_ex sp500_pct_ex
           yield_spread_ex gold_pct_ex silver_pct_ex None None);
    try exact I;
    unfold unique_dates; apply (bool_decide_unpack _); vm_compute; exact I.
Defined.


(** * Further properties *)

(** ** The cache, case by case *)

Lemma load_or_download_hit_ok (cache_file description cache_dir : string)
    (download_func : Downloader) (w : World) (payload : Frame) :
  cache_dir <> "" ->
  files w !! cache_dir = None ->
  files w !! path_join cache_dir cache_file = Some (PickleFile payload) ->
  exists w',
    load_or_download cache_file download_func description cache_dir w
      = (Ok payload, w') /\
    files w' = files w /\
    fetches w' = fetches w /\
    stdout w' = stdout w ++ ["  Loading " +:+ description +:+ " from cache..."].
Proof.
  intros Hdir Hnofile Hhit.
  assert (Hdirb : String.eqb cache_dir "" = false)
    by (apply String.eqb_neq; exact Hdir).
  unfold load_or_download, bind, os_makedirs, os_path_exists.
  rewrite Hdirb, Hnofile.
  rewrite (path_exists_file _ _ (PickleFile payload)) by exact Hhit.
  cbn [print]. unfold pickle_load. cbn [files]. rewrite Hhit.
  eexists. split; [reflexivity |]. cbn. auto.
Qed.

(** X1.  A cache hit: when a pickle is stored under the key and the cache
    directory can be made, [load_or_download] returns the stored payload,
    does not invoke the download function and changes no file. *)
Theorem load_or_download_cache_hit (cache_file description cache_dir : string)
    (download_func : Downloader) (w : World) (payload : Frame) :
  cache_dir <> "" ->
  files w !! cache_dir = None ->
  files w !! path_join cache_dir cache_file = Some (PickleFile payload) ->
  exists w',
    load_or_download cache_file download_func description cache_dir w
      = (Ok payload, w') /\
    files w' = files w /\
    fetches w' = fetches w /\
    stdout w' = stdout w ++ ["  Loading " +:+ description +:+ " from cache..."].
Proof. apply load_or_download_hit_ok. Qed.

(** X2.  Whatever [load_or_download] returns, from the cache or from the
    download, is what the cache holds under the key afterwards; no other
    file has changed, the cache directory exists, and the download function
    was invoked at most once. *)
Theorem load_or_download_result_is_cached
    (cache_file description cache_dir : string) (download_func : Downloader)
    (w w' : World) (data : Frame) :
  load_or_download cache_file download_func description cache_dir w
    = (Ok data, w') ->
  files w' !! path_join cache_dir cache_file = Some (PickleFile data) /\
  (forall p, p <> path_join cache_dir cache_file ->
             files w' !! p = files w !! p) /\
  cache_dir ∈ dirs w' /\
  (fetches w' = fetches w \/ fetches w' = S (fetches w)).
Proof.
  intros Hrun.
  destruct (load_or_download_returns _ _ _ _ _ _ _ Hrun) as [Hfile Hother].
  split; [exact Hfile |]. split; [exact Hother |].
  revert Hrun. unfold load_or_download, bind, os_makedirs.
  destruct (String.eqb cache_dir ""); [discriminate |].
  destruct (files w !! cache_dir); [discriminate |].
  unfold os_path_exists. cbn [print].
  destruct (path_exists _ _).
  - unfold pickle_load. cbn [files dirs].
    destruct (files w !! path_join cache_dir cache_file) as [[? | ?] |];
      [| discriminate | destruct (bool_decide _); discriminate].
    intros [= <- <-]. cbn [dirs fetches].
    split; [apply elem_of_union_l, elem_of_singleton; reflexivity | auto].
  - unfold call_download. cbn [fetches files dirs stdout clock].
    destruct (download_func (fetches w)) as [out [d | e]]; [| discriminate].
    unfold pickle_dump. cbn [files dirs stdout fetches clock].
    destruct (bool_decide _); [discriminate |].
    intros [= <- <-]. cbn [dirs fetches].
    split; [apply elem_of_union_l, elem_of_singleton; reflexivity | auto].
Qed.

(** X3.  A file under the key that is not a pickle is not repaired: the call
    raises the unpickling error, the download function is not invoked and
    the file stays as it is, so every later call raises again. *)
Theorem load_or_download_unreadable_entry
    (cache_file description cache_dir : string) (download_func : Downloader)
    (w : World) (sheet : option Frame) :
  cache_dir <> "" ->
  files w !! cache_dir = None ->
  files w !! path_join cache_dir cache_file = Some (ExcelFile sheet) ->
  exists w',
    load_or_download cache_file download_func description cache_dir w
      = (Raise "UnpicklingError", w') /\
    files w' = files w /\
    fetches w' = fetches w.
Proof.
  intros Hdir Hnofile Hhit.
  assert (Hdirb : String.eqb cache_dir "" = false)
    by (apply String.eqb_neq; exact Hdir).
  unfold load_or_download, bind, os_makedirs, os_path_exists.
  rewrite Hdirb, Hnofile.
  rewrite (path_exists_file _ _ (ExcelFile sheet)) by exact Hhit.
  cbn [print]. unfold pickle_load. cbn [files]. rewrite Hhit.
  eexists. split; [reflexivity |]. cbn. auto.
Qed.



(** A cache file is never the cache directory itself. *)

(** ** The index loaders *)




(** ** More on the periods *)

(** X6.  [get_recession_periods] never raises: it returns a list of periods
    for every frame, the empty list when the frame has no 'Recession'
    column.  [get_inversion_periods] raises exactly when the frame has no
    column of the given name, with [KeyError]. *)
Theorem periods_functions_raise_only_on_missing_spread (df : Frame) :
  (exists periods, get_recession_periods df = Ok periods) /\
  (assoc "Recession" (columns df) = None -> get_recession_periods df = Ok []) /\
  (forall spread_col,
     assoc spread_col (columns df) = None ->
     get_inversion_periods df spread_col = Raise "KeyError") /\
  (forall spread_col,
     assoc spread_col (columns df) <> None ->
     exists periods, get_inversion_periods df spread_col = Ok periods).
Proof.
  split; [| split; [| split]].
  - unfold get_recession_periods.
    destruct (assoc "Recession" (columns df)); [| eauto].
    rewrite periods_of_dates_scan. eauto.
  - intros H. unfold get_recession_periods. rewrite H. reflexivity.
  - intros col H. unfold get_inversion_periods. rewrite H. reflexivity.
  - intros col H. unfold get_inversion_periods.
    destruct (assoc col (columns df)); [| contradiction].
    rewrite periods_of_dates_scan. eauto.
Qed.

Lemma find_intervals_grouping (tolerance : Z) (dates : list Z) :
  exists groups,
    grouping tolerance dates groups /\
    find_intervals tolerance dates = map group_span groups.
Proof.
  destruct dates as [| d t].
  - exists []. unfold grouping. cbn. auto.
  - destruct (scan_intervals_grouping tolerance t [] d I)
      as (ext & rest & Hgrouping & Hscan).
    exists ((d, [] ++ ext) :: rest). auto.
Qed.

Lemma sorted_groups (groups : list (Z * list Z)) (g : Z * list Z) :
  StronglySorted Z.le (concat (map group_dates groups)) ->
  In g groups -> StronglySorted Z.le (group_dates g).
Proof.
  induction groups as [| g' groups IH]; intros Hs Hg; [destruct Hg |].
  cbn [map concat] in Hs. destruct Hg as [-> | Hg].
  - apply StronglySorted_app_l in Hs. exact Hs.
  - apply IH; [| exact Hg]. apply StronglySorted_app_r in Hs. exact Hs.
Qed.

Lemma In_last (tl : list Z) (h : Z) : In (List.last tl h) (h :: tl).
Proof.
  revert h. induction tl as [| x tl IH]; intros h; [left; reflexivity |].
  rewrite last_cons_default. right. apply IH.
Qed.

Lemma sorted_group_bounds (g : Z * list Z) (d : Z) :
  StronglySorted Z.le (group_dates g) -> In d (group_dates g) ->
  group_first g <= d <= group_last g.
Proof.
  destruct g as [h tl]. unfold group_dates, group_first, group_last.
  cbn [fst snd]. intros Hs Hd. split.
  - apply StronglySorted_inv in Hs as [_ Hall].
    rewrite List.Forall_forall in Hall.
    destruct Hd as [-> | Hd]; [lia | apply Hall; exact Hd].
  - apply (StronglySorted_le_last (h :: tl)); [exact Hs | reflexivity |
                                                exact Hd].
Qed.

Lemma separated_periods_apart (tolerance : Z) (groups : list (Z * list Z)) :
  separated tolerance groups ->
  periods_apart tolerance (map group_span groups).
Proof.
  induction groups as [| g groups IH]; [auto |].
  intros [Hg Hrest]. cbn [map periods_apart]. split; [| apply IH; exact Hrest].
  destruct groups as [| g' groups]; [exact I | exact Hg].
Qed.

(** On ascending dates the periods are in order, end where they start or
    later, are made of the dates and cover every one of them. *)
Lemma periods_of_sorted_dates (dates : list Z) :
  StronglySorted Z.le dates ->
  exists periods,
    periods_of_dates dates = Ok periods /\ periods_cover dates periods.
Proof.
  intros Hs. rewrite periods_of_dates_scan.
  destruct (find_intervals_grouping GAP_TOLERANCE dates)
    as (groups & (Hcat & _ & Hsep) & ->).
  eexists. split; [reflexivity |].
  rewrite <- Hcat in Hs. unfold periods_cover. split; [| split].
  - intros p Hp. apply in_map_iff in Hp as (g & <- & Hg).
    pose proof (sorted_groups groups g Hs Hg) as Hgs.
    assert (Hin : forall d, In d (group_dates g) -> In d dates).
    { intros d Hd. rewrite <- Hcat. apply in_concat.
      exists (group_dates g). split; [apply in_map; exact Hg | exact Hd]. }
    cbn [group_span fst snd]. split; [| split].
    + apply (sorted_group_bounds g (group_last g) Hgs).
      destruct g as [h tl]. apply In_last.
    + apply Hin. left. reflexivity.
    + apply Hin. destruct g as [h tl]. apply In_last.
  - intros d Hd. rewrite <- Hcat in Hd.
    apply in_concat in Hd as (l & Hl & Hd).
    apply in_map_iff in Hl as (g & <- & Hg).
    exists (group_span g). split; [apply in_map; exact Hg |].
    apply sorted_group_bounds; [apply (sorted_groups groups) |]; assumption.
  - apply separated_periods_apart. exact Hsep.
Qed.

Lemma selected_dates_sorted (p : fval -> bool) (idx : list Z)
    (col : list fval) :
  StronglySorted Z.le idx -> StronglySorted Z.le (selected_dates p idx col).
Proof.
  intros Hs. unfold selected_dates. apply StronglySorted_filter_fst.
  revert col. induction Hs as [| a idx Hs IH Hall]; intros col;
    [constructor |].
  destruct col as [| v col]; [constructor |].
  cbn. constructor; [apply IH |].
  rewrite List.Forall_forall in Hall |- *.
  intros x Hx. apply Hall.
  apply in_map_iff in Hx as ([d y] & <- & Hin).
  apply list_elem_of_In, elem_of_zip_l, list_elem_of_In in Hin. exact Hin.
Qed.

(** X7.  On a frame whose index ascends, the periods returned by
    [get_recession_periods] and [get_inversion_periods] are well formed:
    each period ends on or after its start, both ends being dates of
    selected rows; every selected date lies in one of the periods; and each
    period starts more than 45 days after the end of the one before it. *)
Theorem periods_cover_selected_dates (df : Frame) :
  StronglySorted Z.le (index df) ->
  (forall recession,
     assoc "Recession" (columns df) = Some recession ->
     exists periods,
       get_recession_periods df = Ok periods /\
       periods_cover (selected_dates feq_one (index df) recession) periods) /\
  (forall spread_col spread,
     assoc spread_col (columns df) = Some spread ->
     exists periods,
       get_inversion_periods df spread_col = Ok periods /\
       periods_cover (selected_dates flt_zero (index df) spread) periods).
Proof.
  intros Hs. split.
  - intros recession Hcol. unfold get_recession_periods. rewrite Hcol.
    cbn [select_rows index]. rewrite filter_by_selected.
    apply periods_of_sorted_dates, selected_dates_sorted. exact Hs.
  - intros spread_col spread Hcol. unfold get_inversion_periods.
    rewrite Hcol. cbn [select_rows index]. rewrite filter_by_selected.
    apply periods_of_sorted_dates, selected_dates_sorted. exact Hs.
Qed.

(** *** On a month-end index *)

Lemma month_end_step (k : Z) :
  known_month k -> known_month (k + 1) ->
  28 <= month_end (k + 1) - month_end k <= 31.
Proof.
  unfold known_month. intros Hk Hk1.
  assert (Hall : forallb (fun k => (28 <=? month_end (k + 1) - month_end k)
                                   && (month_end (k + 1) - month_end k <=? 31))
                         (seqZ (12 * 1900) (12 * 300)) = true)
    by (vm_compute; reflexivity).
  rewrite forallb_forall in Hall.
  specialize (Hall k). rewrite andb_true_iff, Z.leb_le, Z.leb_le in Hall.
  apply Hall. apply list_elem_of_In, elem_of_seqZ. lia.
Qed.

Lemma month_end_gap (n : nat) (k : Z) :
  known_month k -> known_month (k + Z.of_nat n) ->
  28 * Z.of_nat n <= month_end (k + Z.of_nat n) - month_end k
    <= 31 * Z.of_nat n.
Proof.
  unfold known_month. induction n as [| n IH]; intros Hk Hkn.
  - replace (k + Z.of_nat 0) with k by lia. lia.
  - replace (k + Z.of_nat (S n)) with (k + Z.of_nat n + 1) in * by lia.
    assert (Hmid : known_month (k + Z.of_nat n)) by (unfold known_month; lia).
    specialize (IH Hk Hmid).
    pose proof (month_end_step (k + Z.of_nat n) Hmid Hkn). lia.
Qed.

(** Two month ends are more than 45 days apart exactly when their months are
    more than one month apart. *)
Lemma month_end_gap_exceeds (k k' : Z) :
  known_month k -> known_month k' -> k < k' ->
  (month_end k' - month_end k >? GAP_TOLERANCE) = (k' - k >? 1).
Proof.
  intros Hk Hk' Hlt.
  replace k' with (k + Z.of_nat (Z.to_nat (k' - k))) in * by lia.
  pose proof (month_end_gap (Z.to_nat (k' - k)) k Hk Hk') as Hgap.
  unfold GAP_TOLERANCE.
  destruct (Z.to_nat (k' - k)) as [| [| n]] eqn:E; [lia | |].
  - replace (k + Z.of_nat 1 - k) with 1 by lia.
    rewrite !Z.gtb_ltb. rewrite (proj2 (Z.ltb_ge _ _)) by lia. reflexivity.
  - rewrite !Z.gtb_ltb. rewrite (proj2 (Z.ltb_lt _ _)) by lia.
    rewrite (proj2 (Z.ltb_lt _ _)) by lia. reflexivity.
Qed.

Lemma scan_month_ends (t : list Z) (start last : Z) :
  (forall k, In k (last :: t) -> known_month k) ->
  StronglySorted Z.lt (last :: t) ->
  scan_intervals GAP_TOLERANCE (month_end start) (month_end last)
                 (map month_end t)
  = map month_period (scan_intervals 1 start last t).
Proof.
  revert start last. induction t as [| k t IH]; intros start last Hknown Hs;
    [reflexivity |].
  cbn [map scan_intervals].
  apply StronglySorted_inv in Hs as [Hs Hall].
  rewrite List.Forall_forall in Hall.
  rewrite month_end_gap_exceeds.
  2:{ apply Hknown. left. reflexivity. }
  2:{ apply Hknown. right. left. reflexivity. }
  2:{ apply Hall. left. reflexivity. }
  assert (Hknown' : forall x, In x (k :: t) -> known_month x)
    by (intros x Hx; apply Hknown; right; exact Hx).
  destruct (k - last >? 1).
  - cbn [map]. f_equal. apply IH; assumption.
  - apply IH; assumption.
Qed.

(** X8.  On month-end dates (as the index of the combined table has them),
    between 1900 and 2199, the 45-day tolerance works month by month:
    flagged months that follow one another without a gap form one period,
    and a period ends exactly where at least one month is skipped. *)
Theorem month_end_periods_by_month (months : list Z) :
  (forall k, In k months -> known_month k) ->
  StronglySorted Z.lt months ->
  periods_of_dates (map month_end months)
  = Ok (map month_period (find_intervals 1 months)).
Proof.
  intros Hknown Hs. rewrite periods_of_dates_scan.
  destruct months as [| k t]; [reflexivity |].
  cbn [map find_intervals]. f_equal. apply scan_month_ends; assumption.
Qed.

(** ** More on the series *)

Lemma has_label_In (s : list (Z * fval)) (d : Z) :
  has_label s d = false -> ~ In d (map fst s).
Proof.
  intros H Hin. apply In_labels_get in Hin. apply Hin.
  apply has_label_get. exact H.
Qed.

Lemma setitem_labels_NoDup (s : list (Z * fval)) (d : Z) (v : fval) :
  NoDup (map fst s) -> NoDup (map fst (setitem s d v)).
Proof.
  intros Hnd. unfold setitem. destruct (has_label s d) eqn:Hl.
  - replace (map fst (map (fun r => if fst r =? d then (d, v) else r) s))
      with (map fst s); [exact Hnd |].
    rewrite map_map. apply map_ext. intros [k x]. cbn.
    destruct (Z.eqb_spec k d) as [-> | _]; reflexivity.
  - rewrite map_app. cbn. apply NoDup_app. split; [exact Hnd |].
    split; [| apply NoDup_singleton].
    intros x Hx Hd. apply list_elem_of_In in Hx, Hd.
    destruct Hd as [<- | []].
    apply (has_label_In _ _ Hl). exact Hx.
Qed.

Lemma splice_loop_labels_NoDup (secondary : list (Z * fval)) (c : Z)
    (labels : list Z) (acc : list (Z * fval)) :
  NoDup (map fst acc) ->
  NoDup (map fst (fold_left (splice_step secondary c) labels acc)).
Proof.
  revert acc. induction labels as [| l labels IH]; intros acc Hnd;
    [exact Hnd |].
  cbn [fold_left]. apply IH. unfold splice_step.
  destruct (get secondary l) as [v |]; [| exact Hnd].
  destruct ((l >? c) && notna v); [| exact Hnd].
  apply setitem_labels_NoDup. exact Hnd.
Qed.

(** X9.  The spliced series is sorted by date whatever the order of its
    inputs; its dates are those of the primary series and, after the
    cutover, those at which the secondary series has a value; and when the
    primary series has no repeated date, neither has the spliced one. *)
Theorem splice_sorted_labels (primary secondary : list (Z * fval)) (c : Z) :
  ascending (splice primary secondary c) /\
  (forall d, In d (map fst (splice primary secondary c)) <->
     In d (map fst primary) \/ (d > c /\ has_value secondary d = true)) /\
  (NoDup (map fst primary) ->
   NoDup (map fst (splice primary secondary c))).
Proof.
  split; [| split].
  - unfold ascending, splice. apply sort_index_sorted.
  - intros d. rewrite !In_labels_get, get_splice. unfold overlay, has_value.
    destruct (get secondary d) as [v |].
    + destruct (d >? c) eqn:Hgt; cbn [andb].
      * apply Z.gtb_lt in Hgt.
        destruct (notna v).
        -- split; [intros _; right; split; [lia | reflexivity] |
                   discriminate].
        -- split; [auto |]. intros [H | [_ H]]; [exact H | discriminate].
      * rewrite Z.gtb_ltb in Hgt. apply Z.ltb_ge in Hgt.
        split; [auto |]. intros [H | [H _]]; [exact H | lia].
    + split; [auto |]. intros [H | [_ H]]; [exact H | discriminate].
  - intros Hnd. unfold splice.
    apply (NoDup_Permutation_proper _ _
             (Permutation_map fst (sort_index_perm _))).
    apply splice_loop_labels_NoDup. exact Hnd.
Qed.

(** *** The labels of a resampled series *)

Lemma month_end_lt (k k' : Z) :
  known_month k -> known_month k' -> k < k' -> month_end k < month_end k'.
Proof.
  intros Hk Hk' Hlt.
  replace k' with (k + Z.of_nat (Z.to_nat (k' - k))) in * by lia.
  pose proof (month_end_gap (Z.to_nat (k' - k)) k Hk Hk'). lia.
Qed.

Lemma month_end_sorted (l : list Z) :
  StronglySorted Z.lt l -> (forall k, In k l -> known_month k) ->
  StronglySorted Z.lt (map month_end l).
Proof.
  induction 1 as [| a l Hs IH Hall]; intros Hknown; [constructor |].
  cbn. constructor.
  - apply IH. intros k Hk. apply Hknown. right. exact Hk.
  - rewrite List.Forall_forall in Hall |- *.
    intros x Hx. apply in_map_iff in Hx as (k & <- & Hk).
    apply month_end_lt.
    + apply Hknown. left. reflexivity.
    + apply Hknown. right. exact Hk.
    + apply Hall. exact Hk.
Qed.

Lemma seqZ_sorted (n : nat) (m : Z) :
  StronglySorted Z.lt (seqZ m (Z.of_nat n)).
Proof.
  revert m. induction n as [| n IH]; intros m; [constructor |].
  rewrite seqZ_cons by lia.
  replace (Z.pred (Z.of_nat (S n))) with (Z.of_nat n) by lia.
  constructor; [apply IH |].
  rewrite List.Forall_forall. intros x Hx.
  apply list_elem_of_In, elem_of_seqZ in Hx. lia.
Qed.

Lemma zrange_sorted (lo hi : Z) : StronglySorted Z.lt (zrange lo hi).
Proof.
  unfold zrange. destruct (Z.le_gt_cases 0 (hi - lo + 1)) as [Hpos | Hneg].
  - rewrite <- (Z2Nat.id (hi - lo + 1)) by exact Hpos. apply seqZ_sorted.
  - replace (seqZ lo (hi - lo + 1)) with (@nil Z); [constructor |].
    symmetry. apply seqZ_nil. lia.
Qed.

Lemma month_bins_sorted (idx : list Z) : StronglySorted Z.lt (month_bins idx).
Proof.
  unfold month_bins. destruct (map month_index idx); [constructor |].
  apply zrange_sorted.
Qed.

Lemma month_bins_known (idx : list Z) (k : Z) :
  (forall d, In d idx -> known_month (month_index d)) ->
  In k (month_bins idx) -> known_month k.
Proof.
  intros Hknown Hk. apply In_month_bins in Hk as (a & b & Ha & Hb & Hle).
  pose proof (Hknown a Ha). pose proof (Hknown b Hb).
  unfold known_month in *. lia.
Qed.

Lemma StronglySorted_lt_NoDup (l : list Z) :
  StronglySorted Z.lt l -> NoDup l.
Proof.
  induction 1 as [| a l Hs IH Hall]; [constructor |].
  constructor; [| exact IH].
  rewrite List.Forall_forall in Hall. intros Hin.
  specialize (Hall a (proj1 (list_elem_of_In _ _) Hin)). lia.
Qed.

(** X10.  For observations dated between 1900 and 2199, the month-end
    resampling gives rows in strictly ascending date order, so no two rows
    have the same date; every observation finds the row of its month, dated
    the last day of that month; and an empty series resamples to an empty
    series. *)
Theorem resample_labels_ascend (agg : list fval -> fval)
    (s : list (Z * fval)) :
  (forall r, In r s -> known_month (month_index (fst r))) ->
  StronglySorted Z.lt (map fst (resample_ME agg s)) /\
  NoDup (map fst (resample_ME agg s)) /\
  (forall r, In r s ->
     In (month_end (month_index (fst r))) (map fst (resample_ME agg s))) /\
  resample_ME agg [] = [].
Proof.
  intros Hknown.
  assert (Hlabels : map fst (resample_ME agg s)
                    = map month_end (month_bins (map fst s))).
  { unfold resample_ME. rewrite map_map. reflexivity. }
  assert (Hsorted : StronglySorted Z.lt (map fst (resample_ME agg s))).
  { rewrite Hlabels. apply month_end_sorted; [apply month_bins_sorted |].
    intros k Hk. apply (month_bins_known (map fst s)); [| exact Hk].
    intros d Hd. apply in_map_iff in Hd as (r & <- & Hr). auto. }
  split; [exact Hsorted |].
  split; [apply StronglySorted_lt_NoDup; exact Hsorted |].
  split; [| reflexivity].
  intros r Hr. rewrite Hlabels. apply in_map. apply In_month_bins.
  exists (fst r), (fst r). split; [apply in_map; exact Hr |].
  split; [apply in_map; exact Hr | lia].
Qed.
(** ** More on the combined table *)

Lemma align_length (idx : list Z) (s : list (Z * fval)) (vs : list fval) :
  align idx s = Ok vs -> length vs = length idx.
Proof.
  unfold align. intros H.
  destruct (bool_decide (map fst s = idx)) eqn:E.
  - apply bool_decide_eq_true in E. injection H as <-.
    rewrite <- E, !length_map. reflexivity.
  - destruct (bool_decide (NoDup (map fst s))); [| discriminate H].
    injection H as <-. apply length_map.
Qed.

Lemma align_raises (idx : list Z) (s : list (Z * fval)) (e : exn) :
  align idx s = Raise e -> e = "ValueError".
Proof.
  unfold align. intros H.
  destruct (bool_decide (map fst s = idx)); [discriminate H |].
  destruct (bool_decide (NoDup (map fst s))); [discriminate H |].
  injection H as <-. reflexivity.
Qed.

Lemma filter_by_length {A B : Type} (mask : list bool) (l : list A)
    (k : list B) :
  length l = length k -> length (filter_by mask l) = length (filter_by mask k).
Proof.
  revert l k. induction mask as [| b mask IH]; intros [| x l] [| y k] H;
    cbn in *; try reflexivity; try discriminate H.
  injection H as H. destruct b; cbn; auto.
Qed.

(** A row that [dropna] keeps has a value in the first required column. *)
Lemma In_filter_notna (v1 : list fval) (mask : list bool) (idx : list Z)
    (d : Z) :
  In d (filter_by (zip_with andb (map notna v1) mask) idx) ->
  exists (i : nat) v,
    idx !! i = Some d /\ v1 !! i = Some v /\ notna v = true.
Proof.
  revert mask idx. induction v1 as [| v v1 IH]; intros mask idx Hin.
  - destruct Hin.
  - destruct mask as [| b mask], idx as [| x idx]; try destruct Hin.
    cbn in Hin. destruct (notna v) eqn:Hv; cbn in Hin.
    + destruct b.
      * destruct Hin as [<- | Hin]; [exists 0%nat, v; auto |].
        apply IH in Hin as (i & u & ? & ? & ?). exists (S i), u. auto.
      * apply IH in Hin as (i & u & ? & ? & ?). exists (S i), u. auto.
    + apply IH in Hin as (i & u & ? & ? & ?). exists (S i), u. auto.
Qed.

Lemma filter_by_NoDup (mask : list bool) (idx : list Z) :
  NoDup idx -> NoDup (filter_by mask idx).
Proof.
  revert mask. induction idx as [| x idx IH]; intros [| b mask] Hnd; cbn;
    try constructor.
  apply NoDup_cons in Hnd as [Hx Hnd].
  assert (Hsub : forall m y, In y (filter_by m idx) -> In y idx).
  { clear. induction idx as [| z idx IH]; intros [| b m] y; cbn; try tauto.
    destruct b; cbn; [intros [-> | H]; [left; reflexivity | right; eauto] |].
    intros H. right. eauto. }
  destruct b; [| apply IH; exact Hnd].
  apply NoDup_cons. split; [| apply IH; exact Hnd].
  intros Hin. apply Hx. apply list_elem_of_In. apply (Hsub mask).
  apply list_elem_of_In. exact Hin.
Qed.

(** What [combine_data] returns, whenever it returns: the rows of a frame on
    some index [idx] that have a value in both required columns.  The frame
    is the one of the five series aligned on the union of their indexes,
    with the recession column; or, when the five series have no row and the
    recession series has some, the rows of the recession series with no
    value in the other columns. *)
Lemma combine_data_Ok_inv (nasdaq_pct sp500_pct yield_spread gold_pct
    silver_pct : list (Z * fval)) (recessions_monthly : option Frame)
    (combined : Frame) :
  combine_data nasdaq_pct sp500_pct yield_spread gold_pct silver_pct
               recessions_monthly = Ok combined ->
  exists (idx : list Z) (v1 v2 v3 v4 v5 vr : list fval),
    combined =
      select_rows
        (zip_with andb (map notna v1)
           (zip_with andb (map notna v3) (map (fun _ => true) idx)))
        (mkFrame idx
           [("NASDAQ 6M %", v1); ("S&P 500 6M %", v2); ("Yield Spread", v3);
            ("Gold 6M %", v4); ("Silver 6M %", v5); ("Recession", vr)]) /\
    Forall (fun vs : list fval => length vs = length idx)
           [v1; v2; v3; v4; v5; vr] /\
    (align idx nasdaq_pct = Ok v1 \/ v1 = map (fun _ => NaN) idx) /\
    (idx = union_index [map fst nasdaq_pct; map fst sp500_pct;
                        map fst yield_spread; map fst gold_pct;
                        map fst silver_pct] \/
     exists monthly usrec,
       recessions_monthly = Some monthly /\
       get_col monthly "USREC" = Ok usrec /\ idx = map fst usrec).
Proof.
  unfold combine_data, frame_of_series. cbn [map fst snd align_all].
  remember (union_index [map fst nasdaq_pct; map fst sp500_pct;
                         map fst yield_spread; map fst gold_pct;
                         map fst silver_pct]) as idx eqn:Hidx.
  destruct (align idx nasdaq_pct) as [v1 | e1] eqn:H1; [| discriminate].
  destruct (align idx sp500_pct) as [v2 | e2] eqn:H2.
  2:{ destruct (align idx yield_spread), (align idx gold_pct),
        (align idx silver_pct); discriminate. }
  destruct (align idx yield_spread) as [v3 | e3] eqn:H3.
  2:{ destruct (align idx gold_pct), (align idx silver_pct); discriminate. }
  destruct (align idx gold_pct) as [v4 | e4] eqn:H4.
  2:{ destruct (align idx silver_pct); discriminate. }
  destruct (align idx silver_pct) as [v5 | e5] eqn:H5; [| discriminate].
  pose proof (align_length _ _ _ H1) as L1.
  pose proof (align_length _ _ _ H2) as L2.
  pose proof (align_length _ _ _ H3) as L3.
  pose proof (align_length _ _ _ H4) as L4.
  pose proof (align_length _ _ _ H5) as L5.
  assert (Hdrop : forall (i : list Z) (u1 u2 u3 u4 u5 ur : list fval),
    dropna_subset REQUIRED_COLUMNS
      (set_col (mkFrame i
                  [("NASDAQ 6M %", u1); ("S&P 500 6M %", u2);
                   ("Yield Spread", u3); ("Gold 6M %", u4);
                   ("Silver 6M %", u5)])
               "Recession" ur)
    = Ok (select_rows
            (zip_with andb (map notna u1)
               (zip_with andb (map notna u3) (map (fun _ => true) i)))
            (mkFrame i
               [("NASDAQ 6M %", u1); ("S&P 500 6M %", u2);
                ("Yield Spread", u3); ("Gold 6M %", u4);
                ("Silver 6M %", u5); ("Recession", ur)]))).
  { intros. reflexivity. }
  destruct recessions_monthly as [monthly |].
  - destruct (get_col monthly "USREC") as [usrec | e] eqn:Hcol;
      [| discriminate].
    unfold set_col_series. cbn [index columns map fst].
    destruct idx as [| x idx']; [destruct usrec as [| r usrec'] |].
    + cbn [align]. destruct (align [] []) as [vr | er] eqn:Hr;
        [| discriminate].
      rewrite Hdrop. intros H. injection H as <-.
      exists [], v1, v2, v3, v4, v5, vr.
      split; [reflexivity |]. split.
      * pose proof (align_length _ _ _ Hr).
        repeat (constructor; [assumption |]). constructor.
      * split; left; [exact H1 | reflexivity].
    + rewrite Hdrop. intros H. injection H as <-.
      exists (map fst (r :: usrec')),
             (map (fun _ => NaN) (r :: usrec')),
             (map (fun _ => NaN) (r :: usrec')),
             (map (fun _ => NaN) (r :: usrec')),
             (map (fun _ => NaN) (r :: usrec')),
             (map (fun _ => NaN) (r :: usrec')),
             (map snd (r :: usrec')).
      split; [reflexivity |]. split; [| split].
      * repeat (constructor; [rewrite !length_map; reflexivity |]).
        constructor.
      * right. rewrite map_map. reflexivity.
      * right. exists monthly, (r :: usrec'). auto.
    + destruct (align (x :: idx') usrec) as [vr | er] eqn:Hr;
        [| destruct usrec; discriminate].
      assert (Hgoal :
        dropna_subset REQUIRED_COLUMNS
          (set_col (mkFrame (x :: idx')
                      [("NASDAQ 6M %", v1); ("S&P 500 6M %", v2);
                       ("Yield Spread", v3); ("Gold 6M %", v4);
                       ("Silver 6M %", v5)])
                   "Recession" vr) = Ok combined ->
        exists (idx : list Z) (v1' v2' v3' v4' v5' vr' : list fval),
          combined =
            select_rows
              (zip_with andb (map notna v1')
                 (zip_with andb (map notna v3') (map (fun _ => true) idx)))
              (mkFrame idx
                 [("NASDAQ 6M %", v1'); ("S&P 500 6M %", v2');
                  ("Yield Spread", v3'); ("Gold 6M %", v4');
                  ("Silver 6M %", v5'); ("Recession", vr')]) /\
          Forall (fun vs : list fval => length vs = length idx)
                 [v1'; v2'; v3'; v4'; v5'; vr'] /\
          (align idx nasdaq_pct = Ok v1' \/ v1' = map (fun _ => NaN) idx) /\
          (idx = x :: idx' \/
           exists monthly' usrec',
             Some monthly = Some monthly' /\
             get_col monthly' "USREC" = Ok usrec' /\ idx = map fst usrec')).
      { rewrite Hdrop. intros H. injection H as <-.
        exists (x :: idx'), v1, v2, v3, v4, v5, vr.
        split; [reflexivity |]. split.
        - pose proof (align_length _ _ _ Hr).
          repeat (constructor; [assumption |]). constructor.
        - split; left; [exact H1 | reflexivity]. }
      destruct usrec; exact Hgoal.
  - cbn [index]. rewrite Hdrop. intros H. injection H as <-.
    exists idx, v1, v2, v3, v4, v5, (map (fun _ => fzero) idx).
    split; [reflexivity |]. split.
    + repeat (constructor; [assumption |]).
      constructor; [apply length_map | constructor].
    + split; left; [exact H1 | reflexivity].
Qed.


(** The two ways for [combine_data] to raise. *)
Lemma combine_data_Raise_inv (nasdaq_pct sp500_pct yield_spread gold_pct
    silver_pct : list (Z * fval)) (recessions_monthly : option Frame)
    (e : exn) :
  combine_data nasdaq_pct sp500_pct yield_spread gold_pct silver_pct
               recessions_monthly = Raise e ->
  e = "ValueError" \/
  (e = "KeyError" /\
   exists monthly, recessions_monthly = Some monthly /\
                   assoc "USREC" (columns monthly) = None).
Proof.
  unfold combine_data, frame_of_series. cbn [map fst snd align_all].
  remember (union_index [map fst nasdaq_pct; map fst sp500_pct;
                         map fst yield_spread; map fst gold_pct;
                         map fst silver_pct]) as idx eqn:Hidx.
  destruct (align idx nasdaq_pct) as [v1 | e1] eqn:H1.
  2:{ apply align_raises in H1. subst e1. intros H. left.
      injection H as <-. reflexivity. }
  destruct (align idx sp500_pct) as [v2 | e2] eqn:H2.
  2:{ apply align_raises in H2. subst e2. intros H. left.
      destruct (align idx yield_spread), (align idx gold_pct),
        (align idx silver_pct); injection H as <-; reflexivity. }
  destruct (align idx yield_spread) as [v3 | e3] eqn:H3.
  2:{ apply align_raises in H3. subst e3. intros H. left.
      destruct (align idx gold_pct), (align idx silver_pct);
        injection H as <-; reflexivity. }
  destruct (align idx gold_pct) as [v4 | e4] eqn:H4.
  2:{ apply align_raises in H4. subst e4. intros H. left.
      destruct (align idx silver_pct); injection H as <-; reflexivity. }
  destruct (align idx silver_pct) as [v5 | e5] eqn:H5.
  2:{ apply align_raises in H5. subst e5. intros H. left.
      injection H as <-. reflexivity. }
  destruct recessions_monthly as [monthly |]; [| discriminate].
  unfold get_col.
  destruct (assoc "USREC" (columns monthly)) as [vs |] eqn:Hcol.
  - unfold set_col_series. cbn [index columns].
    destruct idx as [| x idx'];
      [destruct (zip (index monthly) vs) as [| r usrec']; [| discriminate] |].
    + destruct (align [] []) as [vr | er] eqn:Hr; [discriminate |].
      intros H. injection H as <-. left. apply (align_raises _ _ _ Hr).
    + destruct (align (x :: idx') (zip (index monthly) vs))
        as [vr | er] eqn:Hr; [discriminate |].
      intros H. left. apply align_raises in Hr. subst er.
      injection H as <-. reflexivity.
  - intros H. injection H as <-. right. split; [reflexivity |]. eauto.
Qed.

(** X11.  The table returned by the merge has the six columns 'NASDAQ 6M %',
    'S&P 500 6M %', 'Yield Spread', 'Gold 6M %', 'Silver 6M %', 'Recession'
    in this order, each with one value per date, and when no series given
    repeats a date, neither does the table.  The merge raises in two cases
    only: KeyError when a recession frame is given that has no 'USREC'
    column, ValueError when some series repeats a date (pandas cannot align
    it on the dates of the others). *)
Theorem combined_table_well_formed (nasdaq_pct sp500_pct yield_spread
    gold_pct silver_pct : list (Z * fval))
    (recessions_monthly : option Frame) :
  (forall combined,
     combine_data nasdaq_pct sp500_pct yield_spread gold_pct silver_pct
                  recessions_monthly = Ok combined ->
     map fst (columns combined) = COMBINED_COLUMNS /\
     rectangular combined /\
     (unique_dates nasdaq_pct -> unique_dates sp500_pct ->
      unique_dates yield_spread -> unique_dates gold_pct ->
      unique_dates silver_pct -> unique_index recessions_monthly ->
      NoDup (index combined))) /\
  (forall e,
     combine_data nasdaq_pct sp500_pct yield_spread gold_pct silver_pct
                  recessions_monthly = Raise e ->
     (e = "KeyError" /\
      exists monthly, recessions_monthly = Some monthly /\
                      assoc "USREC" (columns monthly) = None) \/
     (e = "ValueError" /\
      ~ (unique_dates nasdaq_pct /\ unique_dates sp500_pct /\
         unique_dates yield_spread /\ unique_dates gold_pct /\
         unique_dates silver_pct /\ unique_index recessions_monthly))).
Proof.
  assert (Hframe : unique_dates nasdaq_pct -> unique_dates sp500_pct ->
    unique_dates yield_spread -> unique_dates gold_pct ->
    unique_dates silver_pct -> unique_index recessions_monthly ->
    forall monthly vs,
      recessions_monthly = Some monthly \/ recessions_monthly = None ->
      (recessions_monthly = Some monthly ->
       assoc "USREC" (columns monthly) = Some vs) ->
      exists combined,
        combine_data nasdaq_pct sp500_pct yield_spread gold_pct silver_pct
                     recessions_monthly = Ok combined /\
        index combined = combined_index nasdaq_pct sp500_pct yield_spread
                                        gold_pct silver_pct).
  { intros Hn Hs Hy Hg Hsi Hr monthly vs [-> | ->] Hcol.
    - eexists. split.
      + apply (combine_data_frame _ _ _ _ _ (Some monthly)
                 (Some (zip (index monthly) vs))); try assumption.
        unfold get_col. rewrite (Hcol eq_refl). reflexivity.
      + reflexivity.
    - eexists. split.
      + apply (combine_data_frame _ _ _ _ _ None None);
          first [assumption | exact I].
      + reflexivity. }
  split.
  - intros combined Hrun.
    pose proof Hrun as Hshape.
    apply combine_data_Ok_inv in Hshape
      as (idx & v1 & v2 & v3 & v4 & v5 & vr & -> & Hlen & _).
    split; [reflexivity |]. split.
    + unfold rectangular, select_rows. cbn [index columns map fst snd].
      repeat match goal with
             | H : Forall _ (_ :: _) |- _ =>
                 apply Forall_cons in H as [? H]
             end.
      repeat (constructor; [cbn [snd]; apply filter_by_length; assumption |]).
      constructor.
    + intros Hn Hs Hy Hg Hsi Hr.
      assert (Hidx : index (select_rows
                (zip_with andb (map notna v1)
                   (zip_with andb (map notna v3) (map (fun _ => true) idx)))
                (mkFrame idx
                   [("NASDAQ 6M %", v1); ("S&P 500 6M %", v2);
                    ("Yield Spread", v3); ("Gold 6M %", v4);
                    ("Silver 6M %", v5); ("Recession", vr)]))
              = combined_index nasdaq_pct sp500_pct yield_spread gold_pct
                               silver_pct).
      { destruct recessions_monthly as [monthly |].
        - destruct (assoc "USREC" (columns monthly)) as [vs |] eqn:Hcol.
          + destruct (Hframe Hn Hs Hy Hg Hsi Hr monthly vs
                        (or_introl eq_refl) (fun _ => Hcol))
              as (c & Hc & Hi).
            rewrite Hrun in Hc. injection Hc as <-. exact Hi.
          + unfold combine_data, get_col in Hrun. rewrite Hcol in Hrun.
            destruct (frame_of_series _); discriminate Hrun.
        - destruct (Hframe Hn Hs Hy Hg Hsi Hr (mkFrame [] []) []
                      (or_intror eq_refl) (fun H => ltac:(discriminate H)))
            as (c & Hc & Hi).
          rewrite Hrun in Hc. injection Hc as <-. exact Hi. }
      rewrite Hidx. unfold combined_index.
      apply NoDup_ListNoDup, List.NoDup_filter, NoDup_ListNoDup.
      apply union_index_spec. unfold unique_dates in *.
      repeat (apply Forall_cons; split; [assumption |]). constructor.
  - intros e Hrun.
    destruct (combine_data_Raise_inv _ _ _ _ _ _ _ Hrun)
      as [-> | [-> Hmissing]]; [right | left; auto].
    split; [reflexivity |].
    intros (Hn & Hs & Hy & Hg & Hsi & Hr).
    destruct recessions_monthly as [monthly |].
    + destruct (assoc "USREC" (columns monthly)) as [vs |] eqn:Hcol.
      * destruct (Hframe Hn Hs Hy Hg Hsi Hr monthly vs
                    (or_introl eq_refl) (fun _ => Hcol)) as (c & Hc & _).
        rewrite Hrun in Hc. discriminate Hc.
      * unfold combine_data, get_col in Hrun. rewrite Hcol in Hrun.
        rewrite frame_of_series_unique in Hrun.
        -- discriminate Hrun.
        -- unfold unique_dates in *.
           repeat (apply Forall_cons; split; [cbn [snd]; assumption |]).
           constructor.
    + destruct (Hframe Hn Hs Hy Hg Hsi Hr (mkFrame [] []) []
                  (or_intror eq_refl) (fun H => ltac:(discriminate H)))
        as (c & Hc & _).
      rewrite Hrun in Hc. discriminate Hc.
Qed.

Lemma get_lookup_NoDup (s : list (Z * fval)) (i : nat) (d : Z) (v : fval) :
  NoDup (map fst s) -> s !! i = Some (d, v) -> get s d = Some v.
Proof.
  revert i. induction s as [| [k x] s IH]; intros i Hnd Hi; [discriminate |].
  cbn in Hnd. apply NoDup_cons in Hnd as [Hk Hnd].
  destruct i as [| i]; cbn in Hi |- *.
  - injection Hi as -> ->. rewrite Z.eqb_refl. reflexivity.
  - destruct (Z.eqb_spec k d) as [-> | _]; [| apply (IH i); assumption].
    exfalso. apply Hk. apply list_elem_of_In, in_map_iff.
    exists (d, v). split; [reflexivity |].
    apply list_elem_of_In, list_elem_of_lookup. eauto.
Qed.

(** Every date of the combined table is one at which the NASDAQ series
    (whose dates do not repeat) has a value. *)
Lemma combine_data_has_nasdaq (nasdaq_pct sp500_pct yield_spread gold_pct
    silver_pct : list (Z * fval)) (recessions_monthly : option Frame)
    (combined : Frame) (d : Z) :
  NoDup (map fst nasdaq_pct) ->
  combine_data nasdaq_pct sp500_pct yield_spread gold_pct silver_pct
               recessions_monthly = Ok combined ->
  In d (index combined) -> has_value nasdaq_pct d = true.
Proof.
  intros Hnd Hrun Hin.
  apply combine_data_Ok_inv in Hrun
    as (idx & v1 & v2 & v3 & v4 & v5 & vr & -> & _ & Hv1 & _).
  unfold select_rows in Hin. cbn [index] in Hin.
  apply In_filter_notna in Hin as (i & v & Hi & Hv & Hnotna).
  destruct Hv1 as [Halign | ->].
  - apply align_Ok_unique in Halign; [| exact Hnd]. subst v1.
    rewrite list_lookup_fmap, Hi in Hv. injection Hv as <-.
    rewrite notna_at_date in Hnotna. exact Hnotna.
  - rewrite list_lookup_fmap, Hi in Hv. injection Hv as <-.
    discriminate Hnotna.
Qed.

(** X12.  The six-month change has no value for the first six months of a
    series, and the merge requires the NASDAQ change: the dates of the first
    six rows of the monthly NASDAQ series (whose dates do not repeat) are
    never in the combined table, and neither is any date at which the
    NASDAQ series has no row. *)
Theorem first_six_months_left_out (pads : bool)
    (nasdaq_monthly sp500_pct yield_spread gold_pct silver_pct
     : list (Z * fval))
    (recessions_monthly : option Frame) (combined : Frame) :
  NoDup (map fst nasdaq_monthly) ->
  combine_data (times_100 (pct_change_default pads 6 nasdaq_monthly))
               sp500_pct yield_spread gold_pct silver_pct recessions_monthly
    = Ok combined ->
  (forall (i : nat) d v,
     (i < 6)%nat -> nasdaq_monthly !! i = Some (d, v) ->
     ~ In d (index combined)) /\
  (forall d, ~ In d (map fst nasdaq_monthly) -> ~ In d (index combined)).
Proof.
  intros Hnd Hrun.
  assert (Hdates := pct_change_default_dates pads 6 nasdaq_monthly).
  assert (Hkept : forall d, In d (index combined) ->
    has_value (times_100 (pct_change_default pads 6 nasdaq_monthly)) d
    = true).
  { intros d. eapply combine_data_has_nasdaq; [| exact Hrun].
    rewrite Hdates. exact Hnd. }
  split.
  - intros i d v Hi Hrow Hin. apply Hkept in Hin.
    destruct (times_100 (pct_change_default pads 6 nasdaq_monthly) !! i)
      as [[d' v'] |] eqn:Hpct.
    + assert (d' = d) as ->.
      { assert (H : map fst (times_100
                       (pct_change_default pads 6 nasdaq_monthly)) !! i
                    = Some d') by (rewrite list_lookup_fmap, Hpct; reflexivity).
        rewrite Hdates, list_lookup_fmap, Hrow in H.
        injection H as <-. reflexivity. }
      pose proof (pct_change_default_head pads 6 i nasdaq_monthly _ Hi Hpct)
        as Hnan.
      cbn [snd] in Hnan. subst v'.
      apply get_lookup_NoDup in Hpct; [| rewrite Hdates; exact Hnd].
      unfold has_value in Hin. rewrite Hpct in Hin. discriminate Hin.
    + apply lookup_ge_None in Hpct. apply lookup_lt_Some in Hrow.
      assert (Hl : length (map fst (times_100
                      (pct_change_default pads 6 nasdaq_monthly)))
                   = length (map fst nasdaq_monthly))
        by (rewrite Hdates; reflexivity).
      rewrite !length_map in Hl. lia.
  - intros d Hd Hin. apply Hkept in Hin. unfold has_value in Hin.
    destruct (get (times_100 (pct_change_default pads 6 nasdaq_monthly)) d)
      eqn:Hg; [| discriminate Hin].
    apply Hd. rewrite <- Hdates. apply In_labels_get.
    rewrite Hg. discriminate.
Qed.

(** ** More on the pipeline *)

Section PipelineProperties.

Variable yf_download : string -> Timestamp -> Timestamp -> nat -> result Frame.
Variable fred_reader : string -> Timestamp -> Timestamp -> nat -> result Frame.
Variable urlretrieve : string -> nat -> result File.

Lemma print_range_inv (label : string) (idx : list Z) (suffix : string)
    (w w' : World) :
  print_range label idx suffix w = (Ok tt, w') -> idx <> [].
Proof.
  unfold print_range. intros H Hnil. subst idx.
  cbn in H. discriminate H.
Qed.

(** X13.  [load_all_data] never returns an empty table: its summary reads the
    first date of the combined table, so when no month has both the NASDAQ
    change and the yield spread it raises instead of returning. *)
Theorem load_all_data_returns_rows (start_date end_date : option Z)
    (cache_dir : string) (w w' : World) (combined : Frame) :
  load_all_data yf_download fred_reader urlretrieve start_date end_date
                cache_dir w = (Ok combined, w') ->
  index combined <> [].
Proof.
  unfold load_all_data.
  rewrite (bind_ok _ _ _ _ _ (end_or_now_eq end_date w)).
  intros Hrun.
  apply bind_Ok_inv in Hrun as (? & w0 & _ & Hrun).
  apply bind_Ok_inv in Hrun as ([[nasdaq nasdaq_monthly] nasdaq_pct] & w1 & _ & Hrun).
  apply bind_Ok_inv in Hrun as ([[sp500 sp500_monthly] sp500_pct] & w2 & _ & Hrun).
  apply bind_Ok_inv in Hrun
    as ([[[gold_monthly gold_pct] silver_monthly] silver_pct] & w3 & _ & Hrun).
  apply bind_Ok_inv in Hrun as ([yields_df yields_monthly] & w4 & _ & Hrun).
  apply bind_Ok_inv in Hrun as ([recessions recessions_monthly] & w5 & Hrec & Hrun).
  apply bind_Ok_inv in Hrun as (yield_spread & ? & Hspread & Hrun).
  apply lift_result_inv in Hspread as [_ ->].
  apply bind_Ok_inv in Hrun as (combined' & ? & Hcombine & Hrun).
  apply lift_result_inv in Hcombine as [Hcombine ->].
  apply bind_Ok_inv in Hrun as (? & wa & Ha & Hrun).
  apply bind_Ok_inv in Hrun as (? & wb & Hb & Hrun).
  apply bind_Ok_inv in Hrun as (? & wc & Hc & Hrun).
  apply bind_Ok_inv in Hrun as (? & wd & Hd & Hrun).
  apply bind_Ok_inv in Hrun as (? & we & He & Hrun).
  apply bind_Ok_inv in Hrun as ([] & wf & Hf & Hrun).
  apply bind_Ok_inv in Hrun as (? & wg & Hg & Hrun).
  injection Hrun as <- <-.
  exact (print_range_inv _ _ _ _ _ Hf).
Qed.

End PipelineProperties.

(** ** Treasury yields *)

Section YieldProperties.

Variable fred_reader : string -> Timestamp -> Timestamp -> nat -> result Frame.



















End YieldProperties.

(** ** More on gold and silver *)

Section MetalsProperties.

Variable yf_download : string -> Timestamp -> Timestamp -> nat -> result Frame.
Variable urlretrieve : string -> nat -> result File.

Lemma print_metal_range_inv (label : string) (monthly : list (Z * fval))
    (w w' : World) :
  print_metal_range label monthly w = (Ok tt, w') -> dropna monthly <> [].
Proof.
  unfold print_metal_range. intros H Hnil. rewrite Hnil in H.
  cbn in H. discriminate H.
Qed.

(** X15.  The loader answers all or nothing.  What it returns is either four
    empty series, or spliced gold and silver series that each have at least
    one value and ascend by date, with their six-month changes on the same
    dates: a silver series without any value makes the loader drop the gold
    series too. *)
Theorem gold_silver_all_or_nothing (start_date end_date : option Z)
    (cache_dir : string) (w w' : World)
    (gold_monthly gold_pct silver_monthly silver_pct : list (Z * fval)) :
  load_gold_silver_data yf_download urlretrieve start_date end_date
                        cache_dir w
    = (Ok (gold_monthly, gold_pct, silver_monthly, silver_pct), w') ->
  (gold_monthly = [] /\ gold_pct = [] /\ silver_monthly = [] /\
   silver_pct = []) \/
  (dropna gold_monthly <> [] /\ dropna silver_monthly <> [] /\
   ascending gold_monthly /\ ascending silver_monthly /\
   map fst gold_pct = map fst gold_monthly /\
   map fst silver_pct = map fst silver_monthly).
Proof.
  intros Hrun.
  destruct (load_gold_silver_data_values _ _ _ _ _ _ _ _ _ _ _ Hrun)
    as [Hempty | [Hgold Hsilver]]; [left; exact Hempty | right].
  assert (Hrows : gold_monthly <> []) by (intros ->; apply Hgold; reflexivity).
  destruct (load_gold_silver_data_inv _ _ _ _ _ _ _ _ _ _ _ Hrun Hrows)
    as (sheet & yf_gold & yf_silver & wb_gold & wb_silver & yf_gold_close &
        yf_silver_close & wb_end_date & _ & _ & _ & _ & _ & _ & _ & _ &
        Hg & Hs & pads & -> & ->).
  split; [exact Hgold |]. split; [exact Hsilver |].
  split; [rewrite Hg; apply sort_index_sorted |].
  split; [rewrite Hs; apply sort_index_sorted |].
  split; apply pct_change_default_dates.
Qed.


(** X17.  The move of the workbook from the old place stands before the
    [try]: when the workbook is at the old place and not in the cache, and
    the cache directory cannot be made because a file has its name, the
    loader raises instead of falling back, and it has written nothing. *)
Theorem workbook_move_is_not_guarded (start_date end_date : option Z)
    (cache_dir : string) (w : World) (f g : File) :
  cache_dir <> "" ->
  files w !! wb_name = Some f ->
  path_exists (path_join cache_dir wb_name) w = false ->
  files w !! cache_dir = Some g ->
  exists w',
    load_gold_silver_data yf_download urlretrieve start_date end_date
                          cache_dir w = (Raise "FileExistsError", w') /\
    files w' = files w /\
    stdout w' = stdout w ++ ["Loading Gold and Silver data..."].
Proof.
  intros Hdir Hold Hnew Hfile.
  assert (Hdirb : String.eqb cache_dir "" = false)
    by (apply String.eqb_neq; exact Hdir).
  pose proof (path_exists_file _ _ _ Hold) as Hthere.
  unfold load_gold_silver_data.
  rewrite (bind_ok _ _ _ _ _ (end_or_now_eq end_date w)).
  unfold bind at 1. cbn [print].
  unfold bind at 1. unfold os_path_exists at 1.
  unfold bind at 1. unfold os_path_exists at 1.
  match goal with
  | |- context [path_exists wb_name ?w0] =>
      change (path_exists wb_name w0) with (path_exists wb_name w)
  end.
  match goal with
  | |- context [path_exists (path_join cache_dir wb_name) ?w0] =>
      change (path_exists (path_join cache_dir wb_name) w0)
        with (path_exists (path_join cache_dir wb_name) w)
  end.
  rewrite Hthere, Hnew. cbn [andb negb when].
  unfold bind at 1. unfold bind at 1. unfold os_makedirs at 1.
  rewrite Hdirb. cbn [files]. rewrite Hfile.
  eexists. split; [reflexivity |]. cbn [files stdout]. split; reflexivity.
Qed.


End MetalsProperties.

(** ** The index loaders and the recession loader *)

Section IndexLoaders.

Variable yf_download : string -> Timestamp -> Timestamp -> nat -> result Frame.

Lemma index_loader_inv (cache_file description symbol : string)
    (start_date : Z) (end_date : Z) (cache_dir : string)
    (w w' : World) (df : Frame) (monthly pct : list (Z * fval)) :
  (do data <- load_or_download cache_file
                (quiet (yf_download symbol start_date end_date))
                description cache_dir ;
   do price <- lift_result (get_col data "Close") ;
   do change <- pct_change_call 6 (resample_ME agg_last price) ;
   ret (data, resample_ME agg_last price, times_100 change)) w
    = (Ok (df, monthly, pct), w') ->
  files w' !! path_join cache_dir cache_file = Some (PickleFile df) /\
  (exists price, get_col df "Close" = Ok price /\
                 monthly = resample_ME agg_last price) /\
  map fst pct = map fst monthly /\
  (forall (i : nat) d v,
     (i < 6)%nat -> pct !! i = Some (d, v) -> v = NaN).
Proof.
  intros Hrun.
  apply bind_Ok_inv in Hrun as (data & w1 & Hlod & Hrun).
  apply bind_Ok_inv in Hrun as (price & w2 & Hcol & Hrun).
  apply lift_result_inv in Hcol as [Hcol ->].
  apply bind_Ok_inv in Hrun as (change & w3 & Hchange & Hrun).
  injection Hchange as <- <-. injection Hrun as <- <- <- <-.
  split; [apply (load_or_download_returns _ _ _ _ _ _ _ Hlod) |].
  split; [exists price; split; [exact Hcol | reflexivity] |].
  split; [apply pct_change_default_dates |].
  intros i d v Hi Hrow.
  apply (pct_change_default_head _ 6 i _ _ Hi Hrow).
Qed.

(** X19.  What the two index loaders return: the frame is the one in the
    cache under the loader's key at the end; the monthly series is made of
    its 'Close' column; the six-month change has the dates of the monthly
    series, and its first six values are missing whatever the prices. *)
Theorem index_loaders_change_starts_missing (start_date end_date : option Z)
    (cache_dir : string) (w w' : World) (df : Frame)
    (monthly pct : list (Z * fval)) :
  (load_nasdaq_data yf_download start_date end_date cache_dir w
     = (Ok (df, monthly, pct), w') ->
   files w' !! path_join cache_dir "nasdaq.pkl" = Some (PickleFile df) /\
   monthly_change_of df monthly pct) /\
  (load_sp500_data yf_download start_date end_date cache_dir w
     = (Ok (df, monthly, pct), w') ->
   files w' !! path_join cache_dir "sp500.pkl" = Some (PickleFile df) /\
   monthly_change_of df monthly pct).
Proof.
  split; intros Hrun.
  - unfold load_nasdaq_data in Hrun.
    rewrite (bind_ok _ _ _ _ _ (end_or_now_eq end_date w)) in Hrun.
    apply bind_Ok_inv in Hrun as ([] & w1 & _ & Hrun).
    apply index_loader_inv in Hrun. exact Hrun.
  - unfold load_sp500_data in Hrun.
    rewrite (bind_ok _ _ _ _ _ (end_or_now_eq end_date w)) in Hrun.
    apply bind_Ok_inv in Hrun as ([] & w1 & _ & Hrun).
    apply index_loader_inv in Hrun. exact Hrun.
Qed.

End IndexLoaders.

Section RecessionLoader.

Variable fred_reader : string -> Timestamp -> Timestamp -> nat -> result Frame.

Lemma frame_resample_ME_well_formed (agg : list fval -> fval) (f : Frame) :
  (forall d, In d (index f) -> known_month (month_index d)) ->
  well_formed (frame_resample_ME agg f).
Proof.
  intros Hknown. unfold frame_resample_ME, well_formed. cbn [index columns].
  split.
  - apply month_end_sorted; [apply month_bins_sorted |].
    intros k Hk. apply (month_bins_known (index f)); assumption.
  - apply List.Forall_forall. intros c Hc.
    apply in_map_iff in Hc as (c0 & <- & _). cbn [snd].
    rewrite !length_map. reflexivity.
Qed.

(** X20.  The recession loader returns both of its results or neither.  The
    indicator it returns is the frame in the cache; the monthly frame has
    the same columns, one value per month in each, and its months ascend
    from the first to the last month of the indicator. *)
Theorem recession_monthly_well_formed (start_date end_date : option Z)
    (cache_dir : string) (w w' : World) (recessions monthly : option Frame) :
  load_recession_data fred_reader start_date end_date cache_dir w
    = (Ok (recessions, monthly), w') ->
  (recessions = None /\ monthly = None) \/
  (exists data monthly_data,
     recessions = Some data /\ monthly = Some monthly_data /\
     files w' !! path_join cache_dir "recessions.pkl"
       = Some (PickleFile data) /\
     map fst (columns monthly_data) = map fst (columns data) /\
     index monthly_data = map month_end (month_bins (index data)) /\
     ((forall d, In d (index data) -> known_month (month_index d)) ->
      well_formed monthly_data)).
Proof.
  intros Hrun.
  apply load_recession_data_inv in Hrun
    as [Hnone | (data & -> & -> & Hcached)]; [left; exact Hnone | right].
  exists data, (frame_resample_ME agg_max data).
  split; [reflexivity |]. split; [reflexivity |].
  split; [exact Hcached |].
  split; [unfold frame_resample_ME; cbn [columns]; rewrite map_map;
          reflexivity |].
  split; [reflexivity |].
  apply frame_resample_ME_well_formed.
Qed.

End RecessionLoader.

(** ** The further properties at concrete inputs *)

Lemma load_or_download_cache_hit_witness :
  exists w',
    load_or_download "nasdaq.pkl" fetch_fails "NASDAQ" DEFAULT_CACHE_DIR
                     world_nasdaq_cached = (Ok nasdaq_ex, w') /\
    files w' = files world_nasdaq_cached /\
    fetches w' = fetches world_nasdaq_cached /\
    stdout w' = stdout world_nasdaq_cached
                ++ ["  Loading " +:+ "NASDAQ" +:+ " from cache..."].
Proof.
  apply (load_or_download_cache_hit "nasdaq.pkl" "NASDAQ" DEFAULT_CACHE_DIR
           fetch_fails world_nasdaq_cached nasdaq_ex).
  - discriminate.
  - vm_compute. reflexivity.
  - vm_compute. reflexivity.
Defined.

Lemma load_or_download_result_is_cached_witness :
  files (snd run_nasdaq_download) !! path_join DEFAULT_CACHE_DIR "nasdaq.pkl"
    = Some (PickleFile nasdaq_ex) /\
  (forall p, p <> path_join DEFAULT_CACHE_DIR "nasdaq.pkl" ->
             files (snd run_nasdaq_download) !! p = files empty_world !! p) /\
  DEFAULT_CACHE_DIR ∈ dirs (snd run_nasdaq_download) /\
  (fetches (snd run_nasdaq_download) = fetches empty_world \/
   fetches (snd run_nasdaq_download) = S (fetches empty_world)).
Proof.
  apply (load_or_download_result_is_cached "nasdaq.pkl" "NASDAQ"
           DEFAULT_CACHE_DIR fetch_nasdaq empty_world
           (snd run_nasdaq_download) nasdaq_ex).
  vm_compute. reflexivity.
Defined.

Lemma load_or_download_unreadable_entry_witness :
  exists w',
    load_or_download "nasdaq.pkl" fetch_nasdaq "NASDAQ" DEFAULT_CACHE_DIR
                     world_bad_pickle = (Raise "UnpicklingError", w') /\
    files w' = files world_bad_pickle /\
    fetches w' = fetches world_bad_pickle.
Proof.
  apply (load_or_download_unreadable_entry "nasdaq.pkl" "NASDAQ"
           DEFAULT_CACHE_DIR fetch_nasdaq world_bad_pickle None).
  - discriminate.
  - vm_compute. reflexivity.
  - vm_compute. reflexivity.
Defined.



Lemma periods_functions_raise_only_on_missing_spread_witness :
  get_recession_periods no_close_frame = Ok [] /\
  get_inversion_periods flagged_frame "10Y-2Y Spread" = Raise "KeyError" /\
  exists periods, get_inversion_periods flagged_frame "Yield Spread"
                  = Ok periods.
Proof.
  split; [| split].
  - destruct (periods_functions_raise_only_on_missing_spread no_close_frame)
      as (_ & Hnone & _).
    apply Hnone. reflexivity.
  - destruct (periods_functions_raise_only_on_missing_spread flagged_frame)
      as (_ & _ & Hmissing & _).
    apply Hmissing. reflexivity.
  - destruct (periods_functions_raise_only_on_missing_spread flagged_frame)
      as (_ & _ & _ & Hpresent).
    apply Hpresent. discriminate.
Defined.

Lemma periods_cover_selected_dates_witness :
  exists periods,
    get_recession_periods flagged_frame = Ok periods /\
    periods_cover (selected_dates feq_one (index flagged_frame)
                     [num 0; num 1; num 1; NaN; num 1]) periods.
Proof.
  destruct (periods_cover_selected_dates flagged_frame) as (Hrec & _).
  - cbn [index flagged_frame].
    repeat (apply SSorted_cons;
            [| repeat (apply List.Forall_cons; [lia |]); apply List.Forall_nil]).
    apply SSorted_nil.
  - apply Hrec. reflexivity.
Defined.

Lemma month_end_periods_by_month_witness :
  periods_of_dates (map month_end four_months)
  = Ok (map month_period (find_intervals 1 four_months)).
Proof.
  apply (month_end_periods_by_month four_months).
  - intros k Hk. unfold known_month.
    cbn in Hk. destruct Hk as [<- | [<- | [<- | [<- | []]]]]; lia.
  - unfold four_months.
    repeat (apply SSorted_cons;
            [| repeat (apply List.Forall_cons; [lia |]); apply List.Forall_nil]).
    apply SSorted_nil.
Defined.

Lemma splice_sorted_labels_witness :
  NoDup (map fst (splice wb_silver_ex yf_silver_monthly_ex d_2020_05_31)).
Proof.
  destruct (splice_sorted_labels wb_silver_ex yf_silver_monthly_ex
              d_2020_05_31) as (_ & _ & Huniq).
  apply Huniq. vm_compute.
  repeat (constructor; [rewrite ?list_elem_of_In; cbn; lia |]).
  constructor.
Defined.

Lemma resample_labels_ascend_witness :
  StronglySorted Z.lt (map fst (resample_ME agg_last gap_series)) /\
  NoDup (map fst (resample_ME agg_last gap_series)) /\
  (forall r, In r gap_series ->
     In (month_end (month_index (fst r)))
        (map fst (resample_ME agg_last gap_series))) /\
  resample_ME agg_last [] = [].
Proof.
  apply (resample_labels_ascend agg_last gap_series).
  intros r Hr. unfold known_month.
  cbn in Hr. repeat (destruct Hr as [<- | Hr]; [vm_compute; split; congruence |]).
  destruct Hr.
Defined.

Lemma combined_table_well_formed_witness :
  (map fst (columns (frame_of combined_ex)) = COMBINED_COLUMNS /\
   rectangular (frame_of combined_ex) /\
   NoDup (index (frame_of combined_ex))) /\
  combine_data repeated_day sp500_pct_ex yield_spread_ex gold_pct_ex
               silver_pct_ex None = Raise "ValueError" /\
  ~ unique_dates repeated_day.
Proof.
  split; [| split].
  - destruct (combined_table_well_formed nasdaq_pct_ex sp500_pct_ex
                yield_spread_ex gold_pct_ex silver_pct_ex None) as (Hok & _).
    destruct (Hok (frame_of combined_ex)) as (Hcols & Hrect & Hnodup);
      [vm_compute; reflexivity |].
    split; [exact Hcols |]. split; [exact Hrect |].
    apply Hnodup; try exact I;
      unfold unique_dates; apply (bool_decide_unpack _); vm_compute; exact I.
  - vm_compute. reflexivity.
  - destruct (combined_table_well_formed repeated_day sp500_pct_ex
                yield_spread_ex gold_pct_ex silver_pct_ex None) as (_ & Hraise).
    destruct (Hraise "ValueError") as [[Hkey _] | [_ Hrepeat]];
      [vm_compute; reflexivity | discriminate Hkey |].
    intros Hunique. apply Hrepeat.
    repeat split; try exact Hunique; try exact I;
      unfold unique_dates; apply (bool_decide_unpack _); vm_compute; exact I.
Defined.

Lemma first_six_months_left_out_witness :
  (forall (i : nat) d v,
     (i < 6)%nat -> seven_months !! i = Some (d, v) ->
     ~ In d (index (frame_of combined_seven))) /\
  (forall d, ~ In d (map fst seven_months) ->
             ~ In d (index (frame_of combined_seven))).
Proof.
  apply (first_six_months_left_out false seven_months sp500_pct_ex
           yield_spread_ex gold_pct_ex silver_pct_ex None
           (frame_of combined_seven)).
  - vm_compute.
    repeat (constructor; [rewrite ?list_elem_of_In; cbn; lia |]).
    constructor.
  - vm_compute. reflexivity.
Defined.

Lemma load_all_data_returns_rows_witness :
  index (frame_of (fst run_no_recession)) <> [].
Proof.
  apply (load_all_data_returns_rows yf_down fred_down url_down None None
           DEFAULT_CACHE_DIR world_no_recession (snd run_no_recession)
           (frame_of (fst run_no_recession))).
  vm_compute. reflexivity.
Defined.


Lemma gold_silver_all_or_nothing_witness :
  (gold_monthly_run = [] /\ gold_pct_run = [] /\ silver_monthly_run = [] /\
   silver_pct_run = []) \/
  (dropna gold_monthly_run <> [] /\ dropna silver_monthly_run <> [] /\
   ascending gold_monthly_run /\ ascending silver_monthly_run /\
   map fst gold_pct_run = map fst gold_monthly_run /\
   map fst silver_pct_run = map fst silver_monthly_run).
Proof.
  apply (gold_silver_all_or_nothing yf_up url_down None None
           DEFAULT_CACHE_DIR world_wb (snd run_metals)).
  vm_compute. reflexivity.
Defined.


Lemma workbook_move_is_not_guarded_witness :
  exists w',
    load_gold_silver_data yf_up url_down None None DEFAULT_CACHE_DIR
                          world_legacy_blocked
      = (Raise "FileExistsError", w') /\
    files w' = files world_legacy_blocked /\
    stdout w' = stdout world_legacy_blocked
                ++ ["Loading Gold and Silver data..."].
Proof.
  apply (workbook_move_is_not_guarded yf_up url_down None None
           DEFAULT_CACHE_DIR world_legacy_blocked
           (ExcelFile (Some wb_sheet)) (PickleFile nasdaq_ex)).
  - discriminate.
  - vm_compute. reflexivity.
  - vm_compute. reflexivity.
  - vm_compute. reflexivity.
Defined.


Lemma index_loaders_change_starts_missing_witness :
  files (snd run_nasdaq) !! path_join DEFAULT_CACHE_DIR "nasdaq.pkl"
    = Some (PickleFile (fst (fst (index_data_of (fst run_nasdaq))))) /\
  monthly_change_of (fst (fst (index_data_of (fst run_nasdaq))))
                    (snd (fst (index_data_of (fst run_nasdaq))))
                    (snd (index_data_of (fst run_nasdaq))).
Proof.
  destruct (index_loaders_change_starts_missing yf_down None None
              DEFAULT_CACHE_DIR world_cached (snd run_nasdaq)
              (fst (fst (index_data_of (fst run_nasdaq))))
              (snd (fst (index_data_of (fst run_nasdaq))))
              (snd (index_data_of (fst run_nasdaq)))) as (Hnasdaq & _).
  apply Hnasdaq. vm_compute. reflexivity.
Defined.

Lemma recession_monthly_well_formed_witness :
  (fst (recession_data_of (fst run_recession)) = None /\
   snd (recession_data_of (fst run_recession)) = None) \/
  (exists data monthly_data,
     fst (recession_data_of (fst run_recession)) = Some data /\
     snd (recession_data_of (fst run_recession)) = Some monthly_data /\
     files (snd run_recession) !! path_join DEFAULT_CACHE_DIR "recessions.pkl"
       = Some (PickleFile data) /\
     map fst (columns monthly_data) = map fst (columns data) /\
     index monthly_data = map month_end (month_bins (index data)) /\
     ((forall d, In d (index data) -> known_month (month_index d)) ->
      well_formed monthly_data)).
Proof.
  apply (recession_monthly_well_formed fred_down None None DEFAULT_CACHE_DIR
           world_cached (snd run_recession)).
  vm_compute. reflexivity.
Defined.
